(** * GT-511C1R fingerprint scanner driver: wire codec, transport session,
      command layer and enrollment workflow.

    A shallow embedding of [FingerprintModule.cpp] / [FingerprintModule.h].

    Conventions.
    - [byte], [word] and [dword] ([unsigned char], [uint16_t], [uint32_t]) are
      integers of [Z]; every conversion to one of these types is written out
      as a reduction modulo 2^8, 2^16 or 2^32.
    - [int] is 32 bits wide.  The class holds a 51846-byte buffer, so it only
      fits boards with a 32-bit core; the shifts [buff[7] << 24] of
      [recvResponsePkt] are read accordingly.
    - Arrays are lists updated in place with [<[i:=v]>].
    - The serial port [COMMS] is a receive queue and a log of what was
      written.  Bytes reach the receive queue while the driver is busy writing
      a packet or sleeping in [delay]; a receive call works on the bytes that
      are in the queue when it starts. *)

From Stdlib Require Import ZArith List Bool Lia String.
From stdpp Require Import base list.
Import ListNotations.
Local Open Scope Z_scope.

(** ** Symbolic constants of [FingerprintModule.h] *)

Definition TIMEOUT : Z := 11.
Definition WAITTIME : Z := 500.

Definition DEVICE_ID_MSB : Z := 0x00.
Definition DEVICE_ID_LSB : Z := 0x01.

Definition CMD_START_CODE_1 : Z := 0x55.
Definition CMD_START_CODE_2 : Z := 0xAA.
Definition RES_START_CODE_1 : Z := 0x55.
Definition RES_START_CODE_2 : Z := 0xAA.
Definition DATA_START_CODE_1 : Z := 0x5A.
Definition DATA_START_CODE_2 : Z := 0xA5.

Definition CMD_PKT_SIZE : Z := 12.
Definition RESP_PKT_SIZE : Z := 12.
Definition DATA_PKT_MAX_SIZE : Z := 51846.
Definition DATA_PKT_ADD : Z := 6.

(** [enum COMMAND] (the codes the driver sends). *)
Definition CMD_OPEN : Z := 0x01.
Definition CMD_CLOSE : Z := 0x02.
Definition CMD_CHANGE_BAUDRATE : Z := 0x04.
Definition CMD_CMOS_LED : Z := 0x12.
Definition CMD_GET_ENROLL_COUNT : Z := 0x20.
Definition CMD_CHECK_ENROLLED : Z := 0x21.
Definition CMD_ENROLL_START : Z := 0x22.
Definition CMD_ENROLL1 : Z := 0x23.
Definition CMD_ENROLL2 : Z := 0x24.
Definition CMD_ENROLL3 : Z := 0x25.
Definition CMD_IS_PRESS_FINGER : Z := 0x26.
Definition CMD_DELETE_ID : Z := 0x40.
Definition CMD_DELETE_ALL : Z := 0x41.
Definition CMD_VERIFY : Z := 0x50.
Definition CMD_IDENTIFY : Z := 0x51.
Definition CMD_CAPTURE_FINGER : Z := 0x60.

(** [enum RESPONSE]. *)
Definition ACK : Z := 0x30.
Definition NACK : Z := 0x31.

(** [enum RESPONSE_ERROR] (the codes the driver itself tests or stores). *)
Definition NACK_NOT_RECVD : Z := 0x0001.
Definition NACK_INVALID_ENROLLMENT_STAGE : Z := 0x0002.
Definition NACK_IS_ALREADY_USED : Z := 0x1005.
Definition NACK_COMM_ERR : Z := 0x1006.
Definition NACK_BAD_FINGER : Z := 0x100C.
Definition NACK_ENROLL_FAILED : Z := 0x100D.
Definition NACK_DEV_ERR : Z := 0x100F.
Definition NACK_FINGER_IS_NOT_PRESSED : Z := 0x1012.

(** [enum RESPONSE_ERROR] (the codes the driver only names in its messages). *)
Definition NACK_INVALID_POS : Z := 0x1003.
Definition NACK_IS_NOT_USED : Z := 0x1004.
Definition NACK_VERIFY_FAILED : Z := 0x1007.
Definition NACK_IDENTIFY_FAILED : Z := 0x1008.
Definition NACK_DB_IS_FULL : Z := 0x1009.
Definition NACK_DB_IS_EMPTY : Z := 0x100A.
Definition NACK_IS_NOT_SUPPORTED : Z := 0x100E.
Definition NACK_INVALID_PARAM : Z := 0x1011.
Definition NACK_BAD_HEADER : Z := 0x1013.
Definition NACK_BAD_ID : Z := 0x1014.
Definition NACK_BAD_CHKSUM : Z := 0x1015.

(** [enum ENROLL_STATE]. *)
Inductive ENROLL_STATE : Set :=
  | START
  | CAPTURE
  | ENROLL
  | COMPLETE
  | REMOVE_FINGER.

(** ** Machine integers *)

Definition to_byte (v : Z) : Z := v mod 2 ^ 8.
Definition to_word (v : Z) : Z := v mod 2 ^ 16.
Definition to_dword (v : Z) : Z := v mod 2 ^ 32.

Definition is_byte (v : Z) : Prop := 0 <= v < 2 ^ 8.
Definition is_word (v : Z) : Prop := 0 <= v < 2 ^ 16.
Definition is_dword (v : Z) : Prop := 0 <= v < 2 ^ 32.

Definition byteb (v : Z) : bool := (0 <=? v) && (v <? 2 ^ 8).
Definition bytes (l : list Z) : Prop := forallb byteb l = true.

(** [a[i]] for an array held in a list; the index is a machine integer. *)
Definition at_ (a : list Z) (i : Z) : Z := nth (Z.to_nat i) a 0.
(** [a[i] = v]; a store past the end of the list changes nothing. *)
Definition put (a : list Z) (i v : Z) : list Z := <[Z.to_nat i := v]> a.

(** ** Wire codec *)

(** [word FingerprintModule::computeCheckSum(byte* arr, uint32_t size)]:
    [chkSum += arr[i]] on a [word] wraps at 16 bits in every round. *)
Fixpoint computeCheckSum_loop (arr : list Z) (i : Z) (rounds : nat) (chkSum : Z) : Z :=
  match rounds with
  | O => chkSum
  | S rounds' =>
      computeCheckSum_loop arr (i + 1) rounds' (to_word (chkSum + at_ arr i))
  end.

Definition computeCheckSum (arr : list Z) (size : Z) : Z :=
  computeCheckSum_loop arr 0 (Z.to_nat size) 0x0000.

(** [word FingerprintModule::flipEndianness(word flipThis)]. *)
Definition flipEndianness_word (flipThis : Z) : Z :=
  to_word (Z.lor (Z.shiftl (Z.land flipThis 0x00FF) 8)
                 (Z.shiftr (Z.land flipThis 0xFF00) 8)).

(** [dword FingerprintModule::flipEndianness(dword flipThis)]. *)
Definition flipEndianness_dword (flipThis : Z) : Z :=
  to_dword
    (Z.lor (Z.lor (Z.lor (to_dword (Z.shiftl (Z.land flipThis 0x000000FF) 24))
                         (Z.shiftr (Z.land flipThis 0xFF000000) 24))
                  (to_dword (Z.shiftl (Z.land flipThis 0x0000FF00) 8)))
           (Z.shiftr (Z.land flipThis 0x00FF0000) 8)).

(** [void FingerprintModule::split(word splitThis, byte* dest)]. *)
Definition split_word (splitThis : Z) : list Z :=
  [ Z.land (Z.shiftr splitThis 8) 0xFF; Z.land splitThis 0xFF ].

(** [void FingerprintModule::split(dword splitThis, byte* dest)]. *)
Definition split_dword (splitThis : Z) : list Z :=
  [ Z.land (Z.shiftr splitThis 24) 0xFF; Z.land (Z.shiftr splitThis 16) 0xFF;
    Z.land (Z.shiftr splitThis 8) 0xFF; Z.land splitThis 0xFF ].

(** The packet that [send] assembles in [pkt] before writing it. *)
Definition command_packet (cmd param : Z) (isBigEndian : bool) : list Z :=
  let pkt := repeat 0 12 in
  let pkt := put pkt 0 CMD_START_CODE_1 in
  let pkt := put pkt 1 CMD_START_CODE_2 in
  let pkt := put pkt 2 DEVICE_ID_LSB in
  let pkt := put pkt 3 DEVICE_ID_MSB in
  let param := if isBigEndian then flipEndianness_dword param else param in
  let cmd := if isBigEndian then flipEndianness_word cmd else cmd in
  let paramArr := split_dword param in
  let cmdArr := split_word cmd in
  let pkt := put pkt 4 (at_ paramArr 0) in
  let pkt := put pkt 5 (at_ paramArr 1) in
  let pkt := put pkt 6 (at_ paramArr 2) in
  let pkt := put pkt 7 (at_ paramArr 3) in
  let pkt := put pkt 8 (at_ cmdArr 0) in
  let pkt := put pkt 9 (at_ cmdArr 1) in
  let chkSum := computeCheckSum pkt 10 in
  let chkSum := flipEndianness_word chkSum in
  let chkSumArr := split_word chkSum in
  let pkt := put pkt 10 (at_ chkSumArr 0) in
  let pkt := put pkt 11 (at_ chkSumArr 1) in
  pkt.

(** ** The serial port [COMMS] *)

(** [COMMS.available()]: the number of bytes waiting in the receive queue. *)
Definition COMMS_available (q : list Z) : Z := Z.of_nat (length q).

(** [COMMS.read()]: the first waiting byte, or -1 when nothing waits. *)
Definition COMMS_read (q : list Z) : Z * list Z :=
  match q with
  | [] => (-1, [])
  | b :: q' => (b, q')
  end.

(** ** Driver state: the members of [class FingerprintModule], the port and
       the messages handed to the progress callback *)

Record Driver := mkDriver {
  mRespPkt : list Z;
  mDataPkt : list Z;
  mRespStatus : bool;
  mRespParam : Z;
  mEnrollmentStage : Z;
  rx : list Z;            (* receive queue of COMMS *)
  tx : list (list Z);     (* packets written to COMMS, oldest first *)
  clock : nat;            (* writes and delays performed so far *)
  slept : Z;              (* milliseconds spent in delay *)
  shown : list string     (* messages passed to out, oldest first *)
}.

Definition with_resp (status : bool) (param : Z) (s : Driver) : Driver :=
  mkDriver (mRespPkt s) (mDataPkt s) status param (mEnrollmentStage s)
           (rx s) (tx s) (clock s) (slept s) (shown s).

Definition with_respPkt (p : list Z) (s : Driver) : Driver :=
  mkDriver p (mDataPkt s) (mRespStatus s) (mRespParam s) (mEnrollmentStage s)
           (rx s) (tx s) (clock s) (slept s) (shown s).

Definition with_dataPkt (p : list Z) (s : Driver) : Driver :=
  mkDriver (mRespPkt s) p (mRespStatus s) (mRespParam s) (mEnrollmentStage s)
           (rx s) (tx s) (clock s) (slept s) (shown s).

Definition with_stage (n : Z) (s : Driver) : Driver :=
  mkDriver (mRespPkt s) (mDataPkt s) (mRespStatus s) (mRespParam s) n
           (rx s) (tx s) (clock s) (slept s) (shown s).

Definition with_rx (q : list Z) (s : Driver) : Driver :=
  mkDriver (mRespPkt s) (mDataPkt s) (mRespStatus s) (mRespParam s)
           (mEnrollmentStage s) q (tx s) (clock s) (slept s) (shown s).

(** State passing: a member function returning [A] is a [M A]. *)
Definition M (A : Type) : Type := Driver -> A * Driver.

Definition ret {A} (a : A) : M A := fun s => (a, s).
Definition bind {A B} (m : M A) (k : A -> M B) : M B :=
  fun s => let '(a, s') := m s in k a s'.

Notation "x <- m ;; k" := (bind m (fun x => k))
  (at level 100, m at next level, right associativity).

Definition get {A} (field : Driver -> A) : M A := fun s => (field s, s).
Definition modify (f : Driver -> Driver) : M unit := fun s => (tt, f s).

(** ** Transport session: receiving *)

(** Local variables of the receive loops. *)
Record Scan := mkScan {
  queue : list Z;       (* what is left in the receive queue *)
  buff : list Z;        (* the packet buffer being filled *)
  done : bool;
  givenChkSum : Z
}.

(** [for (i = 2; i < 12 && COMMS.available(); ++i) buff[i] = COMMS.read();]
    at most ten rounds, [i] is a [uint8_t]. *)
Fixpoint response_fill (rounds : nat) (i : Z) (b : list Z) (q : list Z)
  : Z * list Z * list Z :=
  match rounds with
  | O => (i, b, q)
  | S rounds' =>
      if (i <? 12) && negb (COMMS_available q =? 0) then
        let '(v, q') := COMMS_read q in
        response_fill rounds' (to_byte (i + 1)) (put b i (to_byte v)) q'
      else (i, b, q)
  end.

(** One round of the [while] loop of [recvResponsePkt]. *)
Definition response_round (l : Scan) : Scan :=
  let '(v, q1) := COMMS_read (queue l) in
  let incomingByte := to_byte v in
  if incomingByte =? 0x55 then
    let '(w, q2) := COMMS_read q1 in
    if w =? 0xAA then
      let b := put (buff l) 0 0x55 in
      let b := put b 1 0xAA in
      let '(i, b, q3) := response_fill 10 2 b q2 in
      if i =? 12 then
        mkScan q3 b true
               (to_word (Z.lor (Z.shiftl (at_ b 11) 8) (at_ b 10)))
      else mkScan q3 b (done l) (givenChkSum l)
    else mkScan q2 (buff l) (done l) (givenChkSum l)
  else mkScan q1 (buff l) (done l) (givenChkSum l).

(** [while (COMMS.available() && !done) { ... }]: every round takes at least
    one byte off the queue, so [rounds] = the queue's length is enough (see
    [response_scan_exits]). *)
Fixpoint response_while (rounds : nat) (l : Scan) : Scan :=
  match rounds with
  | O => l
  | S rounds' =>
      if negb (COMMS_available (queue l) =? 0) && negb (done l) then
        response_while rounds' (response_round l)
      else l
  end.

Definition response_scan (q : list Z) : Scan :=
  response_while (length q) (mkScan q (repeat 0 12) false 0x0000).

(** [(buff[7] << 24) | (buff[6] << 16) | (buff[5] << 8) | buff[4]] stored
    into a [dword]. *)
Definition response_param (b : list Z) : Z :=
  to_dword (Z.lor (Z.lor (Z.lor (Z.shiftl (at_ b 7) 24) (Z.shiftl (at_ b 6) 16))
                         (Z.shiftl (at_ b 5) 8))
                  (at_ b 4)).

(** [bool FingerprintModule::recvResponsePkt()]. *)
Definition recvResponsePkt : M bool := fun s =>
  let l := response_scan (rx s) in
  let s := with_rx (queue l) s in
  let s :=
    if negb (done l) then with_resp false NACK_NOT_RECVD s
    else if negb (computeCheckSum (buff l) 10 =? givenChkSum l) then
      with_resp false NACK_COMM_ERR s
    else if at_ (buff l) 8 =? 0x31 then
      with_resp false (response_param (buff l)) s
    else
      with_respPkt (firstn 12 (buff l)) (with_resp true (response_param (buff l)) s)
  in (done l, s).

(** [for (i = 2; i < totalPktSize && COMMS.available(); ++i)
       mDataPkt[i] = COMMS.read();]
    [i] is a [uint8_t] and wraps at 256; every round takes one byte.  The
    two tests of the loop condition have no effect on the state, so the
    queue is looked at first. *)
Fixpoint data_fill (totalPktSize : Z) (i : Z) (pkt : list Z) (q : list Z)
  : Z * list Z * list Z :=
  match q with
  | [] => (i, pkt, q)
  | v :: q' =>
      if i <? totalPktSize then
        data_fill totalPktSize (to_byte (i + 1)) (put pkt i (to_byte v)) q'
      else (i, pkt, q)
  end.

(** One round of the [while] loop of [recvDataPkt]; [buff] is [mDataPkt]. *)
Definition data_round (totalPktSize : Z) (l : Scan) : Scan :=
  let '(v, q1) := COMMS_read (queue l) in
  let incomingByte := to_byte v in
  if incomingByte =? 0x5A then
    let '(w, q2) := COMMS_read q1 in
    if w =? 0xA5 then
      let b := put (buff l) 0 0x5A in
      let b := put b 1 0xA5 in
      let '(i, b, q3) := data_fill totalPktSize 2 b q2 in
      if i =? totalPktSize then
        mkScan q3 b true
               (to_word (Z.lor (Z.shiftl (at_ b (totalPktSize - 1)) 8)
                               (at_ b (totalPktSize - 2))))
      else mkScan q3 b (done l) (givenChkSum l)
    else mkScan q2 (buff l) (done l) (givenChkSum l)
  else mkScan q1 (buff l) (done l) (givenChkSum l).

Fixpoint data_while (totalPktSize : Z) (rounds : nat) (l : Scan) : Scan :=
  match rounds with
  | O => l
  | S rounds' =>
      if negb (COMMS_available (queue l) =? 0) && negb (done l) then
        data_while totalPktSize rounds' (data_round totalPktSize l)
      else l
  end.

Definition data_scan (totalPktSize : Z) (pkt : list Z) (q : list Z) : Scan :=
  data_while totalPktSize (length q) (mkScan q pkt false 0x0000).

(** [bool FingerprintModule::recvDataPkt(uint32_t size)]. *)
Definition recvDataPkt (size : Z) : M bool := fun s =>
  let totalPktSize := to_dword (size + 6) in
  let l := data_scan totalPktSize (mDataPkt s) (rx s) in
  let s := with_dataPkt (buff l) (with_rx (queue l) s) in
  let done :=
    if done l && negb (computeCheckSum (buff l) (totalPktSize - 2) =? givenChkSum l)
    then false else done l
  in (done, s).

(** ** Error messages *)

(** [String FingerprintModule::strFromError(word errCode)]: the [switch] read
    from top to bottom.  The parameter is a [word]: the argument is converted
    on the call, so of the [dword mRespParam] that the driver passes only the
    low 16 bits reach the [switch]. *)
Definition strFromError (errCode : Z) : string :=
  let errCode := to_word errCode in
  if errCode =? NACK_NOT_RECVD then
    "no response was received"
  else if errCode =? NACK_INVALID_ENROLLMENT_STAGE then
    "the enrollment stage is not between 0 and 2, restart the enrollment"
  else if errCode =? NACK_INVALID_POS then
    "the given ID is not between 0 and 19"
  else if errCode =? NACK_IS_NOT_USED then
    "there is no enrollment for the given ID"
  else if errCode =? NACK_IS_ALREADY_USED then
    "the given ID is already in use"
  else if errCode =? NACK_COMM_ERR then
    "the given checksum does not match the computed checksum"
  else if errCode =? NACK_VERIFY_FAILED then
    "could not match the fingerprint to the specified enrollment ID"
  else if errCode =? NACK_IDENTIFY_FAILED then
    "the given fingerprint did not match any enrollments"
  else if errCode =? NACK_DB_IS_FULL then
    "the maximum number of enrolled fingerprints has already been reached"
  else if errCode =? NACK_DB_IS_EMPTY then
    "there are no enrolled templates on the device"
  else if errCode =? NACK_BAD_FINGER then
    "the recorded fingerprint is of too low quality to be used"
  else if errCode =? NACK_ENROLL_FAILED then
    "failed to enroll the fingerprint"
  else if errCode =? NACK_IS_NOT_SUPPORTED then
    "did not recognize the given command"
  else if errCode =? NACK_DEV_ERR then
    "the fingerprint sensor has experienced a fatal error"
  else if errCode =? NACK_INVALID_PARAM then
    "the given parameter was invalid"
  else if errCode =? NACK_FINGER_IS_NOT_PRESSED then
    "no finger was detected pressed on the device"
  else if errCode =? NACK_BAD_HEADER then
    "the sent packet's header was not recognized"
  else if errCode =? NACK_BAD_ID then
    "the sent packet's device ID was incorrect (should be 0x0001)"
  else if errCode =? NACK_BAD_CHKSUM then
    "the sent packet's checksum did not match the checksum computed by the sensor"
  else
    "unrecognized error".

(** ** Transport session: sending and waiting *)

Section Session.

(** [wire k] are the bytes the device puts on the line while the driver
    performs its [k]-th write or delay (counted from 0). *)
Variable wire : nat -> list Z.

Definition arrive (s : Driver) : Driver :=
  mkDriver (mRespPkt s) (mDataPkt s) (mRespStatus s) (mRespParam s)
           (mEnrollmentStage s) (rx s ++ wire (clock s)) (tx s)
           (S (clock s)) (slept s) (shown s).

(** [COMMS.write(pkt, 12)]: the packet goes out whole. *)
Definition COMMS_write (pkt : list Z) : M Z := fun s =>
  let s := arrive s in
  (Z.of_nat (length pkt),
   mkDriver (mRespPkt s) (mDataPkt s) (mRespStatus s) (mRespParam s)
            (mEnrollmentStage s) (rx s) (tx s ++ [pkt])
            (clock s) (slept s) (shown s)).

(** [delay(ms)]. *)
Definition delay (ms : Z) : M unit := fun s =>
  let s := arrive s in
  (tt,
   mkDriver (mRespPkt s) (mDataPkt s) (mRespStatus s) (mRespParam s)
            (mEnrollmentStage s) (rx s) (tx s)
            (clock s) (slept s + ms) (shown s)).

(** [COMMS.flush(); COMMS.end(); COMMS.begin(baud); while(!COMMS);]
    closing the port drops what was received and not read; a hardware port
    is ready as soon as it is opened. *)
Definition COMMS_reopen (baud : Z) : M unit := modify (with_rx []).

(** [out(str)] when an output function was given. *)
Definition out (usingStream : bool) (str : string) : M unit := fun s =>
  (tt,
   if usingStream then
     mkDriver (mRespPkt s) (mDataPkt s) (mRespStatus s) (mRespParam s)
              (mEnrollmentStage s) (rx s) (tx s)
              (clock s) (slept s) (shown s ++ [str])
   else s).

(** [bool FingerprintModule::send(word cmd, dword param, bool isBigEndian)]. *)
Definition send (cmd param : Z) (isBigEndian : bool) : M bool :=
  bytesSent <- COMMS_write (command_packet cmd param isBigEndian) ;;
  ret (bytesSent =? 12).

(** [for (int i = 0; i < TIMEOUT && !recvResponsePkt(); ++i) delay(WAITTIME);]
    [tries] is [TIMEOUT - i]. *)
Fixpoint await (tries : nat) : M unit :=
  match tries with
  | O => ret tt
  | S tries' =>
      received <- recvResponsePkt ;;
      if received then ret tt
      else (_ <- delay WAITTIME ;; await tries')
  end.

Definition awaitResponse : M unit := await (Z.to_nat TIMEOUT).

(** ** Command layer *)

(** [for (i = 8; i < 24 && (mDataPkt[i] == 0x00); ++i);] *)
Fixpoint serial_zero (rounds : nat) (i : Z) (pkt : list Z) : Z :=
  match rounds with
  | O => i
  | S rounds' =>
      if (i <? 24) && (at_ pkt i =? 0x00) then serial_zero rounds' (i + 1) pkt
      else i
  end.

(** [bool FingerprintModule::open(bool errChk)]. *)
Definition open (errChk : bool) : M bool :=
  _ <- send CMD_OPEN (Z.b2z errChk) true ;;
  _ <- awaitResponse ;;
  status <- get mRespStatus ;;
  if errChk && status then
    success <- recvDataPkt 24 ;;
    if success then
      pkt <- get mDataPkt ;;
      let i := serial_zero 16 8 pkt in
      ret (success && negb (i =? 24))
    else ret success
  else ret status.

(** The shape shared by most commands: send, wait, return the status. *)
Definition exchange (cmd param : Z) : M bool :=
  _ <- send cmd param true ;;
  _ <- awaitResponse ;;
  get mRespStatus.

Definition close : M bool := exchange CMD_CLOSE 0.
Definition powerCMOS (on : bool) : M bool := exchange CMD_CMOS_LED (Z.b2z on).

(** [bool FingerprintModule::changeBaudrate(uint32_t baud)]. *)
Definition changeBaudrate (baud : Z) : M bool :=
  _ <- send CMD_CHANGE_BAUDRATE baud true ;;
  _ <- COMMS_reopen baud ;;
  _ <- awaitResponse ;;
  get mRespStatus.

Definition getEnrollCount : M bool := exchange CMD_GET_ENROLL_COUNT 0.
Definition isIDEnrolled (id : Z) : M bool := exchange CMD_CHECK_ENROLLED id.

(** [bool FingerprintModule::startEnrollment(uint32_t id)]. *)
Definition startEnrollment (id : Z) : M bool :=
  _ <- send CMD_ENROLL_START id true ;;
  _ <- awaitResponse ;;
  status <- get mRespStatus ;;
  _ <- (if status then modify (with_stage 0) else ret tt) ;;
  get mRespStatus.

(** [bool FingerprintModule::createEnrollmentTemplate()]. *)
Definition createEnrollmentTemplate : M bool :=
  stage <- get mEnrollmentStage ;;
  let request :=
    if stage =? 0 then Some CMD_ENROLL1
    else if stage =? 1 then Some CMD_ENROLL2
    else if stage =? 2 then Some CMD_ENROLL3
    else None in
  match request with
  | None => ret false
  | Some cmd =>
      _ <- send cmd 0 true ;;
      _ <- awaitResponse ;;
      status <- get mRespStatus ;;
      _ <- (if status then modify (fun s => with_stage (to_byte (mEnrollmentStage s + 1)) s)
           else ret tt) ;;
      get mRespStatus
  end.

(** [bool FingerprintModule::isFingerPressed()]. *)
Definition isFingerPressed : M bool :=
  _ <- send CMD_IS_PRESS_FINGER 0 true ;;
  _ <- awaitResponse ;;
  status <- get mRespStatus ;;
  param <- get mRespParam ;;
  _ <- (if status && negb (param =? 0)
       then modify (with_resp false NACK_FINGER_IS_NOT_PRESSED)
       else ret tt) ;;
  get mRespStatus.

Definition captureFingerprint (highQual : bool) : M bool :=
  exchange CMD_CAPTURE_FINGER (Z.b2z highQual).
Definition deleteID (id : Z) : M bool := exchange CMD_DELETE_ID id.
Definition deleteAll : M bool := exchange CMD_DELETE_ALL 0.
Definition verify (id : Z) : M bool := exchange CMD_VERIFY id.
Definition identify : M bool := exchange CMD_IDENTIFY 0.

(** ** Enrollment workflow *)

(** [for (i = 0; i < 5 && !isFingerPressed(); ++i);]  [tries] is [5 - i]. *)
Fixpoint finger_gone (tries : nat) (i : Z) : M Z :=
  match tries with
  | O => ret i
  | S tries' =>
      pressed <- isFingerPressed ;;
      if pressed then ret i else finger_gone tries' (i + 1)
  end.

(** Local variables of [enrollSequence] that live across rounds. *)
Record Enroll := mkEnroll {
  state : ENROLL_STATE;
  success : bool;
  finished : bool         (* [done] in the source *)
}.

(** One round of [while (!done) { switch (state) ... }]. *)
Definition enroll_round (id : Z) (usingStream : bool) (e : Enroll) : M Enroll :=
  match state e with
  | START =>
      ok <- startEnrollment id ;;
      if ok then ret (mkEnroll REMOVE_FINGER (success e) (finished e))
      else ret (mkEnroll (state e) false true)
  | CAPTURE =>
      _ <- out usingStream "Place finger" ;;
      lit <- powerCMOS true ;;
      let e := if negb lit then mkEnroll (state e) false true else e in
      ok <- captureFingerprint true ;;
      if ok then ret (mkEnroll ENROLL (success e) (finished e))
      else
        param <- get mRespParam ;;
        if param =? NACK_COMM_ERR then ret (mkEnroll (state e) false true)
        else ret e
  | ENROLL =>
      dark <- powerCMOS false ;;
      let e := if negb dark then mkEnroll (state e) false true else e in
      ok <- createEnrollmentTemplate ;;
      if ok then
        stage <- get mEnrollmentStage ;;
        if stage =? 3 then ret (mkEnroll COMPLETE (success e) (finished e))
        else ret (mkEnroll REMOVE_FINGER (success e) (finished e))
      else
        param <- get mRespParam ;;
        if (param =? NACK_ENROLL_FAILED) || (param =? NACK_BAD_FINGER)
        then ret (mkEnroll CAPTURE (success e) (finished e))
        else ret (mkEnroll (state e) false true)
  | COMPLETE => ret (mkEnroll (state e) (success e) true)
  | REMOVE_FINGER =>
      _ <- out usingStream "Remove finger" ;;
      i <- finger_gone 5 0 ;;
      if i =? 5 then
        param <- get mRespParam ;;
        if param =? NACK_FINGER_IS_NOT_PRESSED
        then ret (mkEnroll CAPTURE (success e) (finished e))
        else ret (mkEnroll (state e) false true)
      else ret e
  end.

(** [while (!done)]: nothing bounds the number of rounds, so the loop takes
    fuel and yields [None] when the fuel is used up before [done] is set. *)
Fixpoint enroll_while (fuel : nat) (id : Z) (usingStream : bool) (e : Enroll)
  (s : Driver) : option (Enroll * Driver) :=
  if finished e then Some (e, s)
  else
    match fuel with
    | O => None
    | S fuel' =>
        let '(e', s') := enroll_round id usingStream e s in
        enroll_while fuel' id usingStream e' s'
    end.

(** [bool FingerprintModule::enrollSequence(uint32_t id, writeFunc out)]. *)
Definition enrollSequence (fuel : nat) (id : Z) (usingStream : bool)
  (s : Driver) : option (bool * Driver) :=
  let '(_, s) := out usingStream "Beginning enroll" s in
  match enroll_while fuel id usingStream (mkEnroll START true false) s with
  | None => None
  | Some (e, s) =>
      let '(_, s) :=
        out usingStream (if success e then "Success!" else "Failed to enroll") s in
      Some (success e, s)
  end.

End Session.

(** * Vocabulary of the properties *)

(** The byte of weight [2^(8k)] of an integer. *)
Definition octet (v : Z) (k : Z) : Z := (v / 2 ^ (8 * k)) mod 2 ^ 8.

(** The sum of the elements of a list. *)
Definition sum_bytes (l : list Z) : Z := fold_right Z.add 0 l.

(** The [n] low bytes of [v], least significant first. *)
Definition little_endian (n : nat) (v : Z) : list Z :=
  map (fun k => octet v (Z.of_nat k)) (seq 0 n).

(** The [n] low bytes of [v], most significant first. *)
Definition big_endian (n : nat) (v : Z) : list Z := rev (little_endian n v).

(** The layout the claim describes: every field most significant byte
    first. *)
Definition big_endian_packet (cmd param : Z) : list Z :=
  let covered :=
    [CMD_START_CODE_1; CMD_START_CODE_2] ++ big_endian 2 0x0001
      ++ big_endian 4 param ++ big_endian 2 cmd in
  covered ++ big_endian 2 (computeCheckSum covered 10).

(** The layout [send] produces when [isBigEndian] holds, as it does in every
    call the driver makes: every field least significant byte first. *)
Definition little_endian_packet (cmd param : Z) : list Z :=
  let covered :=
    [CMD_START_CODE_1; CMD_START_CODE_2] ++ little_endian 2 0x0001
      ++ little_endian 4 param ++ little_endian 2 cmd in
  covered ++ little_endian 2 (computeCheckSum covered 10).

(** The packet that the scan holds once the marker and ten more bytes were
    read. *)
Definition received (ten : list Z) : list Z := 0x55 :: 0xAA :: map to_byte ten.

(** [(buff[11] << 8) | buff[10]] stored into a [word]. *)
Definition given_of (b : list Z) : Z :=
  to_word (Z.lor (Z.shiftl (at_ b 11) 8) (at_ b 10)).

(** The loop as a function of its state alone. *)
Definition response_run (l : Scan) : Scan := response_while (length (queue l)) l.

(** Bytes before a packet that the scan steps over without loss: every 0x55
    among them is followed, still among them, by a byte that is neither 0x55
    nor 0xAA. *)
Fixpoint marker_free (g : list Z) : bool :=
  match g with
  | [] => true
  | v :: g' =>
      if v =? 0x55 then
        match g' with
        | [] => false
        | w :: _ => negb (w =? 0x55) && negb (w =? 0xAA) && marker_free g'
        end
      else marker_free g'
  end.

(** A driver right after power-up whose members happen to hold zeros. *)
Definition power_on : Driver :=
  mkDriver (repeat 0 12) (repeat 0 (Z.to_nat DATA_PKT_MAX_SIZE))
           false 0 0 [] [] 0 0 [].

(** The response packet of the device for a status and a parameter. *)
Definition response_packet (status param : Z) : list Z :=
  let covered :=
    [RES_START_CODE_1; RES_START_CODE_2] ++ little_endian 2 0x0001
      ++ little_endian 4 param ++ little_endian 2 status in
  covered ++ little_endian 2 (computeCheckSum covered 10).

(** The data packet of the device for a payload. *)
Definition data_packet (payload : list Z) : list Z :=
  let covered :=
    [DATA_START_CODE_1; DATA_START_CODE_2] ++ little_endian 2 0x0001 ++ payload in
  covered
    ++ little_endian 2 (computeCheckSum covered (Z.of_nat (length covered))).

(** A packet with its byte at [i] replaced by [v]. *)
Definition corrupted (pkt : list Z) (i v : Z) : list Z := put pkt i v.

(** The public operations that exchange packets with the device.
    ([verifyTemplate] returns an uninitialised local and [identifyTemplate]
    has no body: neither touches the driver or the port.) *)
Inductive Operation : Set :=
  | Open (errChk : bool)
  | Close
  | PowerCMOS (on : bool)
  | ChangeBaudrate (baud : Z)
  | GetEnrollCount
  | IsIDEnrolled (id : Z)
  | StartEnrollment (id : Z)
  | CreateEnrollmentTemplate
  | IsFingerPressed
  | CaptureFingerprint (highQual : bool)
  | DeleteID (id : Z)
  | DeleteAll
  | Verify (id : Z)
  | Identify.

(** The member function an operation stands for. *)
Definition perform (wire : nat -> list Z) (op : Operation) : M bool :=
  match op with
  | Open errChk => open wire errChk
  | Close => close wire
  | PowerCMOS on => powerCMOS wire on
  | ChangeBaudrate baud => changeBaudrate wire baud
  | GetEnrollCount => getEnrollCount wire
  | IsIDEnrolled id => isIDEnrolled wire id
  | StartEnrollment id => startEnrollment wire id
  | CreateEnrollmentTemplate => createEnrollmentTemplate wire
  | IsFingerPressed => isFingerPressed wire
  | CaptureFingerprint highQual => captureFingerprint wire highQual
  | DeleteID id => deleteID wire id
  | DeleteAll => deleteAll wire
  | Verify id => verify wire id
  | Identify => identify wire
  end.

(** Operations one after the other. *)
Fixpoint perform_all (wire : nat -> list Z) (ops : list Operation) (s : Driver)
  : Driver :=
  match ops with
  | [] => s
  | op :: ops' => perform_all wire ops' (snd (perform wire op s))
  end.

(** Is the operation a [startEnrollment]? *)
Definition is_start (op : Operation) : bool :=
  match op with StartEnrollment _ => true | _ => false end.

(** A device that answers the [k]-th write or delay with the [k]-th entry of
    a list, and stays silent afterwards. *)
Definition script (answers : list (list Z)) (k : nat) : list Z := nth k answers [].

(** What a call leaves alone. *)
Record frame (s s' : Driver) : Prop := mkFrame {
  frame_stage : mEnrollmentStage s' = mEnrollmentStage s;
  frame_shown : shown s' = shown s;
  frame_slept : slept s <= slept s';
  frame_clock : (clock s <= clock s')%nat;
  frame_tx : exists sent, tx s' = tx s ++ sent
}.

(** [s1] is [s] after one packet was written. *)
Record sent (s s1 : Driver) : Prop := mkSent {
  sent_stage : mEnrollmentStage s1 = mEnrollmentStage s;
  sent_shown : shown s1 = shown s;
  sent_slept : slept s1 = slept s;
  sent_clock : clock s1 = S (clock s);
  sent_tx : exists pkt, tx s1 = tx s ++ [pkt]
}.

(** [s2] is [s] after one packet was written and the response awaited. *)
Record exchanged (s s2 : Driver) : Prop := mkExchanged {
  ex_stage : mEnrollmentStage s2 = mEnrollmentStage s;
  ex_shown : shown s2 = shown s;
  ex_slept : slept s <= slept s2 <= slept s + TIMEOUT * WAITTIME;
  ex_clock : (clock s2 <= clock s + 12)%nat;
  ex_tx : exists pkt, tx s2 = tx s ++ [pkt];
  ex_exhausted :
    slept s2 = slept s + TIMEOUT * WAITTIME ->
    mRespStatus s2 = false /\ mRespParam s2 = NACK_NOT_RECVD
}.

(** What every operation guarantees: at most one packet written, at most
    [TIMEOUT] delays of [WAITTIME], and when all of them were spent, failure
    with the not-received code. *)
Record budget (s s' : Driver) (r : bool) : Prop := mkBudget {
  b_shown : shown s' = shown s;
  b_slept : slept s <= slept s' <= slept s + TIMEOUT * WAITTIME;
  b_clock : (clock s' <= clock s + 12)%nat;
  b_tx : exists packets, tx s' = tx s ++ packets /\ (length packets <= 1)%nat;
  b_exhausted :
    slept s' = slept s + TIMEOUT * WAITTIME ->
    r = false /\ mRespStatus s' = false /\ mRespParam s' = NACK_NOT_RECVD
}.

(** The state after the packet of an operation was written and its response
    awaited: the point from which each operation goes its own way. *)
Definition shaken (wire : nat -> list Z) (cmd param : Z) (s : Driver) : Driver :=
  snd (awaitResponse wire (snd (send wire cmd param true s))).

(** What every operation does to the enrollment stage. *)
Definition stage_rule (op : Operation) (s s' : Driver) (r : bool) : Prop :=
  match op with
  | StartEnrollment _ =>
      r = mRespStatus s'
      /\ mEnrollmentStage s' = (if r then 0 else mEnrollmentStage s)
  | CreateEnrollmentTemplate =>
      if r
      then 0 <= mEnrollmentStage s <= 2
           /\ mEnrollmentStage s' = mEnrollmentStage s + 1
      else mEnrollmentStage s' = mEnrollmentStage s
  | _ => mEnrollmentStage s' = mEnrollmentStage s
  end.

(** [s'] is [s] after at most [n] operations: at most [n] packets written
    and [n] full waits slept. *)
Definition spent (n : nat) (s s' : Driver) : Prop :=
  slept s <= slept s' <= slept s + Z.of_nat n * (TIMEOUT * WAITTIME)
  /\ exists packets, tx s' = tx s ++ packets /\ (length packets <= n)%nat.

(** A device that never answers. *)
Definition silent : nat -> list Z := script [].

(** A device that acknowledges every packet with parameter 0; for the
    finger-press check this says that a finger is on the sensor. *)
Definition finger_stays : nat -> list Z := fun _ => response_packet ACK 0.

(** A device that accepts the start of an enrollment, reports five times
    that no finger is on the sensor, refuses to switch the light on with a
    device error, and acknowledges the capture that follows. *)
Definition light_fails : nat -> list Z :=
  script [ response_packet ACK 0;
           response_packet ACK 1; response_packet ACK 1; response_packet ACK 1;
           response_packet ACK 1; response_packet ACK 1;
           response_packet NACK NACK_DEV_ERR;
           response_packet ACK 0 ].

(** A device that lets an enrollment go through: three times no finger,
    light on, capture, light off, template. *)
Definition cooperative : nat -> list Z :=
  let ok := response_packet ACK 0 in
  let gone := response_packet ACK 1 in
  script ([ok]
            ++ [gone; gone; gone; gone; gone; ok; ok; ok; ok]
            ++ [gone; gone; gone; gone; gone; ok; ok; ok; ok]
            ++ [gone; gone; gone; gone; gone; ok; ok; ok; ok]).

(** The driver after [k] receive attempts that found the queue empty, each
    followed by a delay, the last of which brought [q]. *)
Definition idle (k : nat) (q : list Z) (s : Driver) : Driver :=
  mkDriver (mRespPkt s) (mDataPkt s) false NACK_NOT_RECVD (mEnrollmentStage s)
           q (tx s) (k + clock s) (slept s + Z.of_nat k * WAITTIME) (shown s).

(** Status and code that [recvResponsePkt] leaves for a packet made of the
    marker and [ten]. *)
Definition verdict (ten : list Z) : bool * Z :=
  if computeCheckSum (0x55 :: 0xAA :: ten) 10 =? at_ ten 8 + 2 ^ 8 * at_ ten 9
  then (negb (at_ ten 6 =? NACK),
        at_ ten 2 + 2 ^ 8 * at_ ten 3 + 2 ^ 16 * at_ ten 4 + 2 ^ 24 * at_ ten 5)
  else (false, NACK_COMM_ERR).

(** The members of [enum RESPONSE_ERROR], in the order of the header. *)
Definition RESPONSE_ERROR : list Z :=
  [NACK_NOT_RECVD; NACK_INVALID_ENROLLMENT_STAGE; NACK_INVALID_POS;
   NACK_IS_NOT_USED; NACK_IS_ALREADY_USED; NACK_COMM_ERR; NACK_VERIFY_FAILED;
   NACK_IDENTIFY_FAILED; NACK_DB_IS_FULL; NACK_DB_IS_EMPTY; NACK_BAD_FINGER;
   NACK_ENROLL_FAILED; NACK_IS_NOT_SUPPORTED; NACK_DEV_ERR; NACK_INVALID_PARAM;
   NACK_FINGER_IS_NOT_PRESSED; NACK_BAD_HEADER; NACK_BAD_ID; NACK_BAD_CHKSUM].

(** A progress message of a round of [enrollSequence]. *)
Definition prompt (m : string) : Prop :=
  m = "Place finger"%string \/ m = "Remove finger"%string.

(** What holds between two rounds of [enrollSequence]: a workflow that has
    failed is finished, one that is finished without having failed is in
    its COMPLETE state, and the COMPLETE state is entered only with the third
    template acknowledged. *)
Definition settled (e : Enroll) (s : Driver) : Prop :=
  (success e = false -> finished e = true)
  /\ (finished e = true -> success e = true -> state e = COMPLETE)
  /\ (state e = COMPLETE ->
      mEnrollmentStage s = 3 /\ mRespStatus s = true
      /\ exists before, tx s = before ++ [command_packet CMD_ENROLL3 0 true]).

(** * Properties of the wire codec *)

Example command_packet_open :
  command_packet CMD_OPEN 1 true
  = [0x55; 0xAA; 0x01; 0x00; 0x01; 0x00; 0x00; 0x00; 0x01; 0x00; 0x02; 0x01].
Proof. reflexivity. Qed.

(** ** Bit operations as arithmetic *)

Lemma land_shifted_low hi lo n :
  0 <= n -> 0 <= lo < 2 ^ n -> Z.land (hi * 2 ^ n) lo = 0.
Proof.
  intros Hn Hlo. apply Z.bits_inj'. intros i Hi.
  rewrite Z.land_spec, Z.bits_0.
  destruct (Z.lt_ge_cases i n) as [Hlt | Hge].
  - rewrite Z.mul_pow2_bits_low by lia. reflexivity.
  - rewrite <- (Z.mod_small lo (2 ^ n)) by lia.
    rewrite Z.mod_pow2_bits_high by lia. apply andb_false_r.
Qed.

Lemma lor_shifted hi lo n :
  0 <= n -> 0 <= lo < 2 ^ n -> Z.lor (hi * 2 ^ n) lo = hi * 2 ^ n + lo.
Proof.
  intros Hn Hlo. rewrite <- Z.add_lor_land.
  rewrite land_shifted_low by assumption. lia.
Qed.

Lemma land_FF v : Z.land v 0xFF = v mod 2 ^ 8.
Proof. change 0xFF with (Z.ones 8). apply Z.land_ones. lia. Qed.

Lemma shiftr_land_mask v mask n k :
  Z.shiftr mask n = Z.ones k -> 0 <= k ->
  Z.shiftr (Z.land v mask) n = (Z.shiftr v n) mod 2 ^ k.
Proof.
  intros Hm Hk. rewrite Z.shiftr_land, Hm. apply Z.land_ones. assumption.
Qed.

Lemma lor_regroup a b c d :
  Z.lor (Z.lor (Z.lor a b) c) d = Z.lor a (Z.lor c (Z.lor d b)).
Proof.
  apply Z.bits_inj'. intros i _. rewrite !Z.lor_spec.
  destruct (Z.testbit a i), (Z.testbit b i), (Z.testbit c i), (Z.testbit d i);
    reflexivity.
Qed.

Lemma octet_range v k : 0 <= octet v k < 2 ^ 8.
Proof. unfold octet. apply Z.mod_pos_bound. lia. Qed.

Lemma word_octets v : is_word v -> v = octet v 0 + 2 ^ 8 * octet v 1.
Proof.
  unfold is_word, octet. intros H.
  change (2 ^ (8 * 0)) with 1. change (2 ^ (8 * 1)) with 256.
  change (2 ^ 8) with 256. change (2 ^ 16) with 65536 in H.
  Z.div_mod_to_equations. lia.
Qed.

Lemma dword_octets v :
  is_dword v ->
  v = octet v 0 + 2 ^ 8 * octet v 1 + 2 ^ 16 * octet v 2 + 2 ^ 24 * octet v 3.
Proof.
  unfold is_dword, octet. intros H.
  change (2 ^ (8 * 0)) with 1. change (2 ^ (8 * 1)) with 256.
  change (2 ^ (8 * 2)) with 65536. change (2 ^ (8 * 3)) with 16777216.
  change (2 ^ 8) with 256. change (2 ^ 16) with 65536.
  change (2 ^ 24) with 16777216. change (2 ^ 32) with 4294967296 in H.
  Z.div_mod_to_equations. lia.
Qed.

(** Reading the bytes of a number assembled from bytes. *)
Lemma octets_of_word a b :
  is_byte a -> is_byte b ->
  octet (a + 2 ^ 8 * b) 0 = a /\ octet (a + 2 ^ 8 * b) 1 = b.
Proof.
  unfold is_byte, octet. intros Ha Hb.
  change (2 ^ (8 * 0)) with 1. change (2 ^ (8 * 1)) with 256.
  change (2 ^ 8) with 256 in *.
  split; Z.div_mod_to_equations; lia.
Qed.

Lemma octets_of_dword a b c d :
  is_byte a -> is_byte b -> is_byte c -> is_byte d ->
  let v := a + 2 ^ 8 * b + 2 ^ 16 * c + 2 ^ 24 * d in
  octet v 0 = a /\ octet v 1 = b /\ octet v 2 = c /\ octet v 3 = d.
Proof.
  unfold is_byte, octet. intros Ha Hb Hc Hd. cbv zeta.
  change (2 ^ (8 * 0)) with 1. change (2 ^ (8 * 1)) with 256.
  change (2 ^ (8 * 2)) with 65536. change (2 ^ (8 * 3)) with 16777216.
  change (2 ^ 8) with 256 in *. change (2 ^ 16) with 65536.
  change (2 ^ 24) with 16777216.
  repeat split; Z.div_mod_to_equations; lia.
Qed.

(** Masking one byte out of an integer. *)
Lemma land_octet_mask v k :
  0 <= k -> Z.land v (0xFF * 2 ^ (8 * k)) = octet v k * 2 ^ (8 * k).
Proof.
  intros Hk. apply Z.bits_inj'. intros i Hi.
  rewrite Z.land_spec. change 0xFF with (Z.ones 8). unfold octet.
  destruct (Z.lt_ge_cases i (8 * k)).
  - rewrite !Z.mul_pow2_bits_low by lia. apply andb_false_r.
  - rewrite !Z.mul_pow2_bits by lia.
    rewrite Z.testbit_ones_nonneg by lia.
    destruct (Z.lt_ge_cases (i - 8 * k) 8).
    + rewrite Z.mod_pow2_bits_low by lia.
      rewrite Z.div_pow2_bits by lia.
      replace (i - 8 * k + 8 * k) with i by lia.
      replace (i - 8 * k <? 8) with true by (symmetry; apply Z.ltb_lt; lia).
      apply andb_true_r.
    + rewrite Z.mod_pow2_bits_high by lia.
      replace (i - 8 * k <? 8) with false by (symmetry; apply Z.ltb_ge; lia).
      apply andb_false_r.
Qed.

Lemma land_octet v mask k :
  mask = 0xFF * 2 ^ (8 * k) -> 0 <= k ->
  Z.land v mask = octet v k * 2 ^ (8 * k).
Proof. intros ->. apply land_octet_mask. Qed.

(** [flipEndianness] in terms of bytes. *)
Lemma flipEndianness_word_octets v :
  flipEndianness_word v = octet v 1 + 2 ^ 8 * octet v 0.
Proof.
  unfold flipEndianness_word, to_word.
  rewrite (land_octet v 0x00FF 0), (land_octet v 0xFF00 1) by (reflexivity || lia).
  rewrite Z.shiftl_mul_pow2, Z.shiftr_div_pow2 by lia.
  pose proof (octet_range v 0). pose proof (octet_range v 1).
  change (2 ^ (8 * 0)) with 1. change (2 ^ (8 * 1)) with (2 ^ 8).
  rewrite Z.div_mul, Z.mul_1_r by lia.
  rewrite lor_shifted by lia.
  change (2 ^ 8) with 256 in *. change (2 ^ 16) with 65536.
  rewrite Z.mod_small; lia.
Qed.

Lemma flipEndianness_dword_octets v :
  flipEndianness_dword v
  = octet v 3 + 2 ^ 8 * octet v 2 + 2 ^ 16 * octet v 1 + 2 ^ 24 * octet v 0.
Proof.
  unfold flipEndianness_dword, to_dword.
  rewrite (land_octet v 0x000000FF 0), (land_octet v 0x0000FF00 1),
    (land_octet v 0x00FF0000 2), (land_octet v 0xFF000000 3)
    by (reflexivity || lia).
  rewrite !Z.shiftl_mul_pow2, !Z.shiftr_div_pow2 by lia.
  pose proof (octet_range v 0). pose proof (octet_range v 1).
  pose proof (octet_range v 2). pose proof (octet_range v 3).
  change (2 ^ (8 * 0)) with 1. change (2 ^ (8 * 1)) with (2 ^ 8).
  change (2 ^ (8 * 2)) with (2 ^ 8 * 2 ^ 8).
  change (2 ^ (8 * 3)) with (2 ^ 24).
  rewrite Z.div_mul by lia.
  rewrite Z.mul_assoc, Z.div_mul by lia.
  rewrite Z.mul_1_r.
  change (2 ^ 32) with 4294967296.
  change (2 ^ 24) with 16777216 in *. change (2 ^ 8) with 256 in *.
  rewrite (Z.mod_small (octet v 0 * 16777216)) by lia.
  rewrite (Z.mod_small (octet v 1 * 256 * 256)) by lia.
  rewrite lor_regroup.
  replace (octet v 2 * 256) with (octet v 2 * 2 ^ 8) by lia.
  rewrite (lor_shifted (octet v 2) (octet v 3) 8) by (change (2 ^ 8) with 256; lia).
  replace (octet v 1 * 256 * 256) with (octet v 1 * 2 ^ 16) by lia.
  rewrite (lor_shifted (octet v 1) _ 16) by (change (2 ^ 16) with 65536; lia).
  replace (octet v 0 * 16777216) with (octet v 0 * 2 ^ 24) by lia.
  rewrite (lor_shifted (octet v 0) _ 24) by (change (2 ^ 24) with 16777216; lia).
  rewrite Z.mod_small; lia.
Qed.

Lemma split_word_octets v : split_word v = [octet v 1; octet v 0].
Proof.
  unfold split_word, octet. rewrite !land_FF, Z.shiftr_div_pow2 by lia.
  change (2 ^ (8 * 0)) with 1. now rewrite Z.div_1_r.
Qed.

Lemma split_dword_octets v :
  split_dword v = [octet v 3; octet v 2; octet v 1; octet v 0].
Proof.
  unfold split_dword, octet. rewrite !land_FF, !Z.shiftr_div_pow2 by lia.
  change (2 ^ (8 * 0)) with 1. now rewrite Z.div_1_r.
Qed.

(** A flipped value split most significant byte first comes out least
    significant byte first. *)
Lemma split_flip_word v :
  split_word (flipEndianness_word v) = [octet v 0; octet v 1].
Proof.
  rewrite split_word_octets, flipEndianness_word_octets.
  destruct (octets_of_word (octet v 1) (octet v 0)) as [E0 E1];
    try apply octet_range.
  now rewrite E0, E1.
Qed.

Lemma split_flip_dword v :
  split_dword (flipEndianness_dword v)
  = [octet v 0; octet v 1; octet v 2; octet v 3].
Proof.
  rewrite split_dword_octets, flipEndianness_dword_octets.
  destruct (octets_of_dword (octet v 3) (octet v 2) (octet v 1) (octet v 0))
    as (E0 & E1 & E2 & E3); try apply octet_range.
  now rewrite E0, E1, E2, E3.
Qed.

(** ** Checksum *)

Lemma at_app_length (pre : list Z) x post :
  at_ (pre ++ x :: post) (Z.of_nat (length pre)) = x.
Proof.
  unfold at_. rewrite Nat2Z.id.
  induction pre as [| p pre IH]; [reflexivity | exact IH].
Qed.

Lemma computeCheckSum_loop_sum rounds :
  forall (pre taken post : list Z) (chkSum : Z),
    length taken = rounds ->
    computeCheckSum_loop (pre ++ taken ++ post) (Z.of_nat (length pre)) rounds
                         (to_word chkSum)
    = to_word (chkSum + sum_bytes taken).
Proof.
  induction rounds as [| rounds IH]; intros pre taken post chkSum Hlen.
  - destruct taken; [| discriminate]. cbn. now rewrite Z.add_0_r.
  - destruct taken as [| x taken]; [discriminate |].
    injection Hlen as Hlen. cbn [computeCheckSum_loop].
    change ((x :: taken) ++ post) with (x :: taken ++ post).
    rewrite at_app_length.
    replace (pre ++ x :: taken ++ post) with ((pre ++ [x]) ++ taken ++ post)
      by now rewrite <- app_assoc.
    replace (Z.of_nat (length pre) + 1) with (Z.of_nat (length (pre ++ [x])))
      by (rewrite length_app; cbn; lia).
    replace (to_word (to_word chkSum + x)) with (to_word (chkSum + x))
      by (unfold to_word; now rewrite Zplus_mod_idemp_l).
    rewrite IH by assumption. unfold sum_bytes. cbn [fold_right].
    f_equal. lia.
Qed.

(** ** C9 *)

(** C9. For every array [b] and every length [n] not exceeding its size,
    [computeCheckSum b n] is the sum of [b[0], ..., b[n-1]] modulo 65536:
    sums beyond 16 bits wrap around. *)
Theorem computeCheckSum_is_sum_mod (b : list Z) (n : Z) :
  0 <= n <= Z.of_nat (length b) ->
  computeCheckSum b n = (sum_bytes (firstn (Z.to_nat n) b)) mod 65536.
Proof.
  intros Hn. unfold computeCheckSum.
  rewrite <- (firstn_skipn (Z.to_nat n) b) at 1.
  pose proof (computeCheckSum_loop_sum (Z.to_nat n) []
                (firstn (Z.to_nat n) b) (skipn (Z.to_nat n) b) 0) as E.
  cbn [app length] in E.
  change (Z.of_nat 0) with 0 in E. change (to_word 0) with 0 in E.
  rewrite E.
  - reflexivity.
  - rewrite length_firstn. lia.
Qed.

Lemma computeCheckSum_is_sum_mod_witness :
  computeCheckSum (repeat 0xFF 300) 300
  = (sum_bytes (firstn (Z.to_nat 300) (repeat 0xFF 300))) mod 65536
  /\ computeCheckSum (repeat 0xFF 300) 300 = 300 * 255 - 65536.
Proof.
  split.
  - apply computeCheckSum_is_sum_mod. vm_compute. split; discriminate.
  - vm_compute. reflexivity.
Defined.

(** ** C8 *)

(** C8. [flipEndianness] is an involution at both widths: flipping a 16-bit
    value twice gives it back, and so does flipping a 32-bit value twice. *)
Theorem flipEndianness_involutive (v16 v32 : Z) :
  is_word v16 -> is_dword v32 ->
  flipEndianness_word (flipEndianness_word v16) = v16
  /\ flipEndianness_dword (flipEndianness_dword v32) = v32.
Proof.
  intros H16 H32. split.
  - rewrite (flipEndianness_word_octets (flipEndianness_word v16)).
    rewrite flipEndianness_word_octets.
    destruct (octets_of_word (octet v16 1) (octet v16 0)) as [E0 E1];
      try apply octet_range.
    rewrite E0, E1. symmetry. now apply word_octets.
  - rewrite (flipEndianness_dword_octets (flipEndianness_dword v32)).
    rewrite flipEndianness_dword_octets.
    destruct (octets_of_dword (octet v32 3) (octet v32 2) (octet v32 1)
                              (octet v32 0)) as (E0 & E1 & E2 & E3);
      try apply octet_range.
    rewrite E0, E1, E2, E3. rewrite (dword_octets v32 H32) at 5. lia.
Qed.

Lemma flipEndianness_involutive_witness :
  flipEndianness_word (flipEndianness_word 0x12FE) = 0x12FE
  /\ flipEndianness_dword (flipEndianness_dword 0xDEADBEEF) = 0xDEADBEEF.
Proof.
  apply flipEndianness_involutive; unfold is_word, is_dword; lia.
Defined.

Example flipEndianness_word_value : flipEndianness_word 0x12FE = 0xFE12.
Proof. reflexivity. Qed.

Example flipEndianness_dword_value : flipEndianness_dword 0xDEADBEEF = 0xEFBEADDE.
Proof. reflexivity. Qed.

(** ** C2 *)

Lemma computeCheckSum_prefix (taken post : list Z) :
  computeCheckSum (taken ++ post) (Z.of_nat (length taken))
  = to_word (sum_bytes taken).
Proof.
  unfold computeCheckSum. rewrite Nat2Z.id.
  pose proof (computeCheckSum_loop_sum (length taken) [] taken post 0 eq_refl) as E.
  cbn [app length] in E.
  change (Z.of_nat 0) with 0 in E. change (to_word 0) with 0 in E.
  exact E.
Qed.

Lemma command_packet_fields cmd param isBigEndian :
  command_packet cmd param isBigEndian
  = let param := if isBigEndian then flipEndianness_dword param else param in
    let cmd := if isBigEndian then flipEndianness_word cmd else cmd in
    let covered :=
      [CMD_START_CODE_1; CMD_START_CODE_2; DEVICE_ID_LSB; DEVICE_ID_MSB]
        ++ split_dword param ++ split_word cmd in
    covered ++ split_word (flipEndianness_word (computeCheckSum covered 10)).
Proof.
  cbv zeta. unfold command_packet.
  set (p := if isBigEndian then flipEndianness_dword param else param).
  set (c := if isBigEndian then flipEndianness_word cmd else cmd).
  unfold split_dword, split_word.
  set (p0 := Z.land (Z.shiftr p 24) 255). set (p1 := Z.land (Z.shiftr p 16) 255).
  set (p2 := Z.land (Z.shiftr p 8) 255). set (p3 := Z.land p 255).
  set (c0 := Z.land (Z.shiftr c 8) 255). set (c1 := Z.land c 255).
  change (at_ [p0; p1; p2; p3] 0) with p0. change (at_ [p0; p1; p2; p3] 1) with p1.
  change (at_ [p0; p1; p2; p3] 2) with p2. change (at_ [p0; p1; p2; p3] 3) with p3.
  change (at_ [c0; c1] 0) with c0. change (at_ [c0; c1] 1) with c1.
  set (ten := [CMD_START_CODE_1; CMD_START_CODE_2; DEVICE_ID_LSB; DEVICE_ID_MSB;
               p0; p1; p2; p3; c0; c1]).
  change (put (put (put (put (put (put (put (put (put (put (repeat 0 12) 0 CMD_START_CODE_1) 1 CMD_START_CODE_2) 2 DEVICE_ID_LSB) 3 DEVICE_ID_MSB) 4 p0) 5 p1) 6 p2) 7 p3) 8 c0) 9 c1)
    with (ten ++ [0; 0]).
  change ([CMD_START_CODE_1; CMD_START_CODE_2; DEVICE_ID_LSB; DEVICE_ID_MSB]
            ++ [p0; p1; p2; p3] ++ [c0; c1]) with (ten ++ []).
  change 10 with (Z.of_nat (length ten)).
  rewrite !computeCheckSum_prefix.
  set (k := flipEndianness_word (to_word (sum_bytes ten))).
  reflexivity.
Qed.

(** C2, as the code has it.  For every command code and parameter, the packet
    [send] builds holds the device identifier 0x0001, the parameter, the
    command code and the checksum of the first ten bytes least significant
    byte first. *)
Theorem send_packet_little_endian (wire : nat -> list Z) (cmd param : Z)
        (s : Driver) :
  command_packet cmd param true = little_endian_packet cmd param
  /\ tx (snd (send wire cmd param true s))
     = tx s ++ [little_endian_packet cmd param]
  /\ fst (send wire cmd param true s) = true.
Proof.
  assert (command_packet cmd param true = little_endian_packet cmd param) as E.
  { rewrite command_packet_fields. cbv zeta.
    rewrite split_flip_dword, (split_flip_word cmd), split_flip_word.
    reflexivity. }
  split; [exact E |]. unfold send, bind, ret, COMMS_write. cbn [fst snd tx].
  rewrite E. split; reflexivity.
Qed.

(** C2 fails as stated: for the Open command with parameter 1 the packet is
    not the big-endian one, whichever way [isBigEndian] is set. *)
Lemma send_packet_not_big_endian :
  command_packet CMD_OPEN 1 true <> big_endian_packet CMD_OPEN 1
  /\ command_packet CMD_OPEN 1 false <> big_endian_packet CMD_OPEN 1
  /\ command_packet CMD_OPEN 1 true
     = [0x55; 0xAA; 0x01; 0x00; 0x01; 0x00; 0x00; 0x00; 0x01; 0x00; 0x02; 0x01]
  /\ big_endian_packet CMD_OPEN 1
     = [0x55; 0xAA; 0x00; 0x01; 0x00; 0x00; 0x00; 0x01; 0x00; 0x01; 0x01; 0x02].
Proof. repeat split; vm_compute; congruence. Qed.

(** * Properties of the receive functions *)

Lemma byteb_is_byte v : byteb v = true <-> is_byte v.
Proof. unfold byteb, is_byte. rewrite andb_true_iff, Z.leb_le, Z.ltb_lt. tauto. Qed.

Lemma to_byte_of_byte v : byteb v = true -> to_byte v = v.
Proof.
  intros H. apply byteb_is_byte in H. unfold to_byte. now apply Z.mod_small.
Qed.

Lemma to_byte_byteb v : byteb (to_byte v) = true.
Proof. apply byteb_is_byte. unfold is_byte, to_byte. apply Z.mod_pos_bound. lia. Qed.

Lemma bytes_cons v l : bytes (v :: l) <-> byteb v = true /\ bytes l.
Proof. unfold bytes. cbn [forallb]. apply andb_true_iff. Qed.

Lemma bytes_app l1 l2 : bytes (l1 ++ l2) <-> bytes l1 /\ bytes l2.
Proof. unfold bytes. rewrite forallb_app. apply andb_true_iff. Qed.

Lemma map_to_byte_bytes l : bytes l -> map to_byte l = l.
Proof.
  induction l as [| v l IH]; [reflexivity |].
  rewrite bytes_cons. intros [Hv Hl]. cbn [map].
  now rewrite (to_byte_of_byte v Hv), IH.
Qed.

Lemma bytes_map_to_byte l : bytes (map to_byte l).
Proof.
  induction l as [| v l IH]; [reflexivity |].
  cbn [map]. apply bytes_cons. split; [apply to_byte_byteb | exact IH].
Qed.

Lemma available_cons v q : (COMMS_available (v :: q) =? 0) = false.
Proof. unfold COMMS_available. cbn [length]. apply Z.eqb_neq. lia. Qed.

(** ** The inner loop of [recvResponsePkt] *)

Lemma response_fill_step rounds i b v q :
  i < 12 ->
  response_fill (S rounds) i b (v :: q)
  = response_fill rounds (to_byte (i + 1)) (put b i (to_byte v)) q.
Proof.
  intros Hi. cbn [response_fill]. rewrite available_cons.
  replace (i <? 12) with true by (symmetry; now apply Z.ltb_lt).
  reflexivity.
Qed.

(** Ten waiting bytes complete the packet. *)
Lemma response_fill_complete x0 x1 x2 x3 x4 x5 x6 x7 x8 x9 x10 x11
      v2 v3 v4 v5 v6 v7 v8 v9 v10 v11 q :
  response_fill 10 2 [x0; x1; x2; x3; x4; x5; x6; x7; x8; x9; x10; x11]
                (v2 :: v3 :: v4 :: v5 :: v6 :: v7 :: v8 :: v9 :: v10 :: v11 :: q)
  = (12, x0 :: x1 :: map to_byte [v2; v3; v4; v5; v6; v7; v8; v9; v10; v11], q).
Proof.
  do 10 (rewrite response_fill_step by (vm_compute; reflexivity);
         match goal with
         | |- context [to_byte (?i + 1)] =>
             let j := eval vm_compute in (to_byte (i + 1)) in
             change (to_byte (i + 1)) with j
         end).
  reflexivity.
Qed.

(** Fewer than [12 - i] waiting bytes: the loop drains the queue and stops
    short of 12. *)
Lemma response_fill_short rounds :
  forall i b q,
    0 <= i -> i + Z.of_nat (length q) < 12 ->
    exists b', response_fill rounds i b q
               = (i + Z.of_nat (Nat.min rounds (length q)), b',
                  skipn rounds q).
Proof.
  induction rounds as [| rounds IH]; intros i b q Hi Hq.
  - exists b. cbn. now rewrite Z.add_0_r.
  - destruct q as [| v q].
    + exists b. cbn [response_fill].
      change (COMMS_available [] =? 0) with true. rewrite andb_false_r.
      cbn. now rewrite Z.add_0_r.
    + cbn [length] in Hq. rewrite response_fill_step by lia.
      replace (to_byte (i + 1)) with (i + 1)
        by (symmetry; apply Z.mod_small; change (2 ^ 8) with 256; lia).
      destruct (IH (i + 1) (put b i (to_byte v)) q) as [b' E]; try lia.
      exists b'. rewrite E. cbn [Nat.min length skipn]. f_equal. f_equal. lia.
Qed.

Lemma response_fill_drained (b q : list Z) :
  (length q < 10)%nat ->
  exists i' b', response_fill 10 2 b q = (i', b', []) /\ i' <> 12.
Proof.
  intros Hq. destruct (response_fill_short 10 2 b q) as [b' E]; try lia.
  exists (2 + Z.of_nat (Nat.min 10 (length q))), b'. split; [| lia].
  rewrite E. f_equal. apply skipn_all2. lia.
Qed.

Lemma response_fill_queue rounds :
  forall i b q,
    (length (snd (response_fill rounds i b q)) <= length q)%nat.
Proof.
  induction rounds as [| rounds IH]; intros i b q; [cbn; lia |].
  cbn [response_fill].
  destruct ((i <? 12) && negb (COMMS_available q =? 0)); [| cbn; lia].
  destruct q as [| v q]; cbn [COMMS_read].
  - specialize (IH (to_byte (i + 1)) (put b i (to_byte (-1))) []). exact IH.
  - specialize (IH (to_byte (i + 1)) (put b i (to_byte v)) q). cbn [length]. lia.
Qed.

Lemma list_of_length_12 (b : list Z) :
  length b = 12%nat ->
  exists x0 x1 x2 x3 x4 x5 x6 x7 x8 x9 x10 x11,
    b = [x0; x1; x2; x3; x4; x5; x6; x7; x8; x9; x10; x11].
Proof.
  intros H.
  do 12 (destruct b as [| ? b]; [discriminate |]).
  destruct b; [| discriminate]. repeat eexists.
Qed.

Lemma list_of_length_10 (b : list Z) :
  length b = 10%nat ->
  exists x0 x1 x2 x3 x4 x5 x6 x7 x8 x9,
    b = [x0; x1; x2; x3; x4; x5; x6; x7; x8; x9].
Proof.
  intros H.
  do 10 (destruct b as [| ? b]; [discriminate |]).
  destruct b; [| discriminate]. repeat eexists.
Qed.

(** ** One round of the scanning loop of [recvResponsePkt] *)

Lemma response_round_other v q b d c :
  to_byte v <> 0x55 ->
  response_round (mkScan (v :: q) b d c) = mkScan q b d c.
Proof.
  intros H. unfold response_round. cbn [queue COMMS_read buff done givenChkSum].
  apply Z.eqb_neq in H. now rewrite H.
Qed.

Lemma response_round_lone v b d c :
  to_byte v = 0x55 ->
  response_round (mkScan [v] b d c) = mkScan [] b d c.
Proof.
  intros H. unfold response_round. cbn [queue COMMS_read buff done givenChkSum].
  rewrite H. reflexivity.
Qed.

Lemma response_round_false_start v w q b d c :
  to_byte v = 0x55 -> w <> 0xAA ->
  response_round (mkScan (v :: w :: q) b d c) = mkScan q b d c.
Proof.
  intros H Hw. unfold response_round.
  cbn [queue COMMS_read buff done givenChkSum].
  rewrite H. apply Z.eqb_neq in Hw. rewrite Hw. reflexivity.
Qed.

Lemma response_round_packet v ten q b d c :
  to_byte v = 0x55 -> length b = 12%nat -> length ten = 10%nat ->
  response_round (mkScan (v :: 0xAA :: ten ++ q) b d c)
  = mkScan q (received ten) true (given_of (received ten)).
Proof.
  intros H Hb Hten. unfold response_round.
  cbn [queue COMMS_read buff done givenChkSum]. rewrite H.
  change (0x55 =? 0x55) with true. change (0xAA =? 0xAA) with true. cbv iota.
  destruct (list_of_length_12 b Hb)
    as (x0 & x1 & x2 & x3 & x4 & x5 & x6 & x7 & x8 & x9 & x10 & x11 & ->).
  destruct (list_of_length_10 ten Hten)
    as (v2 & v3 & v4 & v5 & v6 & v7 & v8 & v9 & v10 & v11 & ->).
  change (put (put [x0; x1; x2; x3; x4; x5; x6; x7; x8; x9; x10; x11] 0 0x55) 1 0xAA)
    with [0x55; 0xAA; x2; x3; x4; x5; x6; x7; x8; x9; x10; x11].
  change ([v2; v3; v4; v5; v6; v7; v8; v9; v10; v11] ++ q)
    with (v2 :: v3 :: v4 :: v5 :: v6 :: v7 :: v8 :: v9 :: v10 :: v11 :: q).
  rewrite response_fill_complete. reflexivity.
Qed.

Lemma response_round_cut_short v q b d c :
  to_byte v = 0x55 -> (length q < 10)%nat ->
  exists b', response_round (mkScan (v :: 0xAA :: q) b d c) = mkScan [] b' d c.
Proof.
  intros H Hq. unfold response_round.
  cbn [queue COMMS_read buff done givenChkSum]. rewrite H.
  change (0x55 =? 0x55) with true. change (0xAA =? 0xAA) with true. cbv iota.
  destruct (response_fill_drained (put (put b 0 0x55) 1 0xAA) q Hq)
    as (i' & b' & E & Hi').
  rewrite E. apply Z.eqb_neq in Hi'. rewrite Hi'. now exists b'.
Qed.

Lemma response_round_queue v q b d c :
  (length (queue (response_round (mkScan (v :: q) b d c))) <= length q)%nat.
Proof.
  unfold response_round. cbn [queue COMMS_read buff done givenChkSum].
  destruct (to_byte v =? 0x55); [| cbn; lia].
  destruct q as [| w q]; cbn [COMMS_read].
  - change (-1 =? 0xAA) with false. cbn. lia.
  - destruct (w =? 0xAA); [| cbn; lia].
    pose proof (response_fill_queue 10 2 (put (put b 0 0x55) 1 0xAA) q) as Hq.
    destruct (response_fill 10 2 (put (put b 0 0x55) 1 0xAA) q) as [[i b'] q'].
    cbn [snd] in Hq. destruct (i =? 12); cbn [queue length]; lia.
Qed.

(** ** The scanning loop of [recvResponsePkt] *)

Lemma response_while_done rounds l :
  done l = true -> response_while rounds l = l.
Proof.
  intros H. destruct rounds; [reflexivity |].
  cbn [response_while]. rewrite H. now rewrite andb_false_r.
Qed.

Lemma response_while_empty rounds b d c :
  response_while rounds (mkScan [] b d c) = mkScan [] b d c.
Proof. destruct rounds; reflexivity. Qed.

Lemma response_while_round rounds v q b c :
  response_while (S rounds) (mkScan (v :: q) b false c)
  = response_while rounds (response_round (mkScan (v :: q) b false c)).
Proof.
  cbn [response_while queue done]. now rewrite available_cons.
Qed.

(** The loop never stops for lack of rounds: with at least as many rounds as
    waiting bytes the result does not depend on their number. *)
Lemma response_while_enough rounds :
  forall l, (length (queue l) <= rounds)%nat ->
            response_while rounds l = response_while (length (queue l)) l.
Proof.
  induction rounds as [rounds IH] using lt_wf_ind. intros [q b d c] Hq.
  cbn [queue] in *.
  destruct d; [now rewrite !response_while_done |].
  destruct q as [| v q]; [now rewrite !response_while_empty |].
  destruct rounds as [| rounds]; [cbn in Hq; lia |].
  cbn [length] in *. rewrite !response_while_round.
  pose proof (response_round_queue v q b false c) as Hle.
  rewrite (IH rounds) by lia.
  rewrite (IH (length q)) by lia. reflexivity.
Qed.

(** When the loop has run, its condition is false. *)
Lemma response_while_exits rounds :
  forall l, (length (queue l) <= rounds)%nat ->
            done (response_while rounds l) = true
            \/ queue (response_while rounds l) = [].
Proof.
  induction rounds as [| rounds IH]; intros [q b d c] Hq; cbn [queue] in *.
  - right. destruct q; [reflexivity | cbn in Hq; lia].
  - destruct d; [left; now rewrite response_while_done |].
    destruct q as [| v q]; [right; now rewrite response_while_empty |].
    rewrite response_while_round. apply IH.
    pose proof (response_round_queue v q b false c). cbn [length] in Hq. lia.
Qed.

Lemma response_scan_exits q :
  done (response_scan q) = true \/ queue (response_scan q) = [].
Proof. apply response_while_exits. cbn. lia. Qed.

Lemma response_run_done l : done l = true -> response_run l = l.
Proof. apply response_while_done. Qed.

Lemma response_run_empty b d c : response_run (mkScan [] b d c) = mkScan [] b d c.
Proof. reflexivity. Qed.

Lemma response_run_round v q b c :
  response_run (mkScan (v :: q) b false c)
  = response_run (response_round (mkScan (v :: q) b false c)).
Proof.
  unfold response_run at 1. cbn [queue length]. rewrite response_while_round.
  apply response_while_enough. apply response_round_queue.
Qed.

Lemma response_run_skip n :
  forall g q b c,
    (length g <= n)%nat -> bytes g -> marker_free g = true ->
    response_run (mkScan (g ++ q) b false c) = response_run (mkScan q b false c).
Proof.
  induction n as [| n IH]; intros g q b c Hn Hg Hfree.
  - destruct g; [reflexivity | cbn in Hn; lia].
  - destruct g as [| v g]; [reflexivity |].
    apply bytes_cons in Hg as [Hv Hg]. cbn [length] in Hn.
    cbn [marker_free] in Hfree. change ((v :: g) ++ q) with (v :: g ++ q).
    rewrite response_run_round.
    destruct (v =? 0x55) eqn:Ev.
    + apply Z.eqb_eq in Ev. subst v.
      destruct g as [| w g]; [discriminate |].
      apply andb_true_iff in Hfree as [Hw Hfree].
      apply andb_true_iff in Hw as [Hw55 HwAA].
      apply negb_true_iff in Hw55, HwAA.
      change ((w :: g) ++ q) with (w :: g ++ q).
      rewrite response_round_false_start;
        [| reflexivity | now apply Z.eqb_neq].
      cbn [marker_free] in Hfree. rewrite Hw55 in Hfree.
      apply bytes_cons in Hg as [_ Hg]. cbn [length] in Hn.
      apply IH; [lia | assumption | assumption].
    + rewrite response_round_other
        by (rewrite (to_byte_of_byte v Hv); now apply Z.eqb_neq).
      apply IH; [lia | assumption | assumption].
Qed.

(** Resynchronisation: marker-free bytes, then a marker and ten bytes. *)
Lemma response_scan_resync g ten rest :
  bytes g -> marker_free g = true -> length ten = 10%nat ->
  response_scan (g ++ 0x55 :: 0xAA :: ten ++ rest)
  = mkScan rest (received ten) true (given_of (received ten)).
Proof.
  intros Hg Hfree Hten.
  change (response_scan (g ++ 0x55 :: 0xAA :: ten ++ rest))
    with (response_run (mkScan (g ++ 0x55 :: 0xAA :: ten ++ rest)
                               (repeat 0 12) false 0x0000)).
  rewrite (response_run_skip (length g)) by (assumption || lia).
  rewrite response_run_round.
  rewrite response_round_packet by (assumption || reflexivity).
  now apply response_run_done.
Qed.

(** Conversely, whatever the queue holds, a scan that ends with [done] has
    read a marker and the ten bytes after it, and left what follows them. *)
Lemma response_while_found rounds :
  forall q b c,
    length b = 12%nat ->
    done (response_while rounds (mkScan q b false c)) = true ->
    exists skipped v ten,
      q = skipped ++ v :: 0xAA :: ten
            ++ queue (response_while rounds (mkScan q b false c))
      /\ to_byte v = 0x55 /\ length ten = 10%nat
      /\ buff (response_while rounds (mkScan q b false c)) = received ten
      /\ givenChkSum (response_while rounds (mkScan q b false c))
         = given_of (received ten).
Proof.
  induction rounds as [| rounds IH]; intros q b c Hb Hdone;
    [cbn in Hdone; discriminate |].
  destruct q as [| v q]; [rewrite response_while_empty in Hdone; discriminate |].
  rewrite response_while_round in *.
  destruct (Z.eq_dec (to_byte v) 0x55) as [Ev | Ev].
  2:{ rewrite response_round_other in * by assumption.
      destruct (IH q b c Hb Hdone) as (sk & v' & ten & Eq & H).
      exists (v :: sk), v', ten. split; [| exact H].
      cbn [app]. now rewrite <- Eq. }
  destruct q as [| w q].
  { rewrite response_round_lone in Hdone by assumption.
    rewrite response_while_empty in Hdone. discriminate. }
  destruct (Z.eq_dec w 0xAA) as [Ew | Ew].
  2:{ rewrite response_round_false_start in * by assumption.
      destruct (IH q b c Hb Hdone) as (sk & v' & ten & Eq & H).
      exists (v :: w :: sk), v', ten. split; [| exact H].
      cbn [app]. now rewrite <- Eq. }
  subst w. destruct (Nat.lt_ge_cases (length q) 10) as [Hshort | Hlong].
  { destruct (response_round_cut_short v q b false c Ev Hshort) as [b' E].
    rewrite E, response_while_empty in Hdone. discriminate. }
  assert (length (firstn 10 q) = 10%nat) as Hten by (rewrite length_firstn; lia).
  clear Hdone Hlong. remember (firstn 10 q) as ten eqn:Eten.
  rewrite <- (firstn_skipn 10 q), <- Eten.
  rewrite response_round_packet by assumption.
  rewrite response_while_done by reflexivity. cbn [queue buff givenChkSum].
  exists [], v, ten. repeat split; assumption.
Qed.

Lemma response_scan_found q :
  done (response_scan q) = true ->
  exists skipped v ten,
    q = skipped ++ v :: 0xAA :: ten ++ queue (response_scan q)
    /\ to_byte v = 0x55 /\ length ten = 10%nat
    /\ buff (response_scan q) = received ten
    /\ givenChkSum (response_scan q) = given_of (received ten).
Proof. apply response_while_found. reflexivity. Qed.

(** ** Decoding the fields of a received packet *)

Lemma at_received_byte ten i :
  length ten = 10%nat -> 0 <= i < 12 -> is_byte (at_ (received ten) i).
Proof.
  intros Hten Hi.
  destruct (list_of_length_10 ten Hten)
    as (v2 & v3 & v4 & v5 & v6 & v7 & v8 & v9 & v10 & v11 & ->).
  assert (i = 0 \/ i = 1 \/ i = 2 \/ i = 3 \/ i = 4 \/ i = 5 \/ i = 6 \/ i = 7
          \/ i = 8 \/ i = 9 \/ i = 10 \/ i = 11) as Hcase by lia.
  repeat (destruct Hcase as [-> | Hcase]); try subst i;
    match goal with
    | |- is_byte (at_ ?l ?i) =>
        let n := eval vm_compute in (Z.to_nat i) in
        change (is_byte (nth n l 0))
    end;
    cbn [received map nth];
    first [ apply byteb_is_byte; apply to_byte_byteb
          | unfold is_byte; lia ].
Qed.

Lemma shiftl_lor_bytes hi lo n :
  0 <= n -> 0 <= lo < 2 ^ n -> Z.lor (Z.shiftl hi n) lo = lo + 2 ^ n * hi.
Proof.
  intros Hn Hlo. rewrite Z.shiftl_mul_pow2 by assumption.
  rewrite lor_shifted by assumption. lia.
Qed.

Lemma given_of_bytes b :
  is_byte (at_ b 10) -> is_byte (at_ b 11) ->
  given_of b = at_ b 10 + 2 ^ 8 * at_ b 11.
Proof.
  unfold given_of, to_word, is_byte. intros H10 H11.
  rewrite shiftl_lor_bytes by lia.
  apply Z.mod_small. change (2 ^ 8) with 256 in *. change (2 ^ 16) with 65536. lia.
Qed.

Lemma response_param_bytes b :
  is_byte (at_ b 4) -> is_byte (at_ b 5) -> is_byte (at_ b 6) -> is_byte (at_ b 7) ->
  response_param b
  = at_ b 4 + 2 ^ 8 * at_ b 5 + 2 ^ 16 * at_ b 6 + 2 ^ 24 * at_ b 7.
Proof.
  unfold response_param, to_dword, is_byte. intros H4 H5 H6 H7.
  change (2 ^ 8) with 256 in *.
  rewrite <- !Z.lor_assoc.
  rewrite (shiftl_lor_bytes (at_ b 5) (at_ b 4) 8) by (change (2 ^ 8) with 256; lia).
  rewrite (shiftl_lor_bytes (at_ b 6) _ 16) by (change (2 ^ 8) with 256; change (2 ^ 16) with 65536; lia).
  rewrite (shiftl_lor_bytes (at_ b 7) _ 24)
    by (change (2 ^ 8) with 256; change (2 ^ 16) with 65536;
        change (2 ^ 24) with 16777216; lia).
  change (2 ^ 8) with 256. change (2 ^ 16) with 65536.
  change (2 ^ 24) with 16777216. change (2 ^ 32) with 4294967296.
  rewrite Z.mod_small; lia.
Qed.

(** ** What [recvResponsePkt] does with the packet it found *)

Lemma received_bytes ten : bytes ten -> received ten = 0x55 :: 0xAA :: ten.
Proof. intros H. unfold received. now rewrite map_to_byte_bytes. Qed.

Lemma given_of_received ten :
  length ten = 10%nat ->
  given_of (received ten) = at_ (received ten) 10 + 2 ^ 8 * at_ (received ten) 11.
Proof.
  intros Hten. apply given_of_bytes; apply at_received_byte; (assumption || lia).
Qed.

Lemma response_param_received ten :
  length ten = 10%nat ->
  response_param (received ten)
  = at_ (received ten) 4 + 2 ^ 8 * at_ (received ten) 5
    + 2 ^ 16 * at_ (received ten) 6 + 2 ^ 24 * at_ (received ten) 7.
Proof.
  intros Hten.
  apply response_param_bytes; apply at_received_byte; (assumption || lia).
Qed.

Lemma firstn_received ten : length ten = 10%nat -> firstn 12 (received ten) = received ten.
Proof.
  intros Hten. apply firstn_all2. unfold received. cbn [length].
  rewrite length_map. lia.
Qed.

Example response_packet_ack :
  response_packet ACK 0
  = [0x55; 0xAA; 0x01; 0x00; 0x00; 0x00; 0x00; 0x00; 0x30; 0x00; 0x30; 0x01].
Proof. reflexivity. Qed.

(** ** C1 *)

(** Leading bytes the scan gets past.  When the receive queue holds leading
    bytes accepted by [marker_free] and then a complete 12-byte response
    packet with a matching checksum, [recvResponsePkt] finds the marker of
    the packet, takes exactly the packet off the queue, decodes it and
    returns true. *)
Theorem recvResponsePkt_resync (s : Driver) (garbage ten rest : list Z) :
  bytes garbage -> marker_free garbage = true ->
  bytes ten -> length ten = 10%nat ->
  computeCheckSum (0x55 :: 0xAA :: ten) 10 = at_ ten 8 + 2 ^ 8 * at_ ten 9 ->
  rx s = garbage ++ 0x55 :: 0xAA :: ten ++ rest ->
  fst (recvResponsePkt s) = true
  /\ rx (snd (recvResponsePkt s)) = rest
  /\ mRespStatus (snd (recvResponsePkt s)) = negb (at_ ten 6 =? NACK)
  /\ mRespParam (snd (recvResponsePkt s))
     = at_ ten 2 + 2 ^ 8 * at_ ten 3 + 2 ^ 16 * at_ ten 4 + 2 ^ 24 * at_ ten 5
  /\ (at_ ten 6 <> NACK ->
      mRespPkt (snd (recvResponsePkt s)) = 0x55 :: 0xAA :: ten).
Proof.
  intros Hg Hfree Hbytes Hten Hsum Hrx.
  unfold recvResponsePkt. rewrite Hrx.
  rewrite response_scan_resync by assumption.
  cbn [queue buff done givenChkSum negb fst snd].
  rewrite given_of_received, response_param_received, firstn_received
    by assumption.
  rewrite (received_bytes ten Hbytes).
  change (at_ (0x55 :: 0xAA :: ten) 10) with (at_ ten 8).
  change (at_ (0x55 :: 0xAA :: ten) 11) with (at_ ten 9).
  change (at_ (0x55 :: 0xAA :: ten) 8) with (at_ ten 6).
  change (at_ (0x55 :: 0xAA :: ten) 4) with (at_ ten 2).
  change (at_ (0x55 :: 0xAA :: ten) 5) with (at_ ten 3).
  change (at_ (0x55 :: 0xAA :: ten) 6) with (at_ ten 4).
  change (at_ (0x55 :: 0xAA :: ten) 7) with (at_ ten 5).
  rewrite Hsum, Z.eqb_refl. cbn [negb]. change 0x31 with NACK.
  destruct (at_ ten 6 =? NACK) eqn:E; cbn; repeat split; try reflexivity.
  intros H. apply Z.eqb_eq in E. contradiction.
Qed.

Lemma recvResponsePkt_resync_witness :
  let s := with_rx ([0x00; 0x55; 0x07; 0xAA] ++ response_packet ACK 3 ++ [0x09])
                   power_on in
  fst (recvResponsePkt s) = true
  /\ rx (snd (recvResponsePkt s)) = [0x09]
  /\ mRespStatus (snd (recvResponsePkt s)) = true
  /\ mRespParam (snd (recvResponsePkt s)) = 3
  /\ mRespPkt (snd (recvResponsePkt s)) = response_packet ACK 3.
Proof.
  cbv zeta.
  destruct (recvResponsePkt_resync
              (with_rx ([0x00; 0x55; 0x07; 0xAA] ++ response_packet ACK 3 ++ [0x09])
                       power_on)
              [0x00; 0x55; 0x07; 0xAA]
              [0x01; 0x00; 0x03; 0x00; 0x00; 0x00; 0x30; 0x00; 0x33; 0x01]
              [0x09])
    as (H1 & H2 & H3 & H4 & H5); try (vm_compute; reflexivity).
  split; [exact H1 |]. split; [exact H2 |]. split; [exact H3 |].
  split; [exact H4 |]. apply H5. vm_compute. discriminate.
Defined.

(** A 0x55 0xAA among the leading bytes is a marker like any other: the ten
    bytes behind it are read as the packet, here with a checksum that does
    not match, and of the acknowledgement that follows only the last two
    bytes are left. *)
Example recvResponsePkt_marker_among_leading_bytes :
  let s := with_rx ([0x55; 0xAA] ++ response_packet ACK 0) power_on in
  fst (recvResponsePkt s) = true
  /\ mRespStatus (snd (recvResponsePkt s)) = false
  /\ mRespParam (snd (recvResponsePkt s)) = NACK_COMM_ERR
  /\ rx (snd (recvResponsePkt s)) = [0x30; 0x01].
Proof. vm_compute. repeat split; reflexivity. Qed.

(** A queue shorter than a packet never completes one, and is used up. *)
Lemma response_run_short q b c :
  (length q < 12)%nat -> length b = 12%nat ->
  done (response_run (mkScan q b false c)) = false
  /\ queue (response_run (mkScan q b false c)) = [].
Proof.
  intros Hq Hb. unfold response_run. cbn [queue].
  destruct (done (response_while (length q) (mkScan q b false c))) eqn:D.
  - exfalso.
    destruct (response_while_found (length q) q b c Hb D)
      as (sk & v & ten & Eq & _ & Hten & _).
    apply (f_equal (@length Z)) in Eq.
    rewrite length_app in Eq. cbn [length] in Eq. rewrite length_app in Eq. lia.
  - split; [reflexivity |].
    destruct (response_while_exits (length q) (mkScan q b false c)) as [H | H];
      [cbn; lia | congruence | exact H].
Qed.

(** C1.  The code loses a well-formed packet behind a single stray 0x55.
    The scan reads the byte after every 0x55 and, when that byte is not
    0xAA, drops it together with the 0x55: here the byte it drops is the
    first byte of the packet's own marker.  The rest of the packet is then
    thrown away byte by byte: whatever the ten bytes behind the marker are,
    the call returns false, reports that nothing was received and leaves the
    queue empty. *)
Theorem recvResponsePkt_stray_start_byte (s : Driver) (ten : list Z) :
  length ten = 10%nat ->
  rx s = 0x55 :: 0x55 :: 0xAA :: ten ->
  recvResponsePkt s = (false, with_resp false NACK_NOT_RECVD (with_rx [] s)).
Proof.
  intros Hten Hrx. unfold recvResponsePkt. rewrite Hrx.
  change (response_scan (0x55 :: 0x55 :: 0xAA :: ten))
    with (response_run (mkScan (0x55 :: 0x55 :: 0xAA :: ten)
                               (repeat 0 12) false 0x0000)).
  rewrite response_run_round.
  rewrite response_round_false_start by (reflexivity || discriminate).
  destruct (response_run_short (0xAA :: ten) (repeat 0 12) 0x0000) as [D Q];
    [cbn [length]; lia | reflexivity |].
  cbv zeta. rewrite D, Q. reflexivity.
Qed.

(** The failing input: one 0x55, then the acknowledgement with parameter 0.
    The same packet alone, or behind any other single byte such as 0x07, is
    found and decoded. *)
Lemma recvResponsePkt_stray_start_byte_witness :
  let lost := recvResponsePkt (with_rx (0x55 :: response_packet ACK 0) power_on) in
  let alone := recvResponsePkt (with_rx (response_packet ACK 0) power_on) in
  let behind := recvResponsePkt (with_rx (0x07 :: response_packet ACK 0) power_on) in
  (fst lost = false /\ mRespStatus (snd lost) = false
   /\ mRespParam (snd lost) = NACK_NOT_RECVD /\ rx (snd lost) = [])
  /\ (fst alone = true /\ mRespStatus (snd alone) = true
      /\ mRespParam (snd alone) = 0 /\ rx (snd alone) = [])
  /\ (fst behind = true /\ mRespStatus (snd behind) = true
      /\ mRespParam (snd behind) = 0 /\ rx (snd behind) = []).
Proof.
  cbv zeta. split; [| vm_compute; repeat split; reflexivity].
  rewrite (recvResponsePkt_stray_start_byte
             (with_rx (0x55 :: response_packet ACK 0) power_on)
             [0x01; 0x00; 0x00; 0x00; 0x00; 0x00; 0x30; 0x00; 0x30; 0x01]
             eq_refl eq_refl).
  repeat split; reflexivity.
Defined.

(** ** C7 *)

(** C7, as the code has it.  Whatever the receive queue holds, when the scan
    of [recvResponsePkt] completes a packet ([done]) whose checksum matches,
    the packet is a marker and the ten bytes behind it somewhere in the queue;
    it is a negative acknowledgement exactly when its status byte is 0x31,
    and then the parameter field is stored as the error code with the status
    set to failure and [mRespPkt] left alone; with any other status byte,
    0x30 included, it is an acknowledgement: the status is set to success,
    the parameter is stored and the packet is copied to [mRespPkt]. *)
Theorem recvResponsePkt_classifies (s : Driver) :
  let l := response_scan (rx s) in
  let s' := snd (recvResponsePkt s) in
  done l = true ->
  computeCheckSum (buff l) 10 = at_ (buff l) 10 + 2 ^ 8 * at_ (buff l) 11 ->
  (exists skipped v ten,
      rx s = skipped ++ v :: 0xAA :: ten ++ rx s'
      /\ to_byte v = 0x55 /\ length ten = 10%nat
      /\ buff l = 0x55 :: 0xAA :: map to_byte ten)
  /\ fst (recvResponsePkt s) = true
  /\ mRespStatus s' = negb (at_ (buff l) 8 =? NACK)
  /\ mRespParam s'
     = at_ (buff l) 4 + 2 ^ 8 * at_ (buff l) 5
       + 2 ^ 16 * at_ (buff l) 6 + 2 ^ 24 * at_ (buff l) 7
  /\ mRespPkt s' = (if at_ (buff l) 8 =? NACK then mRespPkt s else buff l).
Proof.
  cbv zeta. intros Hdone Hsum.
  destruct (response_scan_found (rx s) Hdone)
    as (skipped & v & ten & Hq & Hv & Hten & Hbuff & Hgiven).
  unfold recvResponsePkt. rewrite Hdone, Hgiven. rewrite Hbuff in *.
  rewrite given_of_received by assumption. rewrite Hsum, Z.eqb_refl.
  rewrite response_param_received, firstn_received by assumption.
  cbn [negb fst snd]. change 0x31 with NACK. split.
  - exists skipped, v, ten.
    destruct (at_ (received ten) 8 =? NACK); cbn [rx with_rx with_resp with_respPkt];
      repeat split; assumption.
  - destruct (at_ (received ten) 8 =? NACK); repeat split; reflexivity.
Qed.

Lemma recvResponsePkt_classifies_witness :
  let s := with_rx ([0x0A] ++ response_packet NACK NACK_IS_ALREADY_USED) power_on in
  fst (recvResponsePkt s) = true
  /\ mRespStatus (snd (recvResponsePkt s)) = false
  /\ mRespParam (snd (recvResponsePkt s)) = NACK_IS_ALREADY_USED
  /\ mRespPkt (snd (recvResponsePkt s)) = mRespPkt s.
Proof.
  cbv zeta.
  destruct (recvResponsePkt_classifies
              (with_rx ([0x0A] ++ response_packet NACK NACK_IS_ALREADY_USED)
                       power_on))
    as (_ & H1 & H2 & H3 & H4); try (vm_compute; reflexivity).
  split; [exact H1 |]. split; [exact H2 |]. split; [exact H3 | exact H4].
Defined.

(** C7 fails as stated: a packet with a matching checksum whose status byte
    is 0x00, not the ACK code 0x30, is taken for an acknowledgement. *)
Lemma recvResponsePkt_accepts_other_status :
  let pkt := response_packet 0x00 7 in
  let s := with_rx pkt power_on in
  at_ pkt 8 <> ACK
  /\ computeCheckSum pkt 10 = at_ pkt 10 + 2 ^ 8 * at_ pkt 11
  /\ fst (recvResponsePkt s) = true
  /\ mRespStatus (snd (recvResponsePkt s)) = true
  /\ mRespParam (snd (recvResponsePkt s)) = 7
  /\ mRespPkt (snd (recvResponsePkt s)) = pkt.
Proof. vm_compute. repeat split; (reflexivity || discriminate). Qed.

(** ** The scanning loop of [recvDataPkt] *)

Lemma data_fill_queue total q :
  forall i pkt, (length (snd (data_fill total i pkt q)) <= length q)%nat.
Proof.
  induction q as [| v q IH]; intros i pkt; [cbn; lia |].
  cbn [data_fill]. destruct (i <? total); [| cbn; lia].
  specialize (IH (to_byte (i + 1)) (put pkt i (to_byte v))). cbn [length]. lia.
Qed.

(** The inner loop of [recvDataPkt] ends on [totalPktSize] only if the packet
    is shorter than 256 bytes, the range of its [uint8_t] counter, and then it
    has taken exactly the missing bytes off the queue. *)
Lemma data_fill_complete total q :
  forall i pkt,
    0 <= i <= 255 -> i <= total ->
    fst (fst (data_fill total i pkt q)) = total ->
    total <= 255
    /\ exists taken,
        q = taken ++ snd (data_fill total i pkt q)
        /\ Z.of_nat (length taken) = total - i.
Proof.
  induction q as [| v q IH]; intros i pkt Hi Hle Hend.
  - cbn in *. subst. split; [lia |]. exists []. split; [reflexivity | cbn; lia].
  - cbn [data_fill] in *. destruct (i <? total) eqn:E.
    + apply Z.ltb_lt in E.
      destruct (Z.eq_dec i 255) as [-> | Hne].
      * change (to_byte (255 + 1)) with 0 in *.
        destruct (IH 0 (put pkt 255 (to_byte v))) as [Hbad _];
          [lia | lia | assumption | lia].
      * replace (to_byte (i + 1)) with (i + 1) in *
          by (symmetry; apply Z.mod_small; change (2 ^ 8) with 256; lia).
        destruct (IH (i + 1) (put pkt i (to_byte v))) as (Ht & taken & Eq & Hlen);
          [lia | lia | assumption |].
        split; [assumption |]. exists (v :: taken). split.
        -- cbn [app]. now rewrite <- Eq.
        -- cbn [length]. lia.
    + cbn in *. subst. split; [lia |]. exists []. split; [reflexivity | cbn; lia].
Qed.

Lemma data_round_queue total v q b d c :
  (length (queue (data_round total (mkScan (v :: q) b d c))) <= length q)%nat.
Proof.
  unfold data_round. cbn [queue COMMS_read buff done givenChkSum].
  destruct (to_byte v =? 0x5A); [| cbn; lia].
  destruct q as [| w q]; cbn [COMMS_read].
  - change (-1 =? 0xA5) with false. cbn. lia.
  - destruct (w =? 0xA5); [| cbn; lia].
    pose proof (data_fill_queue total q 2 (put (put b 0 0x5A) 1 0xA5)) as Hq.
    destruct (data_fill total 2 (put (put b 0 0x5A) 1 0xA5) q) as [[i b'] q'].
    cbn [snd] in Hq. destruct (i =? total); cbn [queue length]; lia.
Qed.

Lemma data_while_done total rounds l :
  done l = true -> data_while total rounds l = l.
Proof.
  intros H. destruct rounds; [reflexivity |].
  cbn [data_while]. rewrite H. now rewrite andb_false_r.
Qed.

Lemma data_while_empty total rounds b d c :
  data_while total rounds (mkScan [] b d c) = mkScan [] b d c.
Proof. destruct rounds; reflexivity. Qed.

Lemma data_while_round total rounds v q b c :
  data_while total (S rounds) (mkScan (v :: q) b false c)
  = data_while total rounds (data_round total (mkScan (v :: q) b false c)).
Proof. cbn [data_while queue done]. now rewrite available_cons. Qed.

(** When the loop has run, its condition is false: the rounds given to it
    were enough. *)
Lemma data_while_exits total rounds :
  forall l, (length (queue l) <= rounds)%nat ->
            done (data_while total rounds l) = true
            \/ queue (data_while total rounds l) = [].
Proof.
  induction rounds as [| rounds IH]; intros [q b d c] Hq; cbn [queue] in *.
  - right. destruct q; [reflexivity | cbn in Hq; lia].
  - destruct d; [left; now rewrite data_while_done |].
    destruct q as [| v q]; [right; now rewrite data_while_empty |].
    rewrite data_while_round. apply IH.
    pose proof (data_round_queue total v q b false c). cbn [length] in Hq. lia.
Qed.

Lemma data_scan_exits total pkt q :
  done (data_scan total pkt q) = true \/ queue (data_scan total pkt q) = [].
Proof. apply data_while_exits. cbn. lia. Qed.

Lemma data_fill_suffix total q :
  forall i pkt, exists taken, q = taken ++ snd (data_fill total i pkt q).
Proof.
  induction q as [| v q IH]; intros i pkt; [now exists [] |].
  cbn [data_fill]. destruct (i <? total); [| now exists []].
  destruct (IH (to_byte (i + 1)) (put pkt i (to_byte v))) as [taken E].
  exists (v :: taken). cbn [app]. now rewrite <- E.
Qed.

Lemma data_fill_stop total i pkt q :
  total <= i -> data_fill total i pkt q = (i, pkt, q).
Proof.
  intros H. destruct q; cbn [data_fill]; [reflexivity |].
  replace (i <? total) with false by (symmetry; apply Z.ltb_ge; lia).
  reflexivity.
Qed.

(** Stores of bytes keep the bytes of an array bytes. *)
Lemma nth_insert_cases (b : list Z) :
  forall (i j : nat) x,
    nth j (<[i:=x]> b) 0 = x \/ nth j (<[i:=x]> b) 0 = nth j b 0.
Proof.
  induction b as [| a b IH]; intros i j x; [now right |].
  destruct i as [| i]; destruct j as [| j]; cbn; auto.
Qed.

Lemma nth_insert_same (b : list Z) :
  forall (i : nat) x, nth i (<[i:=x]> b) 0 = x \/ nth i (<[i:=x]> b) 0 = 0.
Proof.
  induction b as [| a b IH]; intros i x; [right; now destruct i |].
  destruct i as [| i]; cbn; auto.
Qed.

Lemma at_put_byte b i x j :
  is_byte x -> is_byte (at_ b j) -> is_byte (at_ (put b i x) j).
Proof.
  intros Hx Hj. unfold at_, put in *.
  destruct (nth_insert_cases b (Z.to_nat i) (Z.to_nat j) x) as [-> | ->];
    assumption.
Qed.

Lemma at_put_same_byte b i x : is_byte x -> is_byte (at_ (put b i x) i).
Proof.
  intros Hx. unfold at_, put.
  destruct (nth_insert_same b (Z.to_nat i) x) as [-> | ->];
    [assumption | unfold is_byte; lia].
Qed.

Lemma to_byte_is_byte v : is_byte (to_byte v).
Proof. apply byteb_is_byte, to_byte_byteb. Qed.

Lemma data_fill_bytes total q :
  forall i pkt,
    0 <= i <= 255 -> i <= total ->
    (forall j, 0 <= j < i -> is_byte (at_ pkt j)) ->
    fst (fst (data_fill total i pkt q)) = total ->
    forall j, 0 <= j < total ->
              is_byte (at_ (snd (fst (data_fill total i pkt q))) j).
Proof.
  induction q as [| v q IH]; intros i pkt Hi Hle Hpkt Hend.
  - cbn in *. subst. assumption.
  - cbn [data_fill] in *. destruct (i <? total) eqn:E.
    + apply Z.ltb_lt in E.
      destruct (Z.eq_dec i 255) as [-> | Hne].
      * change (to_byte (255 + 1)) with 0 in *.
        destruct (data_fill_complete total q 0 (put pkt 255 (to_byte v)));
          [lia | lia | assumption | lia].
      * replace (to_byte (i + 1)) with (i + 1) in *
          by (symmetry; apply Z.mod_small; change (2 ^ 8) with 256; lia).
        apply IH; [lia | lia | | assumption].
        intros j Hj. destruct (Z.eq_dec j i) as [-> | Hji].
        -- apply at_put_same_byte, to_byte_is_byte.
        -- apply at_put_byte; [apply to_byte_is_byte | apply Hpkt; lia].
    + cbn in *. subst. assumption.
Qed.

(** A data scan that ends with [done] has read a marker and the
    [totalPktSize - 2] bytes after it, and left what follows them; the packet
    is shorter than 256 bytes and the checksum it was given is the one its
    last two bytes spell, least significant byte first. *)
Lemma data_while_found total rounds :
  forall q b c,
    done (data_while total rounds (mkScan q b false c)) = true ->
    2 <= total <= 255
    /\ (exists skipped v body,
        q = skipped ++ v :: 0xA5 :: body
              ++ queue (data_while total rounds (mkScan q b false c))
        /\ to_byte v = 0x5A /\ Z.of_nat (length body) = total - 2)
    /\ givenChkSum (data_while total rounds (mkScan q b false c))
       = at_ (buff (data_while total rounds (mkScan q b false c))) (total - 2)
         + 2 ^ 8
           * at_ (buff (data_while total rounds (mkScan q b false c))) (total - 1).
Proof.
  induction rounds as [| rounds IH]; intros q b c Hdone;
    [cbn in Hdone; discriminate |].
  destruct q as [| v q]; [rewrite data_while_empty in Hdone; discriminate |].
  rewrite data_while_round in *.
  unfold data_round in *. cbn [queue COMMS_read buff done givenChkSum] in *.
  destruct (to_byte v =? 0x5A) eqn:Ev.
  2:{ destruct (IH q b c Hdone) as (Ht & (sk & v' & body & Eq & H) & Hg).
      split; [assumption |]. split; [| exact Hg].
      exists (v :: sk), v', body. split; [| exact H].
      cbn [app]. now rewrite <- Eq. }
  apply Z.eqb_eq in Ev.
  destruct q as [| w q]; cbn [COMMS_read] in *.
  { change (-1 =? 0xA5) with false in Hdone. cbv iota in Hdone.
    rewrite data_while_empty in Hdone. discriminate. }
  destruct (w =? 0xA5) eqn:Ew.
  2:{ destruct (IH q b c Hdone) as (Ht & (sk & v' & body & Eq & H) & Hg).
      split; [assumption |]. split; [| exact Hg].
      exists (v :: w :: sk), v', body. split; [| exact H].
      cbn [app]. now rewrite <- Eq. }
  apply Z.eqb_eq in Ew. subst w.
  set (b0 := put (put b 0 0x5A) 1 0xA5) in *.
  assert (forall j, 0 <= j < 2 -> is_byte (at_ b0 j)) as Hb0.
  { intros j Hj. assert (j = 0 \/ j = 1) as [-> | ->] by lia; unfold b0.
    - apply at_put_byte; [unfold is_byte; lia |].
      apply at_put_same_byte. unfold is_byte; lia.
    - apply at_put_same_byte. unfold is_byte; lia. }
  pose proof (data_fill_complete total q 2 b0) as Hfill.
  pose proof (data_fill_bytes total q 2 b0) as Hbytes.
  destruct (data_fill_suffix total q 2 b0) as [taken Etaken].
  pose proof (data_fill_stop total 2 b0 q) as Hstop.
  destruct (data_fill total 2 b0 q) as [[i b'] q'] eqn:Efill.
  cbn [fst snd] in *.
  destruct (i =? total) eqn:Ei.
  - apply Z.eqb_eq in Ei. rewrite data_while_done by reflexivity.
    cbn [queue buff givenChkSum].
    destruct (Z.le_gt_cases 2 total) as [H2 | H2].
    + destruct Hfill as (Ht & body & Eq & Hbody); try lia.
      split; [lia |]. split.
      * exists [], v, body. cbn [app]. rewrite <- Eq. repeat split; assumption.
      * assert (is_byte (at_ b' (total - 2))) as B2
            by (apply Hbytes; (assumption || lia)).
        assert (is_byte (at_ b' (total - 1))) as B1
            by (apply Hbytes; (assumption || lia)).
        unfold is_byte, to_word in *. rewrite shiftl_lor_bytes by lia.
        apply Z.mod_small. change (2 ^ 8) with 256 in *.
        change (2 ^ 16) with 65536. lia.
    + exfalso. specialize (Hstop ltac:(lia)). injection Hstop as Hi _ _. lia.
  - destruct (IH q' b' c Hdone) as (Ht & (sk & v' & body & Eq & H) & Hg).
    split; [assumption |]. split; [| exact Hg].
    exists (v :: 0xA5 :: taken ++ sk), v', body.
    split; [| exact H]. cbn [app]. rewrite <- app_assoc, <- Eq, <- Etaken.
    reflexivity.
Qed.

Lemma data_scan_found total pkt q :
  done (data_scan total pkt q) = true ->
  2 <= total <= 255
  /\ (exists skipped v body,
      q = skipped ++ v :: 0xA5 :: body ++ queue (data_scan total pkt q)
      /\ to_byte v = 0x5A /\ Z.of_nat (length body) = total - 2)
  /\ givenChkSum (data_scan total pkt q)
     = at_ (buff (data_scan total pkt q)) (total - 2)
       + 2 ^ 8 * at_ (buff (data_scan total pkt q)) (total - 1).
Proof. apply data_while_found. Qed.

(** ** C3 *)

(** C3, as the code has it.  Whatever the receive queue holds: when the scan
    of [recvResponsePkt] completes a packet whose recomputed checksum differs
    from the one in its last two bytes, the call sets the status to failure
    and the stored code to the communications error, leaves [mRespPkt] alone,
    and returns true (a whole packet was read); when the scan of
    [recvDataPkt] completes a packet whose recomputed checksum differs from
    the one in its last two bytes, the call returns false and leaves status
    and code as they were. *)
Theorem bad_checksum_rejected (s : Driver) (size : Z) :
  let l := response_scan (rx s) in
  let total := to_dword (size + 6) in
  let d := data_scan total (mDataPkt s) (rx s) in
  (done l = true ->
   computeCheckSum (buff l) 10 <> at_ (buff l) 10 + 2 ^ 8 * at_ (buff l) 11 ->
   recvResponsePkt s
   = (true, with_resp false NACK_COMM_ERR (with_rx (queue l) s)))
  /\ (done d = true ->
      computeCheckSum (buff d) (total - 2)
      <> at_ (buff d) (total - 2) + 2 ^ 8 * at_ (buff d) (total - 1) ->
      fst (recvDataPkt size s) = false
      /\ mRespStatus (snd (recvDataPkt size s)) = mRespStatus s
      /\ mRespParam (snd (recvDataPkt size s)) = mRespParam s
      /\ mRespPkt (snd (recvDataPkt size s)) = mRespPkt s).
Proof.
  cbv zeta. split.
  - intros Hdone Hsum.
    destruct (response_scan_found (rx s) Hdone)
      as (skipped & v & ten & Hq & Hv & Hten & Hbuff & Hgiven).
    unfold recvResponsePkt. rewrite Hdone, Hgiven. rewrite Hbuff in *.
    rewrite given_of_received by assumption.
    apply Z.eqb_neq in Hsum. rewrite Hsum. reflexivity.
  - intros Hdone Hsum.
    destruct (data_scan_found _ _ _ Hdone) as (_ & _ & Hgiven).
    unfold recvDataPkt. rewrite Hdone, Hgiven.
    apply Z.eqb_neq in Hsum. rewrite Hsum. cbn. repeat split; reflexivity.
Qed.

Lemma bad_checksum_rejected_witness :
  let s1 := with_rx ([0x0A] ++ corrupted (response_packet ACK 5) 4 6) power_on in
  let s2 := with_resp true 0
              (with_rx ([0x0A] ++ corrupted (data_packet (repeat 0x11 24)) 9 0x12)
                       power_on) in
  (mRespStatus (snd (recvResponsePkt s1)) = false
   /\ mRespParam (snd (recvResponsePkt s1)) = NACK_COMM_ERR)
  /\ fst (recvDataPkt 24 s2) = false.
Proof.
  cbv zeta. split.
  - pose proof (proj1 (bad_checksum_rejected
                  (with_rx ([0x0A] ++ corrupted (response_packet ACK 5) 4 6)
                           power_on) 0)) as H.
    cbv zeta in H. rewrite H.
    + split; reflexivity.
    + vm_compute. reflexivity.
    + vm_compute. discriminate.
  - apply (proj2 (bad_checksum_rejected
                    (with_resp true 0
                       (with_rx ([0x0A]
                                   ++ corrupted (data_packet (repeat 0x11 24)) 9 0x12)
                                power_on)) 24)).
    + vm_compute. reflexivity.
    + vm_compute. discriminate.
Defined.

(** C3 fails as stated: for a response packet with a wrong checksum
    [recvResponsePkt] returns true, not failure; for a data packet with a
    wrong checksum [recvDataPkt] records no communications error: status and
    code still show the success of the response before it. *)
Lemma bad_checksum_not_reported_as_claimed :
  let s1 := with_rx (corrupted (response_packet ACK 5) 4 6) power_on in
  let s2 := with_resp true 0
              (with_rx (corrupted (data_packet (repeat 0x11 24)) 9 0x12) power_on) in
  fst (recvResponsePkt s1) = true
  /\ fst (recvDataPkt 24 s2) = false
  /\ mRespStatus (snd (recvDataPkt 24 s2)) = true
  /\ mRespParam (snd (recvDataPkt 24 s2)) <> NACK_COMM_ERR.
Proof. vm_compute. repeat split; (reflexivity || discriminate). Qed.

(** * Properties of the command layer *)

Lemma frame_refl s : frame s s.
Proof. constructor; try reflexivity; try lia. exists []. now rewrite app_nil_r. Qed.

Lemma frame_trans s1 s2 s3 : frame s1 s2 -> frame s2 s3 -> frame s1 s3.
Proof.
  intros [A1 B1 C1 D1 [t1 E1]] [A2 B2 C2 D2 [t2 E2]].
  constructor; try congruence; try lia.
  exists (t1 ++ t2). now rewrite E2, E1, app_assoc.
Qed.

Section Frames.

Variable wire : nat -> list Z.

Lemma recvResponsePkt_frame s : frame s (snd (recvResponsePkt s)).
Proof.
  unfold recvResponsePkt. cbn [snd].
  destruct (negb (done (response_scan (rx s))));
    [| destruct (negb (computeCheckSum _ 10 =? _));
       [| destruct (at_ _ 8 =? 0x31)]];
    (constructor; cbn; try reflexivity; try lia;
     exists []; now rewrite app_nil_r).
Qed.

Lemma recvResponsePkt_not_received s :
  fst (recvResponsePkt s) = false ->
  mRespStatus (snd (recvResponsePkt s)) = false
  /\ mRespParam (snd (recvResponsePkt s)) = NACK_NOT_RECVD.
Proof.
  unfold recvResponsePkt. cbn [fst snd]. intros ->. cbn. split; reflexivity.
Qed.

Lemma recvResponsePkt_slept s : slept (snd (recvResponsePkt s)) = slept s.
Proof.
  unfold recvResponsePkt. cbn [snd].
  destruct (negb (done (response_scan (rx s))));
    [| destruct (negb (computeCheckSum _ 10 =? _));
       [| destruct (at_ _ 8 =? 0x31)]]; reflexivity.
Qed.

Lemma recvResponsePkt_tx s : tx (snd (recvResponsePkt s)) = tx s.
Proof.
  unfold recvResponsePkt. cbn [snd].
  destruct (negb (done (response_scan (rx s))));
    [| destruct (negb (computeCheckSum _ 10 =? _));
       [| destruct (at_ _ 8 =? 0x31)]]; reflexivity.
Qed.

Lemma recvDataPkt_frame size s : frame s (snd (recvDataPkt size s)).
Proof.
  unfold recvDataPkt. cbn [snd].
  constructor; cbn; try reflexivity; try lia. exists []. now rewrite app_nil_r.
Qed.

Lemma delay_frame ms s : 0 <= ms -> frame s (snd (delay wire ms s)).
Proof.
  intros H. constructor; cbn; try reflexivity; try lia.
  exists []. now rewrite app_nil_r.
Qed.

Lemma send_frame cmd param flag s : frame s (snd (send wire cmd param flag s)).
Proof.
  constructor; cbn; try reflexivity; try lia.
  now exists [command_packet cmd param flag].
Qed.

(** Waiting for the response: at most [tries] delays, no write. *)
Lemma await_frame tries :
  forall s, frame s (snd (await wire tries s)).
Proof.
  induction tries as [| tries IH]; intros s; [apply frame_refl |].
  cbn [await]. unfold bind.
  pose proof (recvResponsePkt_frame s) as F1.
  destruct (recvResponsePkt s) as [[|] s1]; cbn [snd] in *; [exact F1 |].
  pose proof (delay_frame WAITTIME s1 ltac:(unfold WAITTIME; lia)) as F2.
  destruct (delay wire WAITTIME s1) as [[] s2]. cbn [snd] in *.
  eapply frame_trans; [exact F1 |]. eapply frame_trans; [exact F2 | apply IH].
Qed.

Lemma await_budget tries :
  forall s,
    let s' := snd (await wire tries s) in
    tx s' = tx s
    /\ slept s' <= slept s + Z.of_nat tries * WAITTIME
    /\ (clock s' <= clock s + tries)%nat.
Proof.
  induction tries as [| tries IH]; intros s; cbv zeta.
  - cbn. repeat split; lia.
  - cbn [await]. unfold bind.
    pose proof (recvResponsePkt_frame s) as F1.
    pose proof (recvResponsePkt_slept s) as S1.
    pose proof (recvResponsePkt_tx s) as T1.
    assert (clock (snd (recvResponsePkt s)) = clock s) as C1.
    { unfold recvResponsePkt. cbn [snd].
      destruct (negb (done (response_scan (rx s))));
        [| destruct (negb (computeCheckSum _ 10 =? _));
           [| destruct (at_ _ 8 =? 0x31)]]; reflexivity. }
    destruct (recvResponsePkt s) as [[|] s1]; cbn [snd] in *.
    + unfold ret, WAITTIME. cbn [snd]. repeat split; (assumption || lia).
    + specialize (IH (snd (delay wire WAITTIME s1))). cbv zeta in IH.
      destruct (delay wire WAITTIME s1) as [[] s2] eqn:E.
      assert (tx s2 = tx s1 /\ slept s2 = slept s1 + WAITTIME
              /\ clock s2 = S (clock s1)) as (T2 & S2 & C2).
      { unfold delay in E. injection E as <-. cbn. repeat split. }
      cbn [snd] in *. destruct IH as (T3 & S3 & C3).
      repeat split; try congruence; lia.
Qed.

(** All tries used up means that nothing was received. *)
Lemma await_exhausted tries :
  forall s,
    let s' := snd (await wire tries s) in
    (tries = 0%nat ->
     mRespStatus s = false /\ mRespParam s = NACK_NOT_RECVD) ->
    slept s' = slept s + Z.of_nat tries * WAITTIME ->
    mRespStatus s' = false /\ mRespParam s' = NACK_NOT_RECVD.
Proof.
  induction tries as [| tries IH]; intros s; cbv zeta; intros H0 Hslept.
  - cbn. now apply H0.
  - cbn [await] in *. unfold bind in *.
    pose proof (recvResponsePkt_slept s) as S1.
    pose proof (recvResponsePkt_not_received s) as N1.
    destruct (recvResponsePkt s) as [[|] s1]; unfold ret in *; cbn [fst snd] in *.
    + unfold WAITTIME in *. lia.
    + specialize (N1 eq_refl). specialize (IH (snd (delay wire WAITTIME s1))).
      cbv zeta in IH.
      destruct (delay wire WAITTIME s1) as [[] s2] eqn:E.
      assert (mRespStatus s2 = mRespStatus s1 /\ mRespParam s2 = mRespParam s1
              /\ slept s2 = slept s1 + WAITTIME) as (A & B & C).
      { unfold delay in E. injection E as <-. cbn. repeat split. }
      cbn [snd] in *. apply IH.
      * intros _. rewrite A, B. exact N1.
      * lia.
Qed.

End Frames.

(** ** One exchange: a packet written, then the wait for the response *)

Lemma send_sent wire cmd param flag s : sent s (snd (send wire cmd param flag s)).
Proof.
  constructor; cbn; try reflexivity. now exists (command_packet cmd param flag).
Qed.

Lemma sent_with_rx q s s1 : sent s s1 -> sent s (with_rx q s1).
Proof. intros [A B C D E]. constructor; assumption. Qed.

Lemma awaitResponse_exchanged wire s s1 :
  sent s s1 -> exchanged s (snd (awaitResponse wire s1)).
Proof.
  intros [A B C D [pkt E]]. unfold awaitResponse.
  change (Z.to_nat TIMEOUT) with 11%nat.
  destruct (await_frame wire 11 s1) as [A' B' C' D' _].
  destruct (await_budget wire 11 s1) as (T & S' & K).
  pose proof (await_exhausted wire 11 s1) as X. cbv zeta in X.
  change (Z.of_nat 11) with 11 in *.
  set (s2 := snd (await wire 11 s1)) in *.
  constructor; unfold TIMEOUT, WAITTIME in *; try congruence; try lia.
  - exists pkt. congruence.
  - intros H. apply X; [discriminate | lia].
Qed.

Lemma exchanged_budget s s2 :
  exchanged s s2 -> budget s s2 (mRespStatus s2).
Proof.
  intros [A B C D [pkt E] X]. constructor; try assumption.
  - exists [pkt]. split; [assumption | cbn; lia].
  - intros H. destruct (X H) as [-> ->]. repeat split.
Qed.

Lemma exchange_exchanged wire cmd param s :
  exchanged s (snd (exchange wire cmd param s))
  /\ fst (exchange wire cmd param s) = mRespStatus (snd (exchange wire cmd param s)).
Proof.
  unfold exchange, bind, get.
  pose proof (send_sent wire cmd param true s) as H.
  destruct (send wire cmd param true s) as [b s1]. cbn [snd] in H.
  apply (awaitResponse_exchanged wire) in H.
  destruct (awaitResponse wire s1) as [[] s2]. cbn [fst snd] in *. now split.
Qed.

Lemma exchange_budget wire cmd param s :
  budget s (snd (exchange wire cmd param s)) (fst (exchange wire cmd param s)).
Proof.
  destruct (exchange_exchanged wire cmd param s) as [H ->].
  now apply exchanged_budget.
Qed.

Lemma exchange_stage wire cmd param s :
  mEnrollmentStage (snd (exchange wire cmd param s)) = mEnrollmentStage s.
Proof. apply (exchange_exchanged wire cmd param s). Qed.

Lemma shaken_exchanged wire cmd param s : exchanged s (shaken wire cmd param s).
Proof. apply awaitResponse_exchanged, send_sent. Qed.

Lemma open_shaken wire errChk s :
  open wire errChk s
  = let s2 := shaken wire CMD_OPEN (Z.b2z errChk) s in
    if errChk && mRespStatus s2 then
      let '(success, s3) := recvDataPkt 24 s2 in
      if success
      then (success && negb (serial_zero 16 8 (mDataPkt s3) =? 24), s3)
      else (success, s3)
    else (mRespStatus s2, s2).
Proof.
  unfold open, shaken, bind, get, ret.
  destruct (send wire CMD_OPEN (Z.b2z errChk) true s) as [b s1]. cbn [snd].
  destruct (awaitResponse wire s1) as [[] s2]. cbn [snd].
  destruct (errChk && mRespStatus s2); [| reflexivity].
  destruct (recvDataPkt 24 s2) as [[|] s3]; reflexivity.
Qed.

Lemma startEnrollment_shaken wire id s :
  startEnrollment wire id s
  = let s2 := shaken wire CMD_ENROLL_START id s in
    if mRespStatus s2 then (true, with_stage 0 s2) else (false, s2).
Proof.
  unfold startEnrollment, shaken, bind, get, modify, ret.
  destruct (send wire CMD_ENROLL_START id true s) as [b s1]. cbn [snd].
  destruct (awaitResponse wire s1) as [[] s2]. cbn [snd].
  destruct (mRespStatus s2) eqn:E; cbn; now rewrite E.
Qed.

Lemma createEnrollmentTemplate_shaken wire s :
  createEnrollmentTemplate wire s
  = let stage := mEnrollmentStage s in
    let continue cmd :=
      let s2 := shaken wire cmd 0 s in
      if mRespStatus s2
      then (true, with_stage (to_byte (mEnrollmentStage s2 + 1)) s2)
      else (false, s2) in
    if stage =? 0 then continue CMD_ENROLL1
    else if stage =? 1 then continue CMD_ENROLL2
    else if stage =? 2 then continue CMD_ENROLL3
    else (false, s).
Proof.
  unfold createEnrollmentTemplate, shaken, bind, get, modify, ret. cbv zeta.
  destruct (mEnrollmentStage s =? 0);
    [| destruct (mEnrollmentStage s =? 1);
       [| destruct (mEnrollmentStage s =? 2); [| reflexivity]]];
    match goal with
    | |- context [send wire ?c 0 true s] =>
        destruct (send wire c 0 true s) as [b s1]
    end; cbn [snd];
    destruct (awaitResponse wire s1) as [[] s2]; cbn [snd];
    destruct (mRespStatus s2) eqn:E; cbn; now rewrite E.
Qed.

Lemma isFingerPressed_shaken wire s :
  isFingerPressed wire s
  = let s2 := shaken wire CMD_IS_PRESS_FINGER 0 s in
    if mRespStatus s2 && negb (mRespParam s2 =? 0)
    then (false, with_resp false NACK_FINGER_IS_NOT_PRESSED s2)
    else (mRespStatus s2, s2).
Proof.
  unfold isFingerPressed, shaken, bind, get, modify, ret.
  destruct (send wire CMD_IS_PRESS_FINGER 0 true s) as [b s1]. cbn [snd].
  destruct (awaitResponse wire s1) as [[] s2]. cbn [snd].
  destruct (mRespStatus s2 && negb (mRespParam s2 =? 0)); reflexivity.
Qed.

Lemma changeBaudrate_exchanged wire baud s :
  exchanged s (snd (changeBaudrate wire baud s))
  /\ fst (changeBaudrate wire baud s)
     = mRespStatus (snd (changeBaudrate wire baud s)).
Proof.
  unfold changeBaudrate, bind, get, COMMS_reopen, modify.
  pose proof (send_sent wire CMD_CHANGE_BAUDRATE baud true s) as H.
  destruct (send wire CMD_CHANGE_BAUDRATE baud true s) as [b s1]. cbn [snd] in H.
  apply (sent_with_rx []), (awaitResponse_exchanged wire) in H.
  destruct (awaitResponse wire (with_rx [] s1)) as [[] s2]. cbn [fst snd] in *.
  now split.
Qed.

Lemma recvDataPkt_fields size s :
  let s' := snd (recvDataPkt size s) in
  shown s' = shown s /\ slept s' = slept s /\ clock s' = clock s
  /\ tx s' = tx s /\ mRespStatus s' = mRespStatus s
  /\ mRespParam s' = mRespParam s /\ mEnrollmentStage s' = mEnrollmentStage s.
Proof. unfold recvDataPkt. cbn [snd]. repeat split. Qed.

Lemma budget_after s s2 s' r :
  exchanged s s2 ->
  shown s' = shown s2 -> slept s' = slept s2 -> clock s' = clock s2 ->
  tx s' = tx s2 ->
  (mRespStatus s2 = false ->
   r = false /\ mRespStatus s' = false /\ mRespParam s' = mRespParam s2) ->
  budget s s' r.
Proof.
  intros [A B C D [pkt E] X] Hshown Hslept Hclock Htx Hfail.
  constructor; try congruence; try lia.
  - exists [pkt]. split; [congruence | cbn; lia].
  - intros H. rewrite Hslept in H. destruct (X H) as [Hs Hp].
    destruct (Hfail Hs) as (-> & -> & ->). now rewrite Hp.
Qed.

Lemma budget_idle s : budget s s false.
Proof.
  constructor; try reflexivity; unfold TIMEOUT, WAITTIME; try lia.
  exists []. split; [now rewrite app_nil_r | cbn; lia].
Qed.

(** Every operation keeps to the budget. *)
Lemma perform_budget wire op s :
  budget s (snd (perform wire op s)) (fst (perform wire op s)).
Proof.
  destruct op; cbn [perform];
    [ | exact (exchange_budget wire CMD_CLOSE 0 s)
      | exact (exchange_budget wire CMD_CMOS_LED (Z.b2z on) s)
      |
      | exact (exchange_budget wire CMD_GET_ENROLL_COUNT 0 s)
      | exact (exchange_budget wire CMD_CHECK_ENROLLED id s)
      | | |
      | exact (exchange_budget wire CMD_CAPTURE_FINGER (Z.b2z highQual) s)
      | exact (exchange_budget wire CMD_DELETE_ID id s)
      | exact (exchange_budget wire CMD_DELETE_ALL 0 s)
      | exact (exchange_budget wire CMD_VERIFY id s)
      | exact (exchange_budget wire CMD_IDENTIFY 0 s) ].
  - (* open *)
    rewrite open_shaken. cbv zeta.
    pose proof (shaken_exchanged wire CMD_OPEN (Z.b2z errChk) s) as H.
    set (s2 := shaken wire CMD_OPEN (Z.b2z errChk) s) in *.
    destruct (errChk && mRespStatus s2) eqn:E.
    + apply andb_true_iff in E as [_ E].
      destruct (recvDataPkt 24 s2) as [success s3] eqn:R.
      assert (s3 = snd (recvDataPkt 24 s2)) as -> by now rewrite R.
      destruct (recvDataPkt_fields 24 s2) as (F1 & F2 & F3 & F4 & F5 & F6 & F7).
      destruct success; cbn [fst snd];
        (eapply budget_after;
         [exact H | assumption | assumption | assumption | assumption
         | congruence]).
    + cbn [fst snd]. now apply exchanged_budget.
  - (* changeBaudrate *)
    destruct (changeBaudrate_exchanged wire baud s) as [H ->].
    now apply exchanged_budget.
  - (* startEnrollment *)
    rewrite startEnrollment_shaken. cbv zeta.
    pose proof (shaken_exchanged wire CMD_ENROLL_START id s) as H.
    set (s2 := shaken wire CMD_ENROLL_START id s) in *.
    destruct (mRespStatus s2) eqn:E; cbn [fst snd].
    + eapply budget_after; [exact H | reflexivity .. | congruence].
    + eapply budget_after; [exact H | reflexivity .. |]. now split.
  - (* createEnrollmentTemplate *)
    rewrite createEnrollmentTemplate_shaken. cbv zeta.
    destruct (mEnrollmentStage s =? 0);
      [| destruct (mEnrollmentStage s =? 1);
         [| destruct (mEnrollmentStage s =? 2); [| apply budget_idle]]];
      match goal with
      | |- context [shaken wire ?c 0 s] =>
          pose proof (shaken_exchanged wire c 0 s) as H;
          set (s2 := shaken wire c 0 s) in *
      end;
      (destruct (mRespStatus s2) eqn:E; cbn [fst snd];
       [ eapply budget_after; [exact H | reflexivity .. | congruence]
       | eapply budget_after; [exact H | reflexivity .. |]; now split ]).
  - (* isFingerPressed *)
    rewrite isFingerPressed_shaken. cbv zeta.
    pose proof (shaken_exchanged wire CMD_IS_PRESS_FINGER 0 s) as H.
    set (s2 := shaken wire CMD_IS_PRESS_FINGER 0 s) in *.
    destruct (mRespStatus s2 && negb (mRespParam s2 =? 0)) eqn:E; cbn [fst snd].
    + apply andb_true_iff in E as [E _].
      eapply budget_after; [exact H | reflexivity .. | congruence].
    + now apply exchanged_budget.
Qed.

Lemma perform_stage wire op s :
  stage_rule op s (snd (perform wire op s)) (fst (perform wire op s)).
Proof.
  destruct op; cbn [perform stage_rule];
    [ | exact (exchange_stage wire CMD_CLOSE 0 s)
      | exact (exchange_stage wire CMD_CMOS_LED (Z.b2z on) s)
      |
      | exact (exchange_stage wire CMD_GET_ENROLL_COUNT 0 s)
      | exact (exchange_stage wire CMD_CHECK_ENROLLED id s)
      | | |
      | exact (exchange_stage wire CMD_CAPTURE_FINGER (Z.b2z highQual) s)
      | exact (exchange_stage wire CMD_DELETE_ID id s)
      | exact (exchange_stage wire CMD_DELETE_ALL 0 s)
      | exact (exchange_stage wire CMD_VERIFY id s)
      | exact (exchange_stage wire CMD_IDENTIFY 0 s) ].
  - (* open *)
    rewrite open_shaken. cbv zeta.
    pose proof (ex_stage _ _ (shaken_exchanged wire CMD_OPEN (Z.b2z errChk) s)) as H.
    set (s2 := shaken wire CMD_OPEN (Z.b2z errChk) s) in *.
    destruct (errChk && mRespStatus s2); [| exact H].
    destruct (recvDataPkt 24 s2) as [success s3] eqn:R.
    assert (s3 = snd (recvDataPkt 24 s2)) as -> by now rewrite R.
    destruct (recvDataPkt_fields 24 s2) as (_ & _ & _ & _ & _ & _ & F7).
    destruct success; cbn [fst snd]; congruence.
  - (* changeBaudrate *)
    apply (changeBaudrate_exchanged wire baud s).
  - (* startEnrollment *)
    rewrite startEnrollment_shaken. cbv zeta.
    pose proof (ex_stage _ _ (shaken_exchanged wire CMD_ENROLL_START id s)) as H.
    set (s2 := shaken wire CMD_ENROLL_START id s) in *.
    destruct (mRespStatus s2) eqn:E; cbn [fst snd]; split;
      (assumption || reflexivity || (cbn; congruence)).
  - (* createEnrollmentTemplate *)
    rewrite createEnrollmentTemplate_shaken. cbv zeta.
    destruct (mEnrollmentStage s =? 0) eqn:E0;
      [| destruct (mEnrollmentStage s =? 1) eqn:E1;
         [| destruct (mEnrollmentStage s =? 2) eqn:E2; [| reflexivity]]];
      match goal with
      | |- context [shaken wire ?c 0 s] =>
          pose proof (ex_stage _ _ (shaken_exchanged wire c 0 s)) as H;
          set (s2 := shaken wire c 0 s) in *
      end;
      (destruct (mRespStatus s2); cbn [fst snd]; [| exact H]);
      cbn [mEnrollmentStage with_stage]; rewrite H;
      match goal with
      | E : (mEnrollmentStage s =? _) = true |- _ =>
          apply Z.eqb_eq in E; rewrite E
      end; (split; [lia | reflexivity]).
  - (* isFingerPressed *)
    rewrite isFingerPressed_shaken. cbv zeta.
    pose proof (ex_stage _ _ (shaken_exchanged wire CMD_IS_PRESS_FINGER 0 s)) as H.
    set (s2 := shaken wire CMD_IS_PRESS_FINGER 0 s) in *.
    destruct (mRespStatus s2 && negb (mRespParam s2 =? 0)); exact H.
Qed.

(** ** C10 *)

(** C10. Let [s2] be the driver after the finger-press check was written and
    its response awaited.  If the response was an acknowledgement with a
    nonzero parameter, [isFingerPressed] overwrites the status with failure
    and the code with NACK_FINGER_IS_NOT_PRESSED and returns false; it
    returns true exactly when the response was an acknowledgement with
    parameter 0; so it never leaves a successful status together with a
    nonzero parameter. *)
Theorem isFingerPressed_nonzero_is_failure (wire : nat -> list Z) (s : Driver) :
  let s2 := shaken wire CMD_IS_PRESS_FINGER 0 s in
  let r := fst (isFingerPressed wire s) in
  let s' := snd (isFingerPressed wire s) in
  (mRespStatus s2 = true -> mRespParam s2 <> 0 ->
   r = false /\ mRespStatus s' = false
   /\ mRespParam s' = NACK_FINGER_IS_NOT_PRESSED)
  /\ (r = true <-> mRespStatus s2 = true /\ mRespParam s2 = 0)
  /\ r = mRespStatus s'
  /\ (mRespStatus s' = true -> mRespParam s' = 0).
Proof.
  cbv zeta. rewrite isFingerPressed_shaken. cbv zeta.
  set (s2 := shaken wire CMD_IS_PRESS_FINGER 0 s).
  destruct (mRespStatus s2) eqn:Es; destruct (mRespParam s2 =? 0) eqn:Ep;
    cbn [andb negb fst snd mRespStatus mRespParam with_resp]; rewrite ?Es.
  - apply Z.eqb_eq in Ep. repeat split; intros; congruence.
  - apply Z.eqb_neq in Ep. repeat split; intros; try congruence.
    destruct H; congruence.
  - repeat split; intros; try congruence. destruct H; congruence.
  - repeat split; intros; try congruence. destruct H; congruence.
Qed.

Lemma isFingerPressed_nonzero_is_failure_witness :
  let wire := script [response_packet ACK 1] in
  fst (isFingerPressed wire power_on) = false
  /\ mRespStatus (snd (isFingerPressed wire power_on)) = false
  /\ mRespParam (snd (isFingerPressed wire power_on)) = NACK_FINGER_IS_NOT_PRESSED.
Proof.
  cbv zeta.
  apply (proj1 (isFingerPressed_nonzero_is_failure
                  (script [response_packet ACK 1]) power_on)).
  - vm_compute. reflexivity.
  - vm_compute. discriminate.
Defined.

(** ** C5 *)

Lemma perform_all_stage wire ops :
  forall s,
    forallb (fun op => negb (is_start op)) ops = true ->
    0 <= mEnrollmentStage s <= 3 ->
    mEnrollmentStage s <= mEnrollmentStage (perform_all wire ops s) <= 3.
Proof.
  induction ops as [| op ops IH]; intros s Hops Hs; cbn [perform_all]; [lia |].
  cbn [forallb] in Hops. apply andb_true_iff in Hops as [Hop Hops].
  pose proof (perform_stage wire op s) as R.
  destruct (perform wire op s) as [r s1]. cbn [fst snd] in *.
  assert (mEnrollmentStage s <= mEnrollmentStage s1 <= 3) as H1.
  { destruct op; cbn [stage_rule is_start negb] in *; try discriminate; try lia.
    destruct r; lia. }
  specialize (IH s1 Hops ltac:(lia)). lia.
Qed.

Lemma out_stage us str s :
  mEnrollmentStage (snd (out us str s)) = mEnrollmentStage s.
Proof. unfold out. destruct us; reflexivity. Qed.

Lemma finger_gone_stage wire tries :
  forall i s,
    mEnrollmentStage (snd (finger_gone wire tries i s)) = mEnrollmentStage s.
Proof.
  induction tries as [| tries IH]; intros i s; [reflexivity |].
  cbn [finger_gone]. unfold bind.
  pose proof (perform_stage wire IsFingerPressed s) as R.
  cbn [perform stage_rule] in R.
  destruct (isFingerPressed wire s) as [[|] s1]; cbn [snd] in *;
    [exact R | now rewrite IH].
Qed.

Lemma enroll_round_stage wire id us e s :
  let s' := snd (enroll_round wire id us e s) in
  mEnrollmentStage s' = mEnrollmentStage s
  \/ (state e = START /\ mRespStatus s' = true /\ mEnrollmentStage s' = 0)
  \/ (state e = ENROLL /\ 0 <= mEnrollmentStage s <= 2
      /\ mEnrollmentStage s' = mEnrollmentStage s + 1).
Proof.
  cbv zeta. unfold enroll_round, bind, get, ret.
  destruct (state e) eqn:Est.
  - (* START *)
    pose proof (perform_stage wire (StartEnrollment id) s) as R.
    cbn [perform stage_rule] in R.
    destruct (startEnrollment wire id s) as [[|] s1]; cbn [fst snd] in *;
      destruct R as [R1 R2]; [right; left; now repeat split | now left].
  - (* CAPTURE *)
    pose proof (out_stage us "Place finger" s) as O.
    destruct (out us "Place finger" s) as [[] s0]. cbn [snd] in O.
    pose proof (perform_stage wire (PowerCMOS true) s0) as R1.
    cbn [perform stage_rule] in R1.
    destruct (powerCMOS wire true s0) as [lit s1]. cbn [fst snd] in R1.
    pose proof (perform_stage wire (CaptureFingerprint true) s1) as R2.
    cbn [perform stage_rule] in R2.
    destruct (captureFingerprint wire true s1) as [ok s2]. cbn [fst snd] in R2.
    left. destruct ok; [| destruct (mRespParam s2 =? NACK_COMM_ERR)];
      cbn [snd]; congruence.
  - (* ENROLL *)
    pose proof (perform_stage wire (PowerCMOS false) s) as R1.
    cbn [perform stage_rule] in R1.
    destruct (powerCMOS wire false s) as [dark s1]. cbn [fst snd] in R1.
    pose proof (perform_stage wire CreateEnrollmentTemplate s1) as R2.
    cbn [perform stage_rule] in R2.
    destruct (createEnrollmentTemplate wire s1) as [ok s2]. cbn [fst snd] in R2.
    destruct ok.
    + right; right. destruct (mEnrollmentStage s2 =? 3); cbn [snd];
        (split; [reflexivity | split; [lia | lia]]).
    + left. destruct ((mRespParam s2 =? NACK_ENROLL_FAILED)
                      || (mRespParam s2 =? NACK_BAD_FINGER));
        cbn [snd]; congruence.
  - (* COMPLETE *) now left.
  - (* REMOVE_FINGER *)
    pose proof (out_stage us "Remove finger" s) as O.
    destruct (out us "Remove finger" s) as [[] s0]. cbn [snd] in O.
    pose proof (finger_gone_stage wire 5 0 s0) as F.
    destruct (finger_gone wire 5 0 s0) as [i s1]. cbn [snd] in F.
    left. destruct (i =? 5);
      [destruct (mRespParam s1 =? NACK_FINGER_IS_NOT_PRESSED) |];
      cbn [snd]; congruence.
Qed.

(** C5. The enrollment stage is set back to 0 only by a [startEnrollment]
    whose response is a success; it goes up, by exactly one and from a value
    in 0..2, only through a [createEnrollmentTemplate] that returns true; a
    [createEnrollmentTemplate] that returns false and every other operation
    leave it as it is.  Hence over any run of operations without a
    [startEnrollment] that starts with the stage in 0..3 the stage never
    goes down and never leaves 0..3, and a round of [enrollSequence] changes
    it in these two ways only. *)
Theorem enrollment_stage_monotonic (wire : nat -> list Z) :
  (forall op s,
      let r := fst (perform wire op s) in
      let s' := snd (perform wire op s) in
      match op with
      | StartEnrollment _ =>
          r = mRespStatus s'
          /\ mEnrollmentStage s' = (if r then 0 else mEnrollmentStage s)
      | CreateEnrollmentTemplate =>
          if r
          then 0 <= mEnrollmentStage s <= 2
               /\ mEnrollmentStage s' = mEnrollmentStage s + 1
          else mEnrollmentStage s' = mEnrollmentStage s
      | _ => mEnrollmentStage s' = mEnrollmentStage s
      end)
  /\ (forall ops s,
         forallb (fun op => negb (is_start op)) ops = true ->
         0 <= mEnrollmentStage s <= 3 ->
         mEnrollmentStage s <= mEnrollmentStage (perform_all wire ops s) <= 3)
  /\ (forall id usingStream e s,
         let s' := snd (enroll_round wire id usingStream e s) in
         mEnrollmentStage s' = mEnrollmentStage s
         \/ (state e = START /\ mRespStatus s' = true /\ mEnrollmentStage s' = 0)
         \/ (state e = ENROLL /\ 0 <= mEnrollmentStage s <= 2
             /\ mEnrollmentStage s' = mEnrollmentStage s + 1)).
Proof.
  split; [| split].
  - intros op s. exact (perform_stage wire op s).
  - intros ops s. apply perform_all_stage.
  - intros id us e s. apply enroll_round_stage.
Qed.

Lemma enrollment_stage_monotonic_witness :
  let wire := script [response_packet ACK 0; response_packet NACK NACK_ENROLL_FAILED;
                      response_packet ACK 0; response_packet ACK 0] in
  let ops := [CreateEnrollmentTemplate; CreateEnrollmentTemplate;
              IsFingerPressed; CreateEnrollmentTemplate] in
  mEnrollmentStage power_on <= mEnrollmentStage (perform_all wire ops power_on) <= 3
  /\ mEnrollmentStage (perform_all wire ops power_on) = 2.
Proof.
  cbv zeta. split.
  - apply (proj1 (proj2 (enrollment_stage_monotonic _))).
    + reflexivity.
    + vm_compute. split; discriminate.
  - vm_compute. reflexivity.
Defined.

(** ** C4 *)

Lemma spent_refl s : spent 0 s s.
Proof.
  split; [lia |]. exists []. split; [now rewrite app_nil_r | cbn; lia].
Qed.

Lemma spent_budget s s' r : budget s s' r -> spent 1 s s'.
Proof.
  intros [_ B _ T _]. split; [lia | exact T].
Qed.

Lemma spent_trans n m s1 s2 s3 :
  spent n s1 s2 -> spent m s2 s3 -> spent (n + m) s1 s3.
Proof.
  intros [A1 (p1 & E1 & L1)] [A2 (p2 & E2 & L2)]. split.
  - rewrite Nat2Z.inj_add. lia.
  - exists (p1 ++ p2). split.
    + now rewrite E2, E1, app_assoc.
    + rewrite length_app. lia.
Qed.

Lemma spent_more n m s s' : (n <= m)%nat -> spent n s s' -> spent m s s'.
Proof.
  intros Hnm [A (p & E & L)]. split.
  - unfold TIMEOUT, WAITTIME in *. nia.
  - exists p. split; [assumption | lia].
Qed.

Lemma out_spent us str s : spent 0 s (snd (out us str s)).
Proof.
  unfold out. cbn [snd]. destruct us; [| apply spent_refl].
  split; cbn; [lia |]. exists []. split; [now rewrite app_nil_r | cbn; lia].
Qed.

Lemma finger_gone_spent wire tries :
  forall i s, spent tries s (snd (finger_gone wire tries i s)).
Proof.
  induction tries as [| tries IH]; intros i s; [apply spent_refl |].
  cbn [finger_gone]. unfold bind.
  pose proof (spent_budget _ _ _ (perform_budget wire IsFingerPressed s)) as B.
  cbn [perform] in B.
  destruct (isFingerPressed wire s) as [[|] s1]; cbn [snd] in *.
  - apply (spent_more 1); [lia | exact B].
  - change (S tries) with (1 + tries)%nat.
    eapply spent_trans; [exact B | apply IH].
Qed.

Lemma enroll_round_spent wire id us e s :
  spent 5 s (snd (enroll_round wire id us e s)).
Proof.
  unfold enroll_round, bind, get, ret.
  destruct (state e).
  - (* START *)
    pose proof (spent_budget _ _ _ (perform_budget wire (StartEnrollment id) s)) as B.
    cbn [perform] in B.
    destruct (startEnrollment wire id s) as [[|] s1]; cbn [snd] in *;
      (apply (spent_more 1); [lia | exact B]).
  - (* CAPTURE *)
    pose proof (out_spent us "Place finger" s) as O.
    destruct (out us "Place finger" s) as [[] s0]. cbn [snd] in O.
    pose proof (spent_budget _ _ _ (perform_budget wire (PowerCMOS true) s0)) as B1.
    cbn [perform] in B1.
    destruct (powerCMOS wire true s0) as [lit s1]. cbn [snd] in B1.
    pose proof (spent_budget _ _ _
                  (perform_budget wire (CaptureFingerprint true) s1)) as B2.
    cbn [perform] in B2.
    destruct (captureFingerprint wire true s1) as [ok s2]. cbn [snd] in B2.
    assert (spent 5 s s2) as H.
    { apply (spent_more (0 + (1 + 1))); [lia |].
      eapply spent_trans; [exact O |]. eapply spent_trans; eassumption. }
    destruct ok; [| destruct (mRespParam s2 =? NACK_COMM_ERR)]; exact H.
  - (* ENROLL *)
    pose proof (spent_budget _ _ _ (perform_budget wire (PowerCMOS false) s)) as B1.
    cbn [perform] in B1.
    destruct (powerCMOS wire false s) as [dark s1]. cbn [snd] in B1.
    pose proof (spent_budget _ _ _
                  (perform_budget wire CreateEnrollmentTemplate s1)) as B2.
    cbn [perform] in B2.
    destruct (createEnrollmentTemplate wire s1) as [ok s2]. cbn [snd] in B2.
    assert (spent 5 s s2) as H.
    { apply (spent_more (1 + 1)); [lia |]. eapply spent_trans; eassumption. }
    destruct ok;
      [ destruct (mEnrollmentStage s2 =? 3)
      | destruct ((mRespParam s2 =? NACK_ENROLL_FAILED)
                  || (mRespParam s2 =? NACK_BAD_FINGER)) ]; exact H.
  - (* COMPLETE *)
    apply (spent_more 0); [lia | apply spent_refl].
  - (* REMOVE_FINGER *)
    pose proof (out_spent us "Remove finger" s) as O.
    destruct (out us "Remove finger" s) as [[] s0]. cbn [snd] in O.
    pose proof (finger_gone_spent wire 5 0 s0) as F.
    destruct (finger_gone wire 5 0 s0) as [i s1]. cbn [snd] in F.
    assert (spent 5 s s1) as H
        by (apply (spent_more (0 + 5)); [lia |]; eapply spent_trans; eassumption).
    destruct (i =? 5);
      [destruct (mRespParam s1 =? NACK_FINGER_IS_NOT_PRESSED) |]; exact H.
Qed.

(** C4, as the code has it.  Every operation that exchanges one packet with
    the device returns (it is a total function of the driver and of what
    the device sends) after writing at most one packet and sleeping at most
    [TIMEOUT] times [WAITTIME]; when that whole wait was spent it returns
    false with the status set to failure and the not-received code.  One
    round of the loop of [enrollSequence] is at most five such operations.
    Nothing bounds the number of rounds. *)
Theorem operations_within_budget (wire : nat -> list Z) :
  (forall op s,
      let r := fst (perform wire op s) in
      let s' := snd (perform wire op s) in
      slept s <= slept s' <= slept s + TIMEOUT * WAITTIME
      /\ (exists packets, tx s' = tx s ++ packets /\ (length packets <= 1)%nat)
      /\ (slept s' = slept s + TIMEOUT * WAITTIME ->
          r = false /\ mRespStatus s' = false /\ mRespParam s' = NACK_NOT_RECVD))
  /\ (forall id usingStream e s,
         let s' := snd (enroll_round wire id usingStream e s) in
         slept s <= slept s' <= slept s + 5 * (TIMEOUT * WAITTIME)
         /\ exists packets, tx s' = tx s ++ packets /\ (length packets <= 5)%nat).
Proof.
  split.
  - intros op s. cbv zeta.
    destruct (perform_budget wire op s) as [_ B _ T X].
    split; [exact B |]. split; [exact T | exact X].
  - intros id us e s. exact (enroll_round_spent wire id us e s).
Qed.

Lemma operations_within_budget_witness :
  slept (snd (perform silent Close power_on)) = TIMEOUT * WAITTIME
  /\ fst (perform silent Close power_on) = false
  /\ mRespStatus (snd (perform silent Close power_on)) = false
  /\ mRespParam (snd (perform silent Close power_on)) = NACK_NOT_RECVD.
Proof.
  split; [vm_compute; reflexivity |].
  apply (proj1 (operations_within_budget silent) Close power_on).
  vm_compute. reflexivity.
Defined.

Lemma finger_stays_round id us mRespPkt0 mDataPkt0 status param stage tx0 clock0
      slept0 shown0 :
  exists s',
    enroll_round finger_stays id us (mkEnroll REMOVE_FINGER true false)
      (mkDriver mRespPkt0 mDataPkt0 status param stage [] tx0 clock0 slept0 shown0)
    = (mkEnroll REMOVE_FINGER true false, s')
    /\ rx s' = [].
Proof.
  destruct us; eexists; (split; [vm_compute; reflexivity | reflexivity]).
Qed.

Lemma finger_stays_start us mRespPkt0 mDataPkt0 status param stage tx0 clock0
      slept0 shown0 :
  exists s',
    enroll_round finger_stays 0 us (mkEnroll START true false)
      (mkDriver mRespPkt0 mDataPkt0 status param stage [] tx0 clock0 slept0 shown0)
    = (mkEnroll REMOVE_FINGER true false, s')
    /\ rx s' = [].
Proof.
  destruct us; eexists; (split; [vm_compute; reflexivity | reflexivity]).
Qed.

Lemma finger_stays_forever fuel :
  forall id us s,
    rx s = [] ->
    enroll_while finger_stays fuel id us (mkEnroll REMOVE_FINGER true false) s
    = None.
Proof.
  induction fuel as [| fuel IH]; intros id us s Hrx; [reflexivity |].
  cbn [enroll_while finished].
  destruct s as [p d st pa sg q t c sl sh]. cbn [rx] in Hrx. subst q.
  destruct (finger_stays_round id us p d st pa sg t c sl sh) as (s' & -> & Hrx').
  now apply IH.
Qed.

(** C4 fails as stated: with a device that keeps reporting a finger on the
    sensor every single operation succeeds, and [enrollSequence] stays in
    its REMOVE_FINGER state: whatever the number of rounds allowed, it has
    not returned. *)
Lemma enrollSequence_may_not_return :
  fst (isFingerPressed finger_stays power_on) = true
  /\ forall fuel, enrollSequence finger_stays fuel 0 false power_on = None.
Proof.
  split; [vm_compute; reflexivity |].
  intros [| fuel]; [reflexivity |].
  unfold enrollSequence. cbn [out]. cbn [enroll_while finished].
  unfold power_on.
  destruct (finger_stays_start false (repeat 0 12)
              (repeat 0 (Z.to_nat DATA_PKT_MAX_SIZE)) false 0 0 [] 0%nat 0 [])
    as (s & -> & Hrx).
  now rewrite finger_stays_forever.
Qed.

(** ** C6 *)

(** C6 does not hold of the code.  With the device [light_fails] the
    workflow reaches CAPTURE, [powerCMOS(true)] fails with the device error,
    and the workflow, instead of stopping there, still writes the capture
    command; it returns false, but the status and the code it leaves are the
    success and the parameter of the capture, not the device error. *)
Theorem enrollSequence_captures_without_light :
  let before_capture :=
    perform_all light_fails
      [StartEnrollment 3; IsFingerPressed; IsFingerPressed; IsFingerPressed;
       IsFingerPressed; IsFingerPressed] power_on in
  let run := enrollSequence light_fails 4 3 false power_on in
  (fst (powerCMOS light_fails true before_capture) = false
   /\ mRespParam (snd (powerCMOS light_fails true before_capture)) = NACK_DEV_ERR)
  /\ option_map fst run = Some false
  /\ option_map (fun r => skipn 6 (tx (snd r))) run
     = Some [command_packet CMD_CMOS_LED 1 true;
             command_packet CMD_CAPTURE_FINGER 1 true]
  /\ option_map (fun r => (mRespStatus (snd r), mRespParam (snd r))) run
     = Some (true, 0).
Proof. vm_compute. repeat split; reflexivity. Qed.

(** * The scenarios of the workflow *)

Example enrollSequence_happy_path :
  let run := enrollSequence cooperative 11 3 true power_on in
  option_map fst run = Some true
  /\ option_map (fun r => mEnrollmentStage (snd r)) run = Some 3
  /\ option_map (fun r => length (tx (snd r))) run = Some 28%nat
  /\ option_map (fun r => shown (snd r)) run
     = Some ["Beginning enroll"; "Remove finger"; "Place finger";
             "Remove finger"; "Place finger"; "Remove finger"; "Place finger";
             "Success!"]%string.
Proof. vm_compute. repeat split; reflexivity. Qed.

(** A device that does not know the identifier is free: it refuses the start
    of the enrollment. *)
Example enrollSequence_id_in_use :
  let wire := script [response_packet NACK NACK_IS_ALREADY_USED] in
  let run := enrollSequence wire 2 3 false power_on in
  option_map fst run = Some false
  /\ option_map (fun r => mRespParam (snd r)) run = Some NACK_IS_ALREADY_USED
  /\ option_map (fun r => length (tx (snd r))) run = Some 1%nat.
Proof. vm_compute. repeat split; reflexivity. Qed.

(** * Further properties of the wire codec *)

Lemma sum_bytes_app a b : sum_bytes (a ++ b) = sum_bytes a + sum_bytes b.
Proof.
  unfold sum_bytes. induction a as [| x a IH]; cbn [app fold_right]; lia.
Qed.

Lemma to_word_is_word v : is_word (to_word v).
Proof. unfold is_word, to_word. apply Z.mod_pos_bound. lia. Qed.

Lemma to_word_of_word v : is_word v -> to_word v = v.
Proof. unfold is_word, to_word. intros H. now apply Z.mod_small. Qed.

Lemma computeCheckSum_loop_word arr rounds :
  forall i c, is_word c -> is_word (computeCheckSum_loop arr i rounds c).
Proof.
  induction rounds as [| rounds IH]; intros i c Hc; [exact Hc |].
  cbn [computeCheckSum_loop]. apply IH, to_word_is_word.
Qed.

Lemma computeCheckSum_word arr n : is_word (computeCheckSum arr n).
Proof.
  unfold computeCheckSum. apply computeCheckSum_loop_word.
  unfold is_word. lia.
Qed.

Lemma octet_is_byte v k : is_byte (octet v k).
Proof. apply octet_range. Qed.

Lemma octet_byteb v k : byteb (octet v k) = true.
Proof. apply byteb_is_byte, octet_is_byte. Qed.

(** X1. [split] puts the most significant byte first, and the bytes it gives make
    up the value again. *)
Theorem split_most_significant_first (w d : Z) :
  is_word w -> is_dword d ->
  bytes (split_word w) /\ bytes (split_dword d)
  /\ w = at_ (split_word w) 0 * 2 ^ 8 + at_ (split_word w) 1
  /\ d = at_ (split_dword d) 0 * 2 ^ 24 + at_ (split_dword d) 1 * 2 ^ 16
         + at_ (split_dword d) 2 * 2 ^ 8 + at_ (split_dword d) 3.
Proof.
  intros Hw Hd. rewrite split_word_octets, split_dword_octets.
  split; [| split; [| split]].
  - unfold bytes. cbn [forallb]. now rewrite !octet_byteb.
  - unfold bytes. cbn [forallb]. now rewrite !octet_byteb.
  - change (at_ [octet w 1; octet w 0] 0) with (octet w 1).
    change (at_ [octet w 1; octet w 0] 1) with (octet w 0).
    rewrite (word_octets w Hw) at 1. lia.
  - change (at_ [octet d 3; octet d 2; octet d 1; octet d 0] 0) with (octet d 3).
    change (at_ [octet d 3; octet d 2; octet d 1; octet d 0] 1) with (octet d 2).
    change (at_ [octet d 3; octet d 2; octet d 1; octet d 0] 2) with (octet d 1).
    change (at_ [octet d 3; octet d 2; octet d 1; octet d 0] 3) with (octet d 0).
    rewrite (dword_octets d Hd) at 1. lia.
Qed.

Lemma split_most_significant_first_witness :
  split_word 0x1234 = [0x12; 0x34]
  /\ split_dword 0x89ABCDEF = [0x89; 0xAB; 0xCD; 0xEF]
  /\ 0x89ABCDEF
     = at_ (split_dword 0x89ABCDEF) 0 * 2 ^ 24
       + at_ (split_dword 0x89ABCDEF) 1 * 2 ^ 16
       + at_ (split_dword 0x89ABCDEF) 2 * 2 ^ 8 + at_ (split_dword 0x89ABCDEF) 3.
Proof.
  split; [reflexivity | split; [reflexivity |]].
  apply (split_most_significant_first 0x1234 0x89ABCDEF);
    unfold is_word, is_dword; lia.
Defined.

(** X2. [flipEndianness] reverses the bytes of the low 16 (32) bits of its
    argument, whatever lies above them, and its result fits the width. *)
Theorem flipEndianness_reverses_bytes (v : Z) :
  (is_word (flipEndianness_word v)
   /\ octet (flipEndianness_word v) 0 = octet v 1
   /\ octet (flipEndianness_word v) 1 = octet v 0)
  /\ (is_dword (flipEndianness_dword v)
      /\ octet (flipEndianness_dword v) 0 = octet v 3
      /\ octet (flipEndianness_dword v) 1 = octet v 2
      /\ octet (flipEndianness_dword v) 2 = octet v 1
      /\ octet (flipEndianness_dword v) 3 = octet v 0).
Proof.
  split.
  - split.
    + unfold flipEndianness_word. apply to_word_is_word.
    + rewrite flipEndianness_word_octets.
      apply (octets_of_word (octet v 1) (octet v 0)); apply octet_range.
  - split.
    + unfold flipEndianness_dword, is_dword, to_dword.
      apply Z.mod_pos_bound. lia.
    + rewrite flipEndianness_dword_octets.
      apply (octets_of_dword (octet v 3) (octet v 2) (octet v 1) (octet v 0));
        apply octet_range.
Qed.

(** ** The checksum *)

Lemma put_at_length (pre : list Z) x post v :
  put (pre ++ x :: post) (Z.of_nat (length pre)) v = pre ++ v :: post.
Proof.
  unfold put. rewrite Nat2Z.id.
  induction pre as [| p pre IH]; [reflexivity |].
  cbn [app length]. cbn. f_equal. exact IH.
Qed.

Lemma split_at (b : list Z) (i : nat) :
  (i < length b)%nat ->
  b = firstn i b ++ nth i b 0 :: skipn (S i) b.
Proof.
  revert i. induction b as [| x b IH]; intros i Hi; [cbn in Hi; lia |].
  destruct i as [| i]; [reflexivity |].
  cbn [firstn skipn nth app]. f_equal. apply IH. cbn in Hi. lia.
Qed.

Lemma computeCheckSum_whole (a : list Z) :
  computeCheckSum a (Z.of_nat (length a)) = to_word (sum_bytes a).
Proof.
  pose proof (computeCheckSum_prefix a []) as E. now rewrite app_nil_r in E.
Qed.

(** X3. The checksum of the first [n] bytes does not look past them, adds up
    over concatenation, and always fits 16 bits. *)
Theorem computeCheckSum_composes (a b : list Z) (n : Z) :
  computeCheckSum (a ++ b) (Z.of_nat (length a))
  = computeCheckSum a (Z.of_nat (length a))
  /\ computeCheckSum (a ++ b) (Z.of_nat (length a + length b))
     = to_word (computeCheckSum a (Z.of_nat (length a))
                + computeCheckSum b (Z.of_nat (length b)))
  /\ is_word (computeCheckSum a n).
Proof.
  split; [| split].
  - now rewrite computeCheckSum_prefix, computeCheckSum_whole.
  - rewrite <- length_app. rewrite (computeCheckSum_whole (a ++ b)).
    rewrite sum_bytes_app, !computeCheckSum_whole. unfold to_word.
    now rewrite <- Zplus_mod.
  - apply computeCheckSum_word.
Qed.

Lemma computeCheckSum_changed pre x mid post v :
  is_byte x -> is_byte v -> v <> x ->
  computeCheckSum (pre ++ v :: mid ++ post)
                  (Z.of_nat (length (pre ++ x :: mid)))
  <> computeCheckSum (pre ++ x :: mid ++ post)
                     (Z.of_nat (length (pre ++ x :: mid))).
Proof.
  intros Hx Hv Hne.
  replace (pre ++ x :: mid ++ post) with ((pre ++ x :: mid) ++ post)
    by (rewrite <- app_assoc; reflexivity).
  rewrite computeCheckSum_prefix.
  replace (length (pre ++ x :: mid)) with (length (pre ++ v :: mid))
    by (rewrite !length_app; reflexivity).
  replace (pre ++ v :: mid ++ post) with ((pre ++ v :: mid) ++ post)
    by (rewrite <- app_assoc; reflexivity).
  rewrite computeCheckSum_prefix.
  rewrite !sum_bytes_app.
  change (sum_bytes (v :: mid)) with (v + sum_bytes mid).
  change (sum_bytes (x :: mid)) with (x + sum_bytes mid).
  unfold is_byte, to_word in *.
  change (2 ^ 8) with 256 in *. change (2 ^ 16) with 65536.
  intros E.
  assert ((v - x) mod 65536 = 0) as D.
  { replace (v - x)
      with ((sum_bytes pre + (v + sum_bytes mid))
            - (sum_bytes pre + (x + sum_bytes mid))) by lia.
    rewrite Zminus_mod, E, Z.sub_diag. reflexivity. }
  apply Z.mod_divide in D; [| lia]. destruct D as [k D]. lia.
Qed.

Lemma computeCheckSum_changed_at (b : list Z) (n i v : Z) :
  0 <= i < n -> n <= Z.of_nat (length b) ->
  is_byte (at_ b i) -> is_byte v -> v <> at_ b i ->
  computeCheckSum (put b i v) n <> computeCheckSum b n.
Proof.
  intros Hi Hn Hold Hv Hne.
  assert (Z.to_nat i < length b)%nat as Hlen by lia.
  pose proof (split_at b (Z.to_nat i) Hlen) as Eb.
  change (nth (Z.to_nat i) b 0) with (at_ b i) in Eb.
  remember (at_ b i) as x eqn:Ex.
  remember (firstn (Z.to_nat i) b) as pre eqn:Epre.
  remember (skipn (S (Z.to_nat i)) b) as after eqn:Eafter.
  assert (length pre = Z.to_nat i) as Hpre
      by (subst pre; rewrite length_firstn; lia).
  assert (length after = (length b - S (Z.to_nat i))%nat) as Hafter
      by (subst after; apply length_skipn).
  set (m := (Z.to_nat n - S (Z.to_nat i))%nat).
  assert (length (firstn m after) = m) as Hm
      by (rewrite length_firstn; unfold m; lia).
  assert (n = Z.of_nat (length (pre ++ x :: firstn m after))) as En.
  { rewrite length_app. cbn [length]. rewrite Hpre, Hm. unfold m. lia. }
  assert (i = Z.of_nat (length pre)) as Ei by lia.
  clear Epre Eafter Ex Hlen Hafter.
  rewrite <- (firstn_skipn m after) in Eb.
  subst b. rewrite Ei, put_at_length, En.
  now apply computeCheckSum_changed.
Qed.

(** X4. Replacing one covered byte by a different byte changes the checksum. *)
Theorem computeCheckSum_detects_changed_byte (b : list Z) (n i v : Z) :
  0 <= i < n -> n <= Z.of_nat (length b) ->
  is_byte (at_ b i) -> is_byte v -> v <> at_ b i ->
  computeCheckSum (put b i v) n <> computeCheckSum b n.
Proof. apply computeCheckSum_changed_at. Qed.

Lemma computeCheckSum_detects_changed_byte_witness :
  computeCheckSum (put [0x55; 0xAA; 0x01; 0x00; 0x07] 4 0x06) 5
  <> computeCheckSum [0x55; 0xAA; 0x01; 0x00; 0x07] 5
  /\ computeCheckSum [0x55; 0xAA; 0x01; 0x00; 0x07] 5 = 0x107.
Proof.
  split; [| reflexivity].
  apply computeCheckSum_detects_changed_byte.
  - lia.
  - cbn. lia.
  - apply byteb_is_byte. reflexivity.
  - apply byteb_is_byte. reflexivity.
  - vm_compute. discriminate.
Defined.

(** ** The packet [send] builds *)

Lemma command_packet_little_endian cmd param :
  command_packet cmd param true = little_endian_packet cmd param.
Proof.
  rewrite command_packet_fields. cbv zeta.
  rewrite split_flip_dword, (split_flip_word cmd), split_flip_word.
  reflexivity.
Qed.

Lemma command_packet_shape cmd param isBigEndian :
  exists p c k,
    is_word k
    /\ command_packet cmd param isBigEndian
       = [0x55; 0xAA; 0x01; 0x00; octet p 3; octet p 2; octet p 1; octet p 0;
          octet c 1; octet c 0; octet k 0; octet k 1]
    /\ computeCheckSum (command_packet cmd param isBigEndian) 10 = k.
Proof.
  rewrite command_packet_fields. cbv zeta.
  set (p := if isBigEndian then flipEndianness_dword param else param).
  set (c := if isBigEndian then flipEndianness_word cmd else cmd).
  rewrite split_flip_word, split_dword_octets, split_word_octets.
  set (covered := [CMD_START_CODE_1; CMD_START_CODE_2; DEVICE_ID_LSB;
                   DEVICE_ID_MSB] ++ [octet p 3; octet p 2; octet p 1; octet p 0]
                    ++ [octet c 1; octet c 0]).
  set (k := computeCheckSum covered 10).
  exists p, c, k. split; [apply computeCheckSum_word |]. split; [reflexivity |].
  change 10 with (Z.of_nat (length covered)).
  rewrite computeCheckSum_prefix. unfold k.
  change 10 with (Z.of_nat (length covered)).
  now rewrite computeCheckSum_whole.
Qed.

(** X5. Whatever the command code, the parameter and the byte order asked for,
    the packet [send] builds has 12 bytes, each of them a byte, starts with
    55 AA 01 00, and ends with the checksum of its first ten bytes in the
    form the receive functions check: low byte, then high byte. *)
Theorem command_packet_well_formed (cmd param : Z) (isBigEndian : bool) :
  let pkt := command_packet cmd param isBigEndian in
  length pkt = 12%nat
  /\ bytes pkt
  /\ firstn 4 pkt = [0x55; 0xAA; 0x01; 0x00]
  /\ computeCheckSum pkt 10 = at_ pkt 10 + 2 ^ 8 * at_ pkt 11.
Proof.
  cbv zeta.
  destruct (command_packet_shape cmd param isBigEndian) as (p & c & k & Hk & -> & ->).
  split; [reflexivity |]. split; [| split; [reflexivity |]].
  - unfold bytes. cbn [forallb]. rewrite !octet_byteb. reflexivity.
  - change (at_ _ 10) with (octet k 0). change (at_ _ 11) with (octet k 1).
    now apply word_octets.
Qed.

(** * Further properties of the receive functions *)

Lemma put_cons x (l : list Z) i v :
  1 <= i -> put (x :: l) i v = x :: put l (i - 1) v.
Proof.
  intros Hi. unfold put.
  replace (Z.to_nat i) with (S (Z.to_nat (i - 1))) by lia. reflexivity.
Qed.

Lemma at_cons x (l : list Z) i : 1 <= i -> at_ (x :: l) i = at_ l (i - 1).
Proof.
  intros Hi. unfold at_.
  replace (Z.to_nat i) with (S (Z.to_nat (i - 1))) by lia. reflexivity.
Qed.

Lemma nth_insert_ne (b : list Z) :
  forall (i j : nat) x, i <> j -> nth j (<[i:=x]> b) 0 = nth j b 0.
Proof.
  induction b as [| a b IH]; intros i j x Hij; [reflexivity |].
  destruct i as [| i]; destruct j as [| j]; cbn; try reflexivity;
    [contradiction | apply IH; lia].
Qed.

Lemma nth_insert_eq (b : list Z) :
  forall (i : nat) x, (i < length b)%nat -> nth i (<[i:=x]> b) 0 = x.
Proof.
  induction b as [| a b IH]; intros i x Hi; [cbn in Hi; lia |].
  destruct i as [| i]; [reflexivity |]. cbn. apply IH. cbn in Hi. lia.
Qed.

Lemma at_put_ne b i j v : 0 <= i -> 0 <= j -> i <> j -> at_ (put b i v) j = at_ b j.
Proof. intros Hi Hj Hij. unfold at_, put. apply nth_insert_ne. lia. Qed.

Lemma at_put_eq b i v :
  0 <= i < Z.of_nat (length b) -> at_ (put b i v) i = v.
Proof. intros Hi. unfold at_, put. apply nth_insert_eq. lia. Qed.

Lemma length_put b i v : length (put b i v) = length b.
Proof. unfold put. apply length_insert. Qed.

Lemma bytes_Forall l : bytes l <-> List.Forall is_byte l.
Proof.
  unfold bytes. rewrite forallb_forall, List.Forall_forall.
  split; intros H x Hx; apply byteb_is_byte, H, Hx.
Qed.

Lemma bytes_insert (b : list Z) v :
  is_byte v -> forall k : nat, bytes b -> bytes (<[k:=v]> b).
Proof.
  intros Hv. induction b as [| a b IH]; intros k Hb; [exact Hb |].
  apply bytes_cons in Hb as [Ha Hb].
  destruct k as [| k]; cbn; apply bytes_cons; split;
    try assumption; [now apply byteb_is_byte | now apply IH].
Qed.

Lemma bytes_put b i v : bytes b -> is_byte v -> bytes (put b i v).
Proof. intros Hb Hv. unfold put. now apply bytes_insert. Qed.

Lemma bytes_nth (b : list Z) :
  bytes b -> forall k : nat, is_byte (nth k b 0).
Proof.
  induction b as [| a b IH]; intros Hb k.
  - destruct k; unfold is_byte; cbn; lia.
  - apply bytes_cons in Hb as [Ha Hb]. destruct k as [| k]; cbn.
    + now apply byteb_is_byte.
    + now apply IH.
Qed.

Lemma bytes_at b i : bytes b -> is_byte (at_ b i).
Proof. intros Hb. unfold at_. now apply bytes_nth. Qed.

Lemma computeCheckSum_put_beyond b i v n :
  0 <= n <= i -> computeCheckSum (put b i v) n = computeCheckSum b n.
Proof.
  intros Hn.
  destruct (Nat.lt_ge_cases (Z.to_nat i) (length b)) as [Hlt | Hge].
  - pose proof (split_at b (Z.to_nat i) Hlt) as Eb.
    remember (firstn (Z.to_nat i) b) as pre eqn:Epre.
    remember (nth (Z.to_nat i) b 0) as x eqn:Ex.
    remember (skipn (S (Z.to_nat i)) b) as post eqn:Epost.
    assert (length pre = Z.to_nat i) as Hpre
        by (subst pre; rewrite length_firstn; lia).
    clear Epre Ex Epost. subst b.
    replace i with (Z.of_nat (length pre)) at 1 by lia.
    rewrite put_at_length.
    assert (exists a c, pre = a ++ c /\ length a = Z.to_nat n) as (a & c & -> & Ha).
    { exists (firstn (Z.to_nat n) pre), (skipn (Z.to_nat n) pre). split.
      - symmetry. apply firstn_skipn.
      - rewrite length_firstn. lia. }
    rewrite <- !app_assoc.
    replace n with (Z.of_nat (length a)) by lia.
    now rewrite !computeCheckSum_prefix.
  - unfold put. now rewrite list_insert_ge by lia.
Qed.

(** What [recvResponsePkt] does when the queue holds bytes it steps over,
    then a marker and ten bytes. *)
Lemma recvResponsePkt_found s g ten rest :
  bytes g -> marker_free g = true -> bytes ten -> length ten = 10%nat ->
  rx s = g ++ 0x55 :: 0xAA :: ten ++ rest ->
  recvResponsePkt s
  = (true,
     let pkt := 0x55 :: 0xAA :: ten in
     let param := at_ ten 2 + 2 ^ 8 * at_ ten 3 + 2 ^ 16 * at_ ten 4
                  + 2 ^ 24 * at_ ten 5 in
     let s0 := with_rx rest s in
     if negb (computeCheckSum pkt 10 =? at_ ten 8 + 2 ^ 8 * at_ ten 9)
     then with_resp false NACK_COMM_ERR s0
     else if at_ ten 6 =? 0x31 then with_resp false param s0
          else with_respPkt pkt (with_resp true param s0)).
Proof.
  intros Hg Hfree Hbytes Hten Hrx.
  unfold recvResponsePkt. rewrite Hrx.
  rewrite response_scan_resync by assumption.
  cbn [queue buff done givenChkSum negb].
  rewrite given_of_received, response_param_received, firstn_received
    by assumption.
  rewrite (received_bytes ten Hbytes).
  change (at_ (0x55 :: 0xAA :: ten) 10) with (at_ ten 8).
  change (at_ (0x55 :: 0xAA :: ten) 11) with (at_ ten 9).
  change (at_ (0x55 :: 0xAA :: ten) 8) with (at_ ten 6).
  change (at_ (0x55 :: 0xAA :: ten) 4) with (at_ ten 2).
  change (at_ (0x55 :: 0xAA :: ten) 5) with (at_ ten 3).
  change (at_ (0x55 :: 0xAA :: ten) 6) with (at_ ten 4).
  change (at_ (0x55 :: 0xAA :: ten) 7) with (at_ ten 5).
  reflexivity.
Qed.

Lemma little_endian_packet_shape cmd param :
  exists k,
    is_word k
    /\ little_endian_packet cmd param
       = 0x55 :: 0xAA
           :: [0x01; 0x00; octet param 0; octet param 1; octet param 2;
               octet param 3; octet cmd 0; octet cmd 1; octet k 0; octet k 1]
    /\ computeCheckSum (little_endian_packet cmd param) 10 = k.
Proof.
  unfold little_endian_packet.
  set (covered := [CMD_START_CODE_1; CMD_START_CODE_2] ++ little_endian 2 0x0001
                    ++ little_endian 4 param ++ little_endian 2 cmd).
  set (k := computeCheckSum covered 10).
  exists k. split; [apply computeCheckSum_word |]. split; [reflexivity |].
  change 10 with (Z.of_nat (length covered)).
  rewrite computeCheckSum_prefix. unfold k.
  change 10 with (Z.of_nat (length covered)).
  now rewrite computeCheckSum_whole.
Qed.

(** X6. Encode, then decode: when the queue holds bytes the scan steps over and
    then a packet built by [send], [recvResponsePkt] returns true, takes
    exactly that packet off the queue and stores the parameter that was
    given to [send]; the status is failure exactly when the low byte of the
    command code is 0x31. *)
Theorem recvResponsePkt_reads_what_send_builds
        (s : Driver) (g rest : list Z) (cmd param : Z) :
  is_word cmd -> is_dword param ->
  bytes g -> marker_free g = true ->
  rx s = g ++ command_packet cmd param true ++ rest ->
  fst (recvResponsePkt s) = true
  /\ rx (snd (recvResponsePkt s)) = rest
  /\ mRespParam (snd (recvResponsePkt s)) = param
  /\ mRespStatus (snd (recvResponsePkt s)) = negb (octet cmd 0 =? NACK)
  /\ (octet cmd 0 <> NACK ->
      mRespPkt (snd (recvResponsePkt s)) = command_packet cmd param true).
Proof.
  intros Hcmd Hparam Hg Hfree Hrx.
  rewrite command_packet_little_endian in *.
  destruct (little_endian_packet_shape cmd param) as (k & Hk & E & Hsum).
  rewrite E in Hrx, Hsum. rewrite E.
  set (ten := [0x01; 0x00; octet param 0; octet param 1; octet param 2;
               octet param 3; octet cmd 0; octet cmd 1; octet k 0; octet k 1])
    in *.
  change ((0x55 :: 0xAA :: ten) ++ rest) with (0x55 :: 0xAA :: ten ++ rest) in Hrx.
  assert (bytes ten) as Hten
      by (unfold bytes, ten; cbn [forallb]; now rewrite !octet_byteb).
  rewrite (recvResponsePkt_found s g ten rest Hg Hfree Hten eq_refl Hrx).
  cbv zeta. cbn [fst snd].
  change (at_ ten 8) with (octet k 0). change (at_ ten 9) with (octet k 1).
  change (at_ ten 2) with (octet param 0). change (at_ ten 3) with (octet param 1).
  change (at_ ten 4) with (octet param 2). change (at_ ten 5) with (octet param 3).
  change (at_ ten 6) with (octet cmd 0).
  rewrite Hsum, <- (word_octets k Hk), Z.eqb_refl.
  rewrite <- (dword_octets param Hparam). cbn [negb]. change 0x31 with NACK.
  destruct (octet cmd 0 =? NACK) eqn:Ec; cbn; repeat split; try reflexivity.
  intros H. apply Z.eqb_eq in Ec. contradiction.
Qed.

Lemma recvResponsePkt_reads_what_send_builds_witness :
  let s := with_rx ([0x00; 0x07] ++ command_packet CMD_IDENTIFY 0x0A0B0C0D true
                      ++ [0x99]) power_on in
  fst (recvResponsePkt s) = true
  /\ rx (snd (recvResponsePkt s)) = [0x99]
  /\ mRespParam (snd (recvResponsePkt s)) = 0x0A0B0C0D.
Proof.
  cbv zeta.
  destruct (recvResponsePkt_reads_what_send_builds
              (with_rx ([0x00; 0x07] ++ command_packet CMD_IDENTIFY 0x0A0B0C0D true
                          ++ [0x99]) power_on)
              [0x00; 0x07] [0x99] CMD_IDENTIFY 0x0A0B0C0D)
    as (H1 & H2 & H3 & _);
    [ unfold is_word, CMD_IDENTIFY; lia | unfold is_dword; lia
    | reflexivity | reflexivity | reflexivity | ].
  split; [exact H1 |]. split; [exact H2 | exact H3].
Defined.

(** X7. The two ways [recvResponsePkt] can end.  When it returns false it has
    emptied the queue, set the status to failure and the code to
    not-received, and left [mRespPkt] alone.  When it returns true the
    queue held a marker followed by ten bytes, and exactly the bytes up to
    the end of those ten are gone.  The status is success only if it
    returns true; a queue without the byte 0x55 makes it return false. *)
Theorem recvResponsePkt_outcomes (s : Driver) :
  let r := fst (recvResponsePkt s) in
  let s' := snd (recvResponsePkt s) in
  (r = false ->
   rx s' = [] /\ mRespStatus s' = false /\ mRespParam s' = NACK_NOT_RECVD
   /\ mRespPkt s' = mRespPkt s)
  /\ (r = true ->
      exists skipped v ten,
        rx s = skipped ++ v :: 0xAA :: ten ++ rx s'
        /\ to_byte v = 0x55 /\ length ten = 10%nat)
  /\ (mRespStatus s' = true -> r = true)
  /\ (List.Forall (fun v => to_byte v <> 0x55) (rx s) -> r = false).
Proof.
  cbv zeta.
  assert (fst (recvResponsePkt s) = done (response_scan (rx s))) as Er
      by reflexivity.
  assert (rx (snd (recvResponsePkt s)) = queue (response_scan (rx s))) as Eq.
  { unfold recvResponsePkt. cbn [snd].
    destruct (negb (done (response_scan (rx s))));
      [| destruct (negb (computeCheckSum _ 10 =? _));
         [| destruct (at_ _ 8 =? 0x31)]]; reflexivity. }
  assert (fst (recvResponsePkt s) = true ->
          exists skipped v ten,
            rx s = skipped ++ v :: 0xAA :: ten ++ rx (snd (recvResponsePkt s))
            /\ to_byte v = 0x55 /\ length ten = 10%nat) as Hfound.
  { rewrite Er, Eq. intros Hdone.
    destruct (response_scan_found (rx s) Hdone)
      as (skipped & v & ten & Hq & Hv & Hten & _).
    exists skipped, v, ten. split; [exact Hq | split; [exact Hv | exact Hten]]. }
  split; [| split; [exact Hfound | split]].
  - rewrite Er, Eq. intros Hdone.
    destruct (response_scan_exits (rx s)) as [H | H]; [congruence |].
    split; [exact H |]. unfold recvResponsePkt. rewrite Hdone. cbn.
    repeat split.
  - destruct (fst (recvResponsePkt s)) eqn:E; [reflexivity |].
    destruct (recvResponsePkt_not_received s E) as [H _]. congruence.
  - intros Hall. destruct (fst (recvResponsePkt s)) eqn:E; [| reflexivity].
    destruct (Hfound eq_refl) as (skipped & v & ten & Hq & Hv & _).
    rewrite List.Forall_forall in Hall. exfalso. apply (Hall v); [| exact Hv].
    rewrite Hq. apply in_or_app. right. now left.
Qed.

(** X8. A response packet with a matching checksum in which one byte behind the
    marker was replaced by a different byte is never accepted: the call
    reports the communications error. *)
Theorem recvResponsePkt_detects_changed_byte
        (s : Driver) (g ten rest : list Z) (i v : Z) :
  bytes g -> marker_free g = true ->
  bytes ten -> length ten = 10%nat ->
  computeCheckSum (0x55 :: 0xAA :: ten) 10 = at_ ten 8 + 2 ^ 8 * at_ ten 9 ->
  2 <= i < 12 -> is_byte v -> v <> at_ (0x55 :: 0xAA :: ten) i ->
  rx s = g ++ put (0x55 :: 0xAA :: ten) i v ++ rest ->
  recvResponsePkt s
  = (true, with_resp false NACK_COMM_ERR (with_rx rest s)).
Proof.
  intros Hg Hfree Hten Hlen Hsum Hi Hv Hne Hrx.
  rewrite (put_cons 0x55) in Hrx by lia.
  rewrite (put_cons 0xAA) in Hrx by lia.
  rewrite !at_cons in Hne by lia.
  replace (i - 1 - 1) with (i - 2) in * by lia.
  change ((0x55 :: 0xAA :: put ten (i - 2) v) ++ rest)
    with (0x55 :: 0xAA :: put ten (i - 2) v ++ rest) in Hrx.
  rewrite (recvResponsePkt_found s g (put ten (i - 2) v) rest Hg Hfree
             (bytes_put _ _ _ Hten Hv)
             (eq_trans (length_put _ _ _) Hlen) Hrx).
  cbv zeta.
  assert (computeCheckSum (0x55 :: 0xAA :: put ten (i - 2) v) 10
          <> at_ (put ten (i - 2) v) 8 + 2 ^ 8 * at_ (put ten (i - 2) v) 9) as D.
  { replace (0x55 :: 0xAA :: put ten (i - 2) v)
      with (put (0x55 :: 0xAA :: ten) i v).
    2:{ rewrite (put_cons 0x55), (put_cons 0xAA) by lia.
        now replace (i - 1 - 1) with (i - 2) by lia. }
    pose proof (bytes_at ten 8 Hten) as B8. pose proof (bytes_at ten 9 Hten) as B9.
    unfold is_byte in *. change (2 ^ 8) with 256 in *.
    destruct (Z_lt_ge_dec i 10) as [Hlow | Hhigh].
    - rewrite !at_put_ne by lia. rewrite <- Hsum.
      apply computeCheckSum_changed_at; try (cbn [length]; lia).
      + rewrite !at_cons by lia. replace (i - 1 - 1) with (i - 2) by lia.
        now apply bytes_at.
      + exact Hv.
      + rewrite !at_cons by lia. now replace (i - 1 - 1) with (i - 2) by lia.
    - rewrite computeCheckSum_put_beyond by lia. rewrite Hsum.
      assert (i = 10 \/ i = 11) as [-> | ->] by lia.
      + change (10 - 2) with 8 in *. rewrite at_put_eq by lia.
        rewrite at_put_ne by lia. lia.
      + change (11 - 2) with 9 in *. rewrite at_put_eq by lia.
        rewrite at_put_ne by lia. lia. }
  apply Z.eqb_neq in D. rewrite D. reflexivity.
Qed.

Lemma recvResponsePkt_detects_changed_byte_witness :
  let s := with_rx ([0x0A] ++ put (response_packet ACK 5) 4 6 ++ [0x0B]) power_on in
  fst (recvResponsePkt s) = true
  /\ mRespStatus (snd (recvResponsePkt s)) = false
  /\ mRespParam (snd (recvResponsePkt s)) = NACK_COMM_ERR
  /\ rx (snd (recvResponsePkt s)) = [0x0B].
Proof.
  cbv zeta.
  rewrite (recvResponsePkt_detects_changed_byte
             (with_rx ([0x0A] ++ put (response_packet ACK 5) 4 6 ++ [0x0B]) power_on)
             [0x0A] [0x01; 0x00; 0x05; 0x00; 0x00; 0x00; 0x30; 0x00; 0x35; 0x01]
             [0x0B] 4 6).
  - repeat split.
  - reflexivity.
  - reflexivity.
  - reflexivity.
  - reflexivity.
  - reflexivity.
  - lia.
  - unfold is_byte. lia.
  - vm_compute. discriminate.
  - reflexivity.
Defined.

(** ** Data packets *)

Lemma computeCheckSum_ignores_rest (a post : list Z) (n : Z) :
  0 <= n <= Z.of_nat (length a) ->
  computeCheckSum (a ++ post) n = computeCheckSum a n.
Proof.
  intros Hn.
  assert (exists a1 a2, a = a1 ++ a2 /\ length a1 = Z.to_nat n)
    as (a1 & a2 & -> & Ha).
  { exists (firstn (Z.to_nat n) a), (skipn (Z.to_nat n) a). split.
    - symmetry. apply firstn_skipn.
    - rewrite length_firstn. lia. }
  rewrite <- app_assoc. replace n with (Z.of_nat (length a1)) by lia.
  now rewrite !computeCheckSum_prefix.
Qed.

(** The inner loop of [recvDataPkt] on a queue that holds the rest of the
    packet: the bytes go where they belong. *)
Lemma data_fill_stores total body :
  forall pre mid post rest,
    length mid = length body ->
    Z.of_nat (length pre + length body) = total -> total <= 255 ->
    data_fill total (Z.of_nat (length pre)) (pre ++ mid ++ post) (body ++ rest)
    = (total, pre ++ map to_byte body ++ post, rest).
Proof.
  induction body as [| v body IH]; intros pre mid post rest Hmid Htotal H255.
  - destruct mid; [| discriminate]. cbn [app map length] in *.
    rewrite data_fill_stop by lia. f_equal. f_equal. lia.
  - destruct mid as [| x mid]; [discriminate |]. cbn [length] in *.
    cbn [app data_fill].
    replace (Z.of_nat (length pre) <? total) with true
      by (symmetry; apply Z.ltb_lt; lia).
    change (pre ++ x :: mid ++ post) with (pre ++ x :: (mid ++ post)).
    rewrite put_at_length.
    replace (to_byte (Z.of_nat (length pre) + 1))
      with (Z.of_nat (length (pre ++ [to_byte v]))).
    2:{ rewrite length_app. cbn [length]. symmetry.
        unfold to_byte. rewrite Z.mod_small; change (2 ^ 8) with 256; lia. }
    replace (pre ++ to_byte v :: mid ++ post)
      with ((pre ++ [to_byte v]) ++ mid ++ post)
      by (rewrite <- app_assoc; reflexivity).
    rewrite IH.
    + cbn [map]. rewrite <- app_assoc. reflexivity.
    + lia.
    + rewrite length_app. cbn [length]. lia.
    + assumption.
Qed.

Lemma list_split3 (l : list Z) (n : nat) :
  (2 <= n <= length l)%nat ->
  exists x0 x1 mid post,
    l = x0 :: x1 :: mid ++ post /\ length mid = (n - 2)%nat.
Proof.
  intros Hn. destruct l as [| x0 [| x1 l]]; cbn [length] in Hn; try lia.
  exists x0, x1, (firstn (n - 2) l), (skipn (n - 2) l). split.
  - now rewrite firstn_skipn.
  - rewrite length_firstn. lia.
Qed.

(** The scan of [recvDataPkt] on a queue that starts with a whole packet. *)
Lemma data_scan_head total pkt body rest :
  2 <= total <= 255 -> Z.of_nat (length body) = total - 2 ->
  total <= Z.of_nat (length pkt) ->
  exists post,
    length post = (length pkt - Z.to_nat total)%nat
    /\ skipn (Z.to_nat total) pkt = post
    /\ data_scan total pkt (0x5A :: 0xA5 :: body ++ rest)
       = let b := 0x5A :: 0xA5 :: map to_byte body ++ post in
         mkScan rest b true
                (to_word (Z.lor (Z.shiftl (at_ b (total - 1)) 8)
                                (at_ b (total - 2)))).
Proof.
  intros Ht Hbody Hpkt.
  destruct (list_split3 pkt (Z.to_nat total)) as (x0 & x1 & mid & post & -> & Hmid);
    [lia |].
  exists post. split; [| split].
  - cbn [length]. rewrite length_app. lia.
  - replace (Z.to_nat total) with (S (S (length mid))) by lia. cbn [skipn].
    now rewrite skipn_app, skipn_all, Nat.sub_diag.
  - unfold data_scan. cbn [length]. rewrite data_while_round.
    unfold data_round. cbn [queue COMMS_read buff done givenChkSum].
    change (to_byte 0x5A =? 0x5A) with true. change (0xA5 =? 0xA5) with true.
    cbv iota.
    change (put (put (x0 :: x1 :: mid ++ post) 0 0x5A) 1 0xA5)
      with ([0x5A; 0xA5] ++ mid ++ post).
    change 2 with (Z.of_nat (length [0x5A; 0xA5])) at 1.
    rewrite data_fill_stores by (cbn [length]; lia).
    rewrite Z.eqb_refl. cbv zeta. apply data_while_done. reflexivity.
Qed.

(** X9. A whole data packet at the head of the queue is received: when the queue
    starts with the marker, [size + 4] bytes of which the last two spell the
    checksum of everything before them, and the packet fits a one-byte
    counter ([size <= 249]), [recvDataPkt] returns true, takes exactly the
    packet off the queue and holds it at the start of [mDataPkt], whose
    other bytes and the status and code it leaves as they were. *)
Theorem recvDataPkt_receives_packet (s : Driver) (size : Z) (body rest : list Z) :
  0 <= size <= 249 -> bytes body -> Z.of_nat (length body) = size + 4 ->
  size + 6 <= Z.of_nat (length (mDataPkt s)) ->
  computeCheckSum (0x5A :: 0xA5 :: body) (size + 4)
  = at_ body (size + 2) + 2 ^ 8 * at_ body (size + 3) ->
  rx s = 0x5A :: 0xA5 :: body ++ rest ->
  fst (recvDataPkt size s) = true
  /\ rx (snd (recvDataPkt size s)) = rest
  /\ mDataPkt (snd (recvDataPkt size s))
     = 0x5A :: 0xA5 :: body ++ skipn (Z.to_nat (size + 6)) (mDataPkt s)
  /\ mRespStatus (snd (recvDataPkt size s)) = mRespStatus s
  /\ mRespParam (snd (recvDataPkt size s)) = mRespParam s.
Proof.
  intros Hsize Hbytes Hlen Hbuf Hsum Hrx.
  unfold recvDataPkt. rewrite Hrx.
  assert (to_dword (size + 6) = size + 6) as Et
      by (unfold to_dword; apply Z.mod_small; change (2 ^ 32) with 4294967296; lia).
  rewrite Et.
  destruct (data_scan_head (size + 6) (mDataPkt s) body rest)
    as (post & Hpost & Epost & ->); try lia.
  cbv zeta. cbn [queue buff done givenChkSum fst snd].
  rewrite (map_to_byte_bytes body Hbytes).
  set (b := 0x5A :: 0xA5 :: body ++ post).
  assert (at_ b (size + 6 - 2) = at_ body (size + 2)) as E2.
  { unfold b. rewrite !at_cons by lia. unfold at_.
    rewrite app_nth1 by lia. f_equal. lia. }
  assert (at_ b (size + 6 - 1) = at_ body (size + 3)) as E1.
  { unfold b. rewrite !at_cons by lia. unfold at_.
    rewrite app_nth1 by lia. f_equal. lia. }
  rewrite E1, E2.
  pose proof (bytes_at body (size + 2) Hbytes) as B2.
  pose proof (bytes_at body (size + 3) Hbytes) as B3.
  assert (to_word (Z.lor (Z.shiftl (at_ body (size + 3)) 8) (at_ body (size + 2)))
          = at_ body (size + 2) + 2 ^ 8 * at_ body (size + 3)) as Eg.
  { unfold is_byte, to_word in *. rewrite shiftl_lor_bytes by lia.
    apply Z.mod_small. change (2 ^ 8) with 256 in *.
    change (2 ^ 16) with 65536. lia. }
  rewrite Eg.
  assert (computeCheckSum b (size + 6 - 2)
          = computeCheckSum (0x5A :: 0xA5 :: body) (size + 4)) as Ec.
  { replace (size + 6 - 2) with (size + 4) by lia. unfold b.
    change (0x5A :: 0xA5 :: body ++ post) with ((0x5A :: 0xA5 :: body) ++ post).
    apply computeCheckSum_ignores_rest. cbn [length]. lia. }
  rewrite Ec, Hsum, Z.eqb_refl. cbn [negb andb].
  repeat split. cbn [mDataPkt with_dataPkt]. unfold b. now rewrite Epost.
Qed.

Lemma recvDataPkt_receives_packet_witness :
  let s := with_rx (data_packet (repeat 0x11 24) ++ [0x77]) power_on in
  fst (recvDataPkt 24 s) = true /\ rx (snd (recvDataPkt 24 s)) = [0x77].
Proof.
  cbv zeta.
  destruct (recvDataPkt_receives_packet
              (with_rx (data_packet (repeat 0x11 24) ++ [0x77]) power_on) 24
              (skipn 2 (data_packet (repeat 0x11 24))) [0x77])
    as (H1 & H2 & _).
  - lia.
  - reflexivity.
  - reflexivity.
  - vm_compute. discriminate.
  - reflexivity.
  - reflexivity.
  - split; [exact H1 | exact H2].
Defined.

(** X10. [recvDataPkt] returns true only for packets of at most 255 bytes, the
    range of the one-byte counter of its inner loop, that is for [size] up
    to 249; the queue then held the marker and the [size + 4] bytes behind
    it, exactly the bytes up to their end are gone, and the last two bytes
    of the packet in [mDataPkt] spell the checksum of those before them. *)
Theorem recvDataPkt_true_only_if (s : Driver) (size : Z) :
  fst (recvDataPkt size s) = true ->
  let total := to_dword (size + 6) in
  let s' := snd (recvDataPkt size s) in
  2 <= total <= 255
  /\ (0 <= size -> size + 6 < 2 ^ 32 -> size <= 249)
  /\ (exists skipped v body,
         rx s = skipped ++ v :: 0xA5 :: body ++ rx s'
         /\ to_byte v = 0x5A /\ Z.of_nat (length body) = total - 2)
  /\ computeCheckSum (mDataPkt s') (total - 2)
     = at_ (mDataPkt s') (total - 2) + 2 ^ 8 * at_ (mDataPkt s') (total - 1).
Proof.
  unfold recvDataPkt. cbn [fst snd]. cbv zeta.
  set (total := to_dword (size + 6)).
  set (l := data_scan total (mDataPkt s) (rx s)).
  intros H.
  destruct (done l) eqn:Hdone; [| discriminate]. cbn [andb] in H.
  destruct (negb (computeCheckSum (buff l) (total - 2) =? givenChkSum l)) eqn:Hc;
    [discriminate |].
  apply negb_false_iff, Z.eqb_eq in Hc.
  destruct (data_scan_found total (mDataPkt s) (rx s) Hdone) as (Ht & Hq & Hg).
  fold l in Hq, Hg.
  split; [exact Ht |]. split; [| split; [exact Hq |]].
  - intros H0 H32. unfold total, to_dword in Ht.
    rewrite Z.mod_small in Ht by lia. lia.
  - cbn [mDataPkt with_dataPkt]. now rewrite Hc.
Qed.

Lemma recvDataPkt_true_only_if_witness :
  let s := with_rx (data_packet (repeat 0x11 24) ++ [0x77]) power_on in
  2 <= to_dword (24 + 6) <= 255
  /\ computeCheckSum (mDataPkt (snd (recvDataPkt 24 s))) (to_dword (24 + 6) - 2)
     = at_ (mDataPkt (snd (recvDataPkt 24 s))) (to_dword (24 + 6) - 2)
       + 2 ^ 8 * at_ (mDataPkt (snd (recvDataPkt 24 s))) (to_dword (24 + 6) - 1).
Proof.
  cbv zeta.
  destruct (recvDataPkt_true_only_if
              (with_rx (data_packet (repeat 0x11 24) ++ [0x77]) power_on) 24)
    as (H1 & _ & _ & H4).
  - vm_compute. reflexivity.
  - split; [exact H1 | exact H4].
Defined.

(** ** Initialization *)

(** The loop of [open] over the serial number: it stops at the first byte
    that is not zero, or at 24 when there is none. *)
Lemma serial_zero_stops rounds :
  forall i pkt,
    i + Z.of_nat rounds = 24 ->
    (serial_zero rounds i pkt = 24
     /\ forall j, i <= j < 24 -> at_ pkt j = 0)
    \/ (i <= serial_zero rounds i pkt < 24
        /\ at_ pkt (serial_zero rounds i pkt) <> 0).
Proof.
  induction rounds as [| rounds IH]; intros i pkt Hi.
  - left. cbn [serial_zero]. split; [lia | intros j Hj; lia].
  - cbn [serial_zero].
    replace (i <? 24) with true by (symmetry; apply Z.ltb_lt; lia).
    cbn [andb]. destruct (at_ pkt i =? 0) eqn:E.
    + apply Z.eqb_eq in E.
      destruct (IH (i + 1) pkt ltac:(lia)) as [[H1 H2] | [H1 H2]].
      * left. split; [exact H1 |]. intros j Hj.
        destruct (Z.eq_dec j i) as [-> | Hne]; [exact E | apply H2; lia].
      * right. split; [lia | exact H2].
    + apply Z.eqb_neq in E. right. split; [lia | exact E].
Qed.

(** X11. [open] returns true exactly when the response to the Open command is a
    success and, with error checking, a data packet of 24 bytes is received
    right after it in which at least one of the bytes 8..23 held in
    [mDataPkt] is not zero.  However it ends, one packet was written. *)
Theorem open_true_iff (wire : nat -> list Z) (errChk : bool) (s : Driver) :
  let s2 := shaken wire CMD_OPEN (Z.b2z errChk) s in
  let s3 := snd (recvDataPkt 24 s2) in
  (fst (open wire errChk s) = true <->
   mRespStatus s2 = true
   /\ (errChk = true ->
       fst (recvDataPkt 24 s2) = true
       /\ exists j, 8 <= j < 24 /\ at_ (mDataPkt s3) j <> 0))
  /\ snd (open wire errChk s) = (if errChk && mRespStatus s2 then s3 else s2)
  /\ tx (snd (open wire errChk s))
     = tx s ++ [command_packet CMD_OPEN (Z.b2z errChk) true].
Proof.
  cbv zeta. rewrite open_shaken. cbv zeta.
  set (s2 := shaken wire CMD_OPEN (Z.b2z errChk) s).
  assert (tx s2 = tx s ++ [command_packet CMD_OPEN (Z.b2z errChk) true]) as Etx.
  { unfold s2, shaken, awaitResponse.
    destruct (await_budget wire (Z.to_nat TIMEOUT)
                (snd (send wire CMD_OPEN (Z.b2z errChk) true s))) as (T & _).
    rewrite T. reflexivity. }
  destruct errChk; destruct (mRespStatus s2) eqn:Es; cbn [andb].
  - destruct (recvDataPkt_fields 24 s2) as (_ & _ & _ & T3 & _).
    destruct (recvDataPkt 24 s2) as [success s3] eqn:R. cbn [fst snd] in *.
    split; [| split; [now destruct success | destruct success; cbn [snd]; congruence]].
    destruct success; cbn [fst andb].
    + destruct (serial_zero_stops 16 8 (mDataPkt s3) eq_refl) as [[H1 H2] | [H1 H2]].
      * rewrite H1. cbn. split; [discriminate |].
        intros [_ H]. destruct (H eq_refl) as [_ (j & Hj & Hne)].
        exfalso. apply Hne, H2. lia.
      * replace (serial_zero 16 8 (mDataPkt s3) =? 24) with false
          by (symmetry; apply Z.eqb_neq; lia).
        cbn. split; [| reflexivity]. intros _. split; [reflexivity |].
        intros _. split; [reflexivity |].
        exists (serial_zero 16 8 (mDataPkt s3)). split; [lia | exact H2].
    + split; [discriminate |]. intros [_ H]. destruct (H eq_refl) as [H' _].
      discriminate.
  - cbn [fst snd]. split; [| split; [reflexivity | exact Etx]].
    split; [discriminate | intros [H _]; discriminate].
  - cbn [fst snd]. split; [| split; [reflexivity | exact Etx]].
    split; [intros _; split; [reflexivity | discriminate] | reflexivity].
  - cbn [fst snd]. split; [| split; [reflexivity | exact Etx]].
    split; [discriminate | intros [H _]; discriminate].
Qed.

(** * Further properties of the command layer *)

(** ** Waiting for a response *)

Lemma send_fields wire cmd param flag s :
  let s1 := snd (send wire cmd param flag s) in
  rx s1 = rx s ++ wire (clock s) /\ clock s1 = S (clock s)
  /\ slept s1 = slept s /\ tx s1 = tx s ++ [command_packet cmd param flag].
Proof. repeat split. Qed.

Lemma recvResponsePkt_empty s :
  rx s = [] ->
  recvResponsePkt s = (false, with_resp false NACK_NOT_RECVD (with_rx [] s)).
Proof. intros H. unfold recvResponsePkt. rewrite H. reflexivity. Qed.

Lemma await_one_idle wire n s :
  rx s = [] ->
  await wire (S n) s = await wire n (idle 1 (wire (clock s)) s).
Proof.
  intros H. cbn [await]. unfold bind. rewrite recvResponsePkt_empty by assumption.
  reflexivity.
Qed.

Lemma idle_idle k q q' s :
  idle k q (idle 1 q' s) = idle (S k) q s.
Proof.
  unfold idle. cbn [mRespPkt mDataPkt mEnrollmentStage tx clock slept shown].
  f_equal; [lia |]. unfold WAITTIME. lia.
Qed.

(** Attempts on an empty queue with nothing arriving in between. *)
Lemma await_idle wire k :
  forall n s,
    rx s = [] ->
    (forall j, (j < k)%nat -> wire (j + clock s)%nat = []) ->
    await wire (S k + n) s = await wire n (idle (S k) (wire (k + clock s)%nat) s).
Proof.
  induction k as [| k IH]; intros n s Hrx Hsilent.
  - cbn [Nat.add]. now apply await_one_idle.
  - change (S (S k) + n)%nat with (S (S k + n)).
    rewrite await_one_idle by assumption.
    rewrite (Hsilent 0%nat ltac:(lia) : wire (clock s) = []).
    rewrite IH.
    + rewrite idle_idle. cbn [clock idle].
      now replace (k + (1 + clock s))%nat with (S k + clock s)%nat by lia.
    + reflexivity.
    + intros j Hj. cbn [clock idle].
      replace (j + (1 + clock s))%nat with (S j + clock s)%nat by lia.
      apply Hsilent. lia.
Qed.

Lemma await_found wire n s g ten rest :
  bytes g -> marker_free g = true -> bytes ten -> length ten = 10%nat ->
  rx s = g ++ 0x55 :: 0xAA :: ten ++ rest ->
  await wire (S n) s = (tt, snd (recvResponsePkt s)).
Proof.
  intros Hg Hfree Hten Hlen Hrx. cbn [await]. unfold bind.
  pose proof (f_equal fst (recvResponsePkt_found s g ten rest
                             Hg Hfree Hten Hlen Hrx)) as E.
  cbn [fst] in E.
  destruct (recvResponsePkt s) as [r s']. cbn [fst snd] in *. subst r.
  reflexivity.
Qed.

Lemma recvResponsePkt_verdict s ten rest :
  bytes ten -> length ten = 10%nat ->
  rx s = 0x55 :: 0xAA :: ten ++ rest ->
  let s' := snd (recvResponsePkt s) in
  (mRespStatus s', mRespParam s') = verdict ten
  /\ rx s' = rest /\ slept s' = slept s /\ clock s' = clock s /\ tx s' = tx s.
Proof.
  intros Hten Hlen Hrx. cbv zeta.
  rewrite (recvResponsePkt_found s [] ten rest) by (assumption || reflexivity).
  cbv zeta. cbn [snd]. unfold verdict. change 0x31 with NACK.
  destruct (computeCheckSum (0x55 :: 0xAA :: ten) 10
            =? at_ ten 8 + 2 ^ 8 * at_ ten 9); cbn [negb];
    [destruct (at_ ten 6 =? NACK) |]; repeat split.
Qed.

(** X12. A response that arrives while the driver writes the command ([k = 0])
    or during its [k]-th delay, [k <= 10], is received: the exchange ends
    after [k] delays with the queue holding what came behind the packet, and
    the status and code are those of the packet; a packet with a wrong
    checksum ends the exchange just the same, with the communications
    error. *)
Theorem exchange_receives_response_after_delays
        (wire : nat -> list Z) (cmd param : Z) (s : Driver)
        (k : nat) (ten rest : list Z) :
  rx s = [] -> (k <= 10)%nat ->
  (forall j, (j < k)%nat -> wire (j + clock s)%nat = []) ->
  wire (k + clock s)%nat = 0x55 :: 0xAA :: ten ++ rest ->
  bytes ten -> length ten = 10%nat ->
  let s' := snd (exchange wire cmd param s) in
  fst (exchange wire cmd param s) = fst (verdict ten)
  /\ (mRespStatus s', mRespParam s') = verdict ten
  /\ slept s' = slept s + Z.of_nat k * WAITTIME
  /\ rx s' = rest
  /\ tx s' = tx s ++ [command_packet cmd param true].
Proof.
  intros Hrx Hk Hsilent Hpkt Hten Hlen. cbv zeta.
  unfold exchange, bind, get.
  destruct (send_fields wire cmd param true s) as (Hrx1 & Hc1 & Hs1 & Ht1).
  destruct (send wire cmd param true s) as [b s1]. cbn [snd] in *.
  rewrite Hrx in Hrx1. cbn [app] in Hrx1.
  unfold awaitResponse. change (Z.to_nat TIMEOUT) with 11%nat.
  destruct k as [| k].
  - cbn [Nat.add] in Hpkt. rewrite Hpkt in Hrx1.
    rewrite (await_found wire 10 s1 [] ten rest)
      by (assumption || reflexivity).
    destruct (recvResponsePkt_verdict s1 ten rest Hten Hlen Hrx1)
      as (V & Q & S1 & _ & T1).
    cbn [fst snd]. split; [exact (f_equal fst V) |]. split; [exact V |].
    rewrite Q, S1, T1, Hs1, Ht1. cbn [Z.of_nat]. repeat split; lia.
  - rewrite (Hsilent 0%nat ltac:(lia) : wire (clock s) = []) in Hrx1.
    replace 11%nat with (S k + S (9 - k))%nat by lia.
    rewrite await_idle.
    2: assumption.
    2:{ intros j Hj. rewrite Hc1.
        replace (j + S (clock s))%nat with (S j + clock s)%nat by lia.
        apply Hsilent. lia. }
    rewrite Hc1.
    replace (k + S (clock s))%nat with (S k + clock s)%nat by lia.
    rewrite Hpkt.
    set (s2 := idle (S k) (0x55 :: 0xAA :: ten ++ rest) s1).
    rewrite (await_found wire (9 - k) s2 [] ten rest)
      by (assumption || reflexivity).
    destruct (recvResponsePkt_verdict s2 ten rest Hten Hlen eq_refl)
      as (V & Q & S2 & _ & T2).
    cbn [fst snd]. split; [exact (f_equal fst V) |]. split; [exact V |].
    rewrite Q, S2, T2. unfold s2. cbn [slept tx idle]. rewrite Hs1, Ht1.
    repeat split.
Qed.

Lemma exchange_receives_response_after_delays_witness :
  let wire := script [[]; []; response_packet ACK 9 ++ [0x42]] in
  fst (exchange wire CMD_IDENTIFY 0 power_on) = true
  /\ slept (snd (exchange wire CMD_IDENTIFY 0 power_on)) = 1000
  /\ rx (snd (exchange wire CMD_IDENTIFY 0 power_on)) = [0x42].
Proof.
  cbv zeta.
  destruct (exchange_receives_response_after_delays
              (script [[]; []; response_packet ACK 9 ++ [0x42]])
              CMD_IDENTIFY 0 power_on 2
              [0x01; 0x00; 0x09; 0x00; 0x00; 0x00; 0x30; 0x00; 0x39; 0x01] [0x42])
    as (H1 & _ & H3 & H4 & _).
  - reflexivity.
  - lia.
  - intros j Hj. destruct j as [| [| j]]; [reflexivity | reflexivity | lia].
  - reflexivity.
  - reflexivity.
  - reflexivity.
  - split; [exact H1 |]. split; [exact H3 | exact H4].
Defined.

(** X13. A response that arrives only during the eleventh delay is not received:
    the exchange fails with the not-received code after the whole wait and
    leaves the packet in the queue.  The next exchange takes it for its own
    response at its first attempt, without any delay, and leaves in the
    queue what the device sent while the next command was written. *)
Theorem late_response_answers_the_next_exchange
        (wire : nat -> list Z) (cmd1 param1 cmd2 param2 : Z) (s : Driver)
        (ten : list Z) :
  rx s = [] ->
  (forall j, (j < 11)%nat -> wire (j + clock s)%nat = []) ->
  wire (11 + clock s)%nat = 0x55 :: 0xAA :: ten ->
  bytes ten -> length ten = 10%nat ->
  let s1 := snd (exchange wire cmd1 param1 s) in
  let s2 := snd (exchange wire cmd2 param2 s1) in
  (fst (exchange wire cmd1 param1 s) = false
   /\ mRespStatus s1 = false /\ mRespParam s1 = NACK_NOT_RECVD
   /\ slept s1 = slept s + TIMEOUT * WAITTIME
   /\ rx s1 = 0x55 :: 0xAA :: ten)
  /\ (fst (exchange wire cmd2 param2 s1) = fst (verdict ten)
      /\ (mRespStatus s2, mRespParam s2) = verdict ten
      /\ slept s2 = slept s1
      /\ rx s2 = wire (12 + clock s)%nat).
Proof.
  intros Hrx Hsilent Hpkt Hten Hlen. cbv zeta.
  assert (exchange wire cmd1 param1 s
          = (false,
             idle 11 (0x55 :: 0xAA :: ten)
                  (snd (send wire cmd1 param1 true s)))) as E1.
  { unfold exchange, bind, get. 
    destruct (send wire cmd1 param1 true s) as [b s1] eqn:Es.
    assert (rx s1 = [] /\ clock s1 = S (clock s)) as [Hrx1 Hc1].
    { unfold send, bind, ret, COMMS_write in Es. injection Es as _ <-.
      cbn. rewrite Hrx. split; [| reflexivity].
      apply (Hsilent 0%nat). lia. }
    cbn [snd]. unfold awaitResponse. change (Z.to_nat TIMEOUT) with (S 10 + 0)%nat.
    rewrite await_idle.
    - rewrite Hc1. replace (10 + S (clock s))%nat with (11 + clock s)%nat by lia.
      rewrite Hpkt. reflexivity.
    - assumption.
    - intros j Hj. rewrite Hc1.
      replace (j + S (clock s))%nat with (S j + clock s)%nat by lia.
      apply Hsilent. lia. }
  rewrite E1. cbn [fst snd].
  set (s1 := idle 11 (0x55 :: 0xAA :: ten) (snd (send wire cmd1 param1 true s))).
  split.
  - unfold s1. cbn. unfold TIMEOUT, WAITTIME. repeat split.
  - assert (clock s1 = (12 + clock s)%nat) as Hc by reflexivity.
    unfold exchange, bind, get.
    destruct (send_fields wire cmd2 param2 true s1) as (Hrx' & _ & Hs' & _).
    destruct (send wire cmd2 param2 true s1) as [b s1']. cbn [snd] in *.
    rewrite Hc in Hrx'.
    change (rx s1) with (0x55 :: 0xAA :: ten) in Hrx'.
    change ((0x55 :: 0xAA :: ten) ++ wire (12 + clock s)%nat)
      with (0x55 :: 0xAA :: ten ++ wire (12 + clock s)%nat) in Hrx'.
    unfold awaitResponse. change (Z.to_nat TIMEOUT) with 11%nat.
    rewrite (await_found wire 10 s1' [] ten (wire (12 + clock s)%nat))
      by (assumption || reflexivity).
    destruct (recvResponsePkt_verdict s1' ten _ Hten Hlen Hrx')
      as (V & Q & S2 & _ & _).
    cbn [fst snd]. split; [exact (f_equal fst V) |]. split; [exact V |].
    rewrite Q, S2, Hs'. split; reflexivity.
Qed.

Lemma late_response_answers_the_next_exchange_witness :
  let wire := script (repeat [] 11 ++ [response_packet ACK 9; response_packet ACK 4]) in
  let s1 := snd (exchange wire CMD_GET_ENROLL_COUNT 0 power_on) in
  let s2 := snd (exchange wire CMD_IDENTIFY 0 s1) in
  mRespParam s1 = NACK_NOT_RECVD
  /\ (mRespStatus s2, mRespParam s2) = (true, 9)
  /\ rx s2 = response_packet ACK 4.
Proof.
  cbv zeta.
  destruct (late_response_answers_the_next_exchange
              (script (repeat [] 11 ++ [response_packet ACK 9; response_packet ACK 4]))
              CMD_GET_ENROLL_COUNT 0 CMD_IDENTIFY 0 power_on
              [0x01; 0x00; 0x09; 0x00; 0x00; 0x00; 0x30; 0x00; 0x39; 0x01])
    as ((_ & _ & H1 & _) & (_ & H2 & _ & H3)).
  - reflexivity.
  - intros j Hj. do 11 (destruct j as [| j]; [reflexivity |]). lia.
  - reflexivity.
  - reflexivity.
  - reflexivity.
  - split; [exact H1 |]. split; [exact H2 | exact H3].
Defined.

(** ** What an operation writes *)

Lemma shaken_tx wire cmd param s :
  tx (shaken wire cmd param s) = tx s ++ [command_packet cmd param true].
Proof.
  unfold shaken, awaitResponse.
  destruct (await_budget wire (Z.to_nat TIMEOUT)
              (snd (send wire cmd param true s))) as (T & _).
  rewrite T. reflexivity.
Qed.

Lemma exchange_shaken wire cmd param s :
  exchange wire cmd param s
  = (mRespStatus (shaken wire cmd param s), shaken wire cmd param s).
Proof.
  unfold exchange, shaken, bind, get.
  destruct (send wire cmd param true s) as [b s1]. cbn [snd].
  destruct (awaitResponse wire s1) as [[] s2]. reflexivity.
Qed.

Lemma exchange_tx wire cmd param s :
  tx (snd (exchange wire cmd param s)) = tx s ++ [command_packet cmd param true].
Proof. rewrite exchange_shaken. apply shaken_tx. Qed.

Lemma createEnrollmentTemplate_by_stage_tx wire s :
  tx (snd (createEnrollmentTemplate wire s))
  = tx s ++ (if mEnrollmentStage s =? 0 then [command_packet CMD_ENROLL1 0 true]
             else if mEnrollmentStage s =? 1 then [command_packet CMD_ENROLL2 0 true]
             else if mEnrollmentStage s =? 2 then [command_packet CMD_ENROLL3 0 true]
             else []).
Proof.
  rewrite createEnrollmentTemplate_shaken. cbv zeta.
  destruct (mEnrollmentStage s =? 0);
    [| destruct (mEnrollmentStage s =? 1);
       [| destruct (mEnrollmentStage s =? 2);
          [| cbn [snd]; now rewrite app_nil_r]]];
    match goal with
    | |- context [shaken wire ?c 0 s] =>
        pose proof (shaken_tx wire c 0 s) as T;
        set (s2 := shaken wire c 0 s) in *
    end;
    destruct (mRespStatus s2); exact T.
Qed.

(** X14. [createEnrollmentTemplate] asks for the template of the current stage:
    ENROLL1, ENROLL2 or ENROLL3 for the stages 0, 1 and 2.  For any other
    stage it returns false without writing anything and without touching
    the driver: status and code are still those of the exchange before. *)
Theorem createEnrollmentTemplate_by_stage (wire : nat -> list Z) (s : Driver) :
  let s' := snd (createEnrollmentTemplate wire s) in
  tx s'
  = tx s ++ (if mEnrollmentStage s =? 0 then [command_packet CMD_ENROLL1 0 true]
             else if mEnrollmentStage s =? 1 then [command_packet CMD_ENROLL2 0 true]
             else if mEnrollmentStage s =? 2 then [command_packet CMD_ENROLL3 0 true]
             else [])
  /\ (fst (createEnrollmentTemplate wire s) = true -> mRespStatus s' = true)
  /\ (~ 0 <= mEnrollmentStage s <= 2 ->
      createEnrollmentTemplate wire s = (false, s)).
Proof.
  cbv zeta. rewrite createEnrollmentTemplate_shaken. cbv zeta.
  destruct (mEnrollmentStage s =? 0) eqn:E0;
    [| destruct (mEnrollmentStage s =? 1) eqn:E1;
       [| destruct (mEnrollmentStage s =? 2) eqn:E2;
          [| split; [cbn [snd]; now rewrite app_nil_r |];
             split; [discriminate | reflexivity]]]];
    match goal with
    | |- context [shaken wire ?c 0 s] =>
        pose proof (shaken_tx wire c 0 s) as T;
        set (s2 := shaken wire c 0 s) in *
    end;
    destruct (mRespStatus s2) eqn:Es; cbn [fst snd tx with_stage mRespStatus];
    (split; [exact T |]); (split; [intros; congruence |]);
    intros H; exfalso; apply H;
    match goal with
    | E : (mEnrollmentStage s =? _) = true |- _ => apply Z.eqb_eq in E; lia
    end.
Qed.

(** * Further properties of the enrollment workflow *)

Lemma out_fields us str s :
  let s' := snd (out us str s) in
  shown s' = shown s ++ (if us then [str] else [])
  /\ tx s' = tx s /\ mEnrollmentStage s' = mEnrollmentStage s
  /\ mRespStatus s' = mRespStatus s /\ mRespParam s' = mRespParam s.
Proof.
  unfold out. cbn [snd]. destruct us; cbn; repeat split.
  now rewrite app_nil_r.
Qed.

(** ** The commands of a round *)

(** X15. In its CAPTURE state a round writes the light-on command and then the
    capture command, whatever the device answers: when the light cannot be
    switched on the workflow is marked failed and finished, and the capture
    is still asked for.  In its ENROLL state a round writes the light-off
    command and then the template command of the current stage, whatever the
    device answers to the first. *)
Theorem enroll_round_writes_both_commands
        (wire : nat -> list Z) (id : Z) (usingStream : bool) (e : Enroll)
        (s : Driver) :
  let e' := fst (enroll_round wire id usingStream e s) in
  let s' := snd (enroll_round wire id usingStream e s) in
  (state e = CAPTURE ->
   tx s' = tx s ++ [command_packet CMD_CMOS_LED 1 true;
                    command_packet CMD_CAPTURE_FINGER 1 true]
   /\ (fst (powerCMOS wire true (snd (out usingStream "Place finger" s))) = false ->
       success e' = false /\ finished e' = true))
  /\ (state e = ENROLL ->
      tx s'
      = tx s ++ [command_packet CMD_CMOS_LED 0 true]
          ++ (if mEnrollmentStage s =? 0 then [command_packet CMD_ENROLL1 0 true]
              else if mEnrollmentStage s =? 1 then [command_packet CMD_ENROLL2 0 true]
              else if mEnrollmentStage s =? 2 then [command_packet CMD_ENROLL3 0 true]
              else [])
      /\ (fst (powerCMOS wire false s) = false ->
          success e' = false /\ finished e' = true)).
Proof.
  cbv zeta. split; intros Hst; unfold enroll_round, bind, get, ret; rewrite Hst.
  - destruct (out_fields usingStream "Place finger" s) as (_ & T0 & _).
    destruct (out usingStream "Place finger" s) as [[] s0]. cbn [snd] in *.
    unfold powerCMOS, captureFingerprint.
    pose proof (exchange_tx wire CMD_CMOS_LED (Z.b2z true) s0) as T1.
    destruct (exchange wire CMD_CMOS_LED (Z.b2z true) s0) as [lit s1].
    pose proof (exchange_tx wire CMD_CAPTURE_FINGER (Z.b2z true) s1) as T2.
    destruct (exchange wire CMD_CAPTURE_FINGER (Z.b2z true) s1) as [ok s2].
    cbn [fst snd] in *.
    assert (tx s2 = tx s ++ [command_packet CMD_CMOS_LED 1 true;
                             command_packet CMD_CAPTURE_FINGER 1 true]) as T
        by (rewrite T2, T1, T0, <- app_assoc; reflexivity).
    destruct ok; [| destruct (mRespParam s2 =? NACK_COMM_ERR)]; cbn [fst snd];
      (split; [exact T | intros ->; cbn; split; reflexivity]).
  - unfold powerCMOS.
    pose proof (exchange_tx wire CMD_CMOS_LED (Z.b2z false) s) as T1.
    pose proof (exchange_stage wire CMD_CMOS_LED (Z.b2z false) s) as G1.
    destruct (exchange wire CMD_CMOS_LED (Z.b2z false) s) as [dark s1].
    pose proof (createEnrollmentTemplate_by_stage_tx wire s1) as T2.
    destruct (createEnrollmentTemplate wire s1) as [ok s2].
    cbn [fst snd] in *. rewrite G1 in T2.
    assert (tx s2
            = tx s ++ [command_packet CMD_CMOS_LED 0 true]
                ++ (if mEnrollmentStage s =? 0 then [command_packet CMD_ENROLL1 0 true]
                    else if mEnrollmentStage s =? 1
                         then [command_packet CMD_ENROLL2 0 true]
                         else if mEnrollmentStage s =? 2
                              then [command_packet CMD_ENROLL3 0 true]
                              else [])) as T
        by (rewrite T2, T1, <- app_assoc; reflexivity).
    destruct ok;
      [ destruct (mEnrollmentStage s2 =? 3)
      | destruct ((mRespParam s2 =? NACK_ENROLL_FAILED)
                  || (mRespParam s2 =? NACK_BAD_FINGER)) ];
      cbn [fst snd];
      (split; [exact T | intros ->; cbn; split; reflexivity]).
Qed.

(** ** What a true result means *)

Lemma createEnrollmentTemplate_true wire s :
  fst (createEnrollmentTemplate wire s) = true ->
  mRespStatus (snd (createEnrollmentTemplate wire s)) = true.
Proof.
  rewrite createEnrollmentTemplate_shaken. cbv zeta.
  destruct (mEnrollmentStage s =? 0);
    [| destruct (mEnrollmentStage s =? 1);
       [| destruct (mEnrollmentStage s =? 2); [| discriminate]]];
    match goal with
    | |- context [shaken wire ?c 0 s] => set (s2 := shaken wire c 0 s) in *
    end;
    destruct (mRespStatus s2) eqn:Es; cbn [fst snd mRespStatus with_stage];
    congruence.
Qed.

Lemma enroll_round_settled wire id us e s :
  finished e = false -> settled e s ->
  settled (fst (enroll_round wire id us e s)) (snd (enroll_round wire id us e s)).
Proof.
  intros Hf (I1 & I2 & I3).
  assert (success e = true) as Hs
      by (destruct (success e); [reflexivity | rewrite I1 in Hf; congruence]).
  unfold settled, enroll_round, bind, get, ret.
  destruct (state e) eqn:Est.
  - (* START *)
    destruct (startEnrollment wire id s) as [[|] s1]; cbn [fst snd state success finished];
      (split; [congruence |]); (split; [congruence |]); discriminate.
  - (* CAPTURE *)
    destruct (out us "Place finger" s) as [[] s0].
    destruct (powerCMOS wire true s0) as [lit s1].
    destruct (captureFingerprint wire true s1) as [ok s2].
    destruct lit, ok; [| destruct (mRespParam s2 =? NACK_COMM_ERR) | |
                       destruct (mRespParam s2 =? NACK_COMM_ERR)];
      cbn [negb fst snd state success finished];
      (split; [congruence |]); (split; [congruence |]); congruence.
  - (* ENROLL *)
    destruct (powerCMOS wire false s) as [dark s1].
    pose proof (perform_stage wire CreateEnrollmentTemplate s1) as R.
    cbn [perform stage_rule] in R.
    pose proof (createEnrollmentTemplate_true wire s1) as Q.
    pose proof (createEnrollmentTemplate_by_stage_tx wire s1) as T.
    destruct (createEnrollmentTemplate wire s1) as [ok s2]. cbn [fst snd] in *.
    destruct ok.
    + destruct (mEnrollmentStage s2 =? 3) eqn:E3.
      * apply Z.eqb_eq in E3.
        assert (mEnrollmentStage s1 = 2) as E2 by lia.
        rewrite E2 in T. cbn in T.
        destruct dark; cbn [negb fst snd state success finished];
          (split; [congruence |]); (split; [congruence |]);
          intros _; (split; [exact E3 |]); (split; [now apply Q |]);
          now exists (tx s1).
      * destruct dark; cbn [negb fst snd state success finished];
          (split; [congruence |]); (split; [congruence |]); discriminate.
    + destruct ((mRespParam s2 =? NACK_ENROLL_FAILED)
                || (mRespParam s2 =? NACK_BAD_FINGER));
        destruct dark; cbn [negb fst snd state success finished];
        (split; [congruence |]); (split; [congruence |]); congruence.
  - (* COMPLETE *)
    cbn [fst snd state success finished].
    split; [congruence |]. split; [congruence |]. intros _. now apply I3.
  - (* REMOVE_FINGER *)
    destruct (out us "Remove finger" s) as [[] s0].
    destruct (finger_gone wire 5 0 s0) as [i s1].
    destruct (i =? 5);
      [destruct (mRespParam s1 =? NACK_FINGER_IS_NOT_PRESSED) |];
      cbn [fst snd state success finished];
      (split; [congruence |]); (split; [congruence |]); congruence.
Qed.

Lemma enroll_while_settled wire id us fuel :
  forall e s e' s',
    settled e s ->
    enroll_while wire fuel id us e s = Some (e', s') ->
    settled e' s' /\ finished e' = true.
Proof.
  induction fuel as [| fuel IH]; intros e s e' s' I H; cbn [enroll_while] in H;
    destruct (finished e) eqn:Hf; try discriminate;
    try (injection H as <- <-; now split).
  pose proof (enroll_round_settled wire id us e s Hf I) as I'.
  destruct (enroll_round wire id us e s) as [e1 s1]. cbn [fst snd] in I'.
  exact (IH e1 s1 e' s' I' H).
Qed.

(** X16. [enrollSequence] returns true only when the device has acknowledged all
    three templates: the enrollment stage is 3, the last response received
    was a success, and the last packet written was the ENROLL3 command. *)
Theorem enrollSequence_true_only_if
        (wire : nat -> list Z) (fuel : nat) (id : Z) (usingStream : bool)
        (s s' : Driver) :
  enrollSequence wire fuel id usingStream s = Some (true, s') ->
  mEnrollmentStage s' = 3 /\ mRespStatus s' = true
  /\ exists before, tx s' = before ++ [command_packet CMD_ENROLL3 0 true].
Proof.
  unfold enrollSequence.
  destruct (out usingStream "Beginning enroll" s) as [[] s0].
  destruct (enroll_while wire fuel id usingStream (mkEnroll START true false) s0)
    as [[e s1] |] eqn:W; [| discriminate].
  assert (settled (mkEnroll START true false) s0) as I0.
  { unfold settled. cbn. repeat split; discriminate. }
  destruct (enroll_while_settled wire id usingStream fuel _ _ _ _ I0 W)
    as ((_ & I2 & I3) & Hf).
  destruct (out_fields usingStream (if success e then "Success!" else "Failed to enroll") s1)
    as (_ & T & G & R & _).
  destruct (out usingStream (if success e then "Success!" else "Failed to enroll") s1)
    as [[] s2]. cbn [snd] in *.
  intros H. injection H as Hs <-.
  rewrite T, G, R. apply I3, I2; assumption.
Qed.

Lemma enrollSequence_true_only_if_witness :
  match enrollSequence cooperative 11 3 true power_on with
  | Some (true, s') => mEnrollmentStage s' = 3
  | _ => False
  end.
Proof.
  assert (option_map fst (enrollSequence cooperative 11 3 true power_on) = Some true)
    as R by (vm_compute; reflexivity).
  destruct (enrollSequence cooperative 11 3 true power_on) as [[[] s'] |] eqn:H;
    [| discriminate R | discriminate R].
  exact (proj1 (enrollSequence_true_only_if cooperative 11 3 true power_on s' H)).
Defined.

(** ** The progress messages *)

Lemma finger_gone_shown wire tries :
  forall i s, shown (snd (finger_gone wire tries i s)) = shown s.
Proof.
  induction tries as [| tries IH]; intros i s; [reflexivity |].
  cbn [finger_gone]. unfold bind.
  pose proof (b_shown _ _ _ (perform_budget wire IsFingerPressed s)) as R.
  cbn [perform] in R.
  destruct (isFingerPressed wire s) as [[|] s1]; cbn [snd] in *;
    [exact R | now rewrite IH].
Qed.

Lemma enroll_round_shown wire id us e s :
  exists prompts,
    shown (snd (enroll_round wire id us e s))
    = shown s ++ (if us then prompts else [])
    /\ Forall prompt prompts.
Proof.
  unfold enroll_round, bind, get, ret.
  destruct (state e) eqn:Est.
  - (* START *)
    pose proof (b_shown _ _ _ (perform_budget wire (StartEnrollment id) s)) as R.
    cbn [perform] in R.
    destruct (startEnrollment wire id s) as [[|] s1]; cbn [fst snd] in *;
      exists []; (split; [| constructor]); rewrite R;
      destruct us; now rewrite app_nil_r.
  - (* CAPTURE *)
    destruct (out_fields us "Place finger" s) as (O & _).
    destruct (out us "Place finger" s) as [[] s0]. cbn [snd] in O.
    pose proof (b_shown _ _ _ (perform_budget wire (PowerCMOS true) s0)) as R1.
    cbn [perform] in R1.
    destruct (powerCMOS wire true s0) as [lit s1]. cbn [fst snd] in R1.
    pose proof (b_shown _ _ _ (perform_budget wire (CaptureFingerprint true) s1)) as R2.
    cbn [perform] in R2.
    destruct (captureFingerprint wire true s1) as [ok s2]. cbn [fst snd] in R2.
    exists ["Place finger"%string].
    split; [| repeat constructor].
    destruct ok; [| destruct (mRespParam s2 =? NACK_COMM_ERR)];
      cbn [snd]; congruence.
  - (* ENROLL *)
    pose proof (b_shown _ _ _ (perform_budget wire (PowerCMOS false) s)) as R1.
    cbn [perform] in R1.
    destruct (powerCMOS wire false s) as [dark s1]. cbn [fst snd] in R1.
    pose proof (b_shown _ _ _ (perform_budget wire CreateEnrollmentTemplate s1)) as R2.
    cbn [perform] in R2.
    destruct (createEnrollmentTemplate wire s1) as [ok s2]. cbn [fst snd] in R2.
    exists []. split; [| constructor].
    assert (shown s2 = shown s ++ (if us then [] else [])) as R
        by (destruct us; rewrite app_nil_r; congruence).
    destruct ok;
      [ destruct (mEnrollmentStage s2 =? 3)
      | destruct ((mRespParam s2 =? NACK_ENROLL_FAILED)
                  || (mRespParam s2 =? NACK_BAD_FINGER)) ];
      exact R.
  - (* COMPLETE *)
    exists []. split; [| constructor]. cbn [snd].
    destruct us; now rewrite app_nil_r.
  - (* REMOVE_FINGER *)
    destruct (out_fields us "Remove finger" s) as (O & _).
    destruct (out us "Remove finger" s) as [[] s0]. cbn [snd] in O.
    pose proof (finger_gone_shown wire 5 0 s0) as F.
    destruct (finger_gone wire 5 0 s0) as [i s1]. cbn [snd] in F.
    exists ["Remove finger"%string].
    split; [| repeat constructor; now right].
    destruct (i =? 5);
      [destruct (mRespParam s1 =? NACK_FINGER_IS_NOT_PRESSED) |];
      cbn [snd]; congruence.
Qed.

Lemma enroll_while_shown wire id us fuel :
  forall e s e' s',
    enroll_while wire fuel id us e s = Some (e', s') ->
    exists prompts,
      shown s' = shown s ++ (if us then prompts else [])
      /\ Forall prompt prompts.
Proof.
  induction fuel as [| fuel IH]; intros e s e' s' H; cbn [enroll_while] in H;
    destruct (finished e) eqn:Hf; try discriminate;
    try (injection H as <- <-; exists []; split; [| constructor];
         destruct us; now rewrite app_nil_r).
  destruct (enroll_round_shown wire id us e s) as (p1 & S1 & F1).
  destruct (enroll_round wire id us e s) as [e1 s1]. cbn [snd] in S1.
  destruct (IH e1 s1 e' s' H) as (p2 & S2 & F2).
  exists (p1 ++ p2). split; [| now apply Forall_app].
  rewrite S2, S1, <- app_assoc. now destruct us.
Qed.

(** X17. Without a stream [enrollSequence] shows nothing.  With one, it shows
    "Beginning enroll" first, then only prompts to place or to remove the
    finger, and as its last message "Success!" when it returns true and
    "Failed to enroll" when it returns false. *)
Theorem enrollSequence_messages
        (wire : nat -> list Z) (fuel : nat) (id : Z) (usingStream : bool)
        (s s' : Driver) (r : bool) :
  enrollSequence wire fuel id usingStream s = Some (r, s') ->
  exists prompts,
    Forall prompt prompts
    /\ shown s'
       = shown s
           ++ (if usingStream
               then ["Beginning enroll"%string] ++ prompts
                      ++ [if r then "Success!"%string else "Failed to enroll"%string]
               else []).
Proof.
  unfold enrollSequence.
  destruct (out_fields usingStream "Beginning enroll" s) as (O0 & _).
  destruct (out usingStream "Beginning enroll" s) as [[] s0]. cbn [snd] in O0.
  destruct (enroll_while wire fuel id usingStream (mkEnroll START true false) s0)
    as [[e s1] |] eqn:W; [| discriminate].
  destruct (enroll_while_shown wire id usingStream fuel _ _ _ _ W) as (p & S1 & F).
  destruct (out_fields usingStream (if success e then "Success!" else "Failed to enroll") s1)
    as (O2 & _).
  destruct (out usingStream (if success e then "Success!" else "Failed to enroll") s1)
    as [[] s2]. cbn [snd] in O2.
  intros H. injection H as <- <-.
  exists p. split; [exact F |].
  rewrite O2, S1, O0. destruct usingStream.
  - now rewrite <- !app_assoc.
  - now rewrite !app_nil_r.
Qed.

Lemma enrollSequence_messages_witness :
  match enrollSequence (script [response_packet NACK NACK_IS_ALREADY_USED]) 2 3 true
          power_on with
  | Some (r, s') =>
      r = false
      /\ exists prompts,
          Forall prompt prompts
          /\ shown s'
             = shown power_on
                 ++ ["Beginning enroll"%string] ++ prompts
                 ++ [if r then "Success!"%string else "Failed to enroll"%string]
  | None => False
  end.
Proof.
  assert (option_map fst
            (enrollSequence (script [response_packet NACK NACK_IS_ALREADY_USED]) 2 3
               true power_on) = Some false)
    as R by (vm_compute; reflexivity).
  destruct (enrollSequence (script [response_packet NACK NACK_IS_ALREADY_USED]) 2 3
              true power_on) as [[r s'] |] eqn:H; [| discriminate R].
  split; [now injection R |].
  exact (enrollSequence_messages _ 2 3 true power_on s' r H).
Defined.

(** ** A refused start *)

(** X18. When the start of the enrollment fails, for whatever reason,
    [enrollSequence] returns false after that one exchange: the start command
    is the only packet written, the enrollment stage is left as it was, and
    status and code are those of the failed start. *)
Theorem enrollSequence_stops_when_start_fails
        (wire : nat -> list Z) (fuel : nat) (id : Z) (usingStream : bool)
        (s : Driver) :
  let s1 := snd (startEnrollment wire id
                   (snd (out usingStream "Beginning enroll" s))) in
  fst (startEnrollment wire id (snd (out usingStream "Beginning enroll" s))) = false ->
  exists s',
    enrollSequence wire (S fuel) id usingStream s = Some (false, s')
    /\ tx s' = tx s ++ [command_packet CMD_ENROLL_START id true]
    /\ mEnrollmentStage s' = mEnrollmentStage s
    /\ mRespStatus s' = false
    /\ mRespParam s' = mRespParam s1.
Proof.
  cbv zeta. unfold enrollSequence.
  destruct (out_fields usingStream "Beginning enroll" s) as (_ & T0 & G0 & _).
  destruct (out usingStream "Beginning enroll" s) as [[] s0]. cbn [snd] in *.
  cbn [enroll_while finished]. unfold enroll_round at 1. cbn [state]. unfold bind.
  rewrite startEnrollment_shaken. cbv zeta.
  pose proof (shaken_tx wire CMD_ENROLL_START id s0) as T1.
  pose proof (ex_stage _ _ (shaken_exchanged wire CMD_ENROLL_START id s0)) as G1.
  set (s1 := shaken wire CMD_ENROLL_START id s0) in *.
  destruct (mRespStatus s1) eqn:E; cbn [fst snd]; [discriminate |]. intros _.
  unfold ret. destruct fuel; cbn [enroll_while finished success];
    destruct (out_fields usingStream "Failed to enroll" s1) as (_ & T & G & R & P);
    destruct (out usingStream "Failed to enroll" s1) as [[] s2]; cbn [snd] in *;
    exists s2; (split; [reflexivity |]); repeat split; congruence.
Qed.

Lemma enrollSequence_stops_when_start_fails_witness :
  let wire := script [response_packet NACK NACK_IS_ALREADY_USED] in
  exists s',
    enrollSequence wire 1 7 false power_on = Some (false, s')
    /\ tx s' = tx power_on ++ [command_packet CMD_ENROLL_START 7 true]
    /\ mEnrollmentStage s' = mEnrollmentStage power_on
    /\ mRespStatus s' = false
    /\ mRespParam s' = NACK_IS_ALREADY_USED.
Proof.
  cbv zeta.
  destruct (enrollSequence_stops_when_start_fails
              (script [response_packet NACK NACK_IS_ALREADY_USED]) 0 7 false power_on)
    as (s' & H & T & G & R & P); [vm_compute; reflexivity |].
  exists s'. split; [exact H |]. split; [exact T |]. split; [exact G |].
  split; [exact R |]. rewrite P. vm_compute. reflexivity.
Defined.

(** * Properties of the error messages *)

Lemma to_word_idempotent v : to_word (to_word v) = to_word v.
Proof. unfold to_word. apply Z.mod_mod. lia. Qed.

Lemma to_word_add_multiple v k : to_word (v + k * 2 ^ 16) = to_word v.
Proof. unfold to_word. apply Z.mod_add. lia. Qed.

Lemma strFromError_word a : strFromError (to_word a) = strFromError a.
Proof. unfold strFromError. now rewrite to_word_idempotent. Qed.

Lemma strFromError_known a :
  In (to_word a) RESPONSE_ERROR -> strFromError a <> "unrecognized error"%string.
Proof.
  unfold strFromError. cbv zeta. generalize (to_word a) as w. intros w H.
  unfold RESPONSE_ERROR in H. cbn [In] in H.
  repeat (destruct H as [<- | H]; [vm_compute; discriminate |]).
  destruct H.
Qed.

Lemma strFromError_unknown a :
  ~ In (to_word a) RESPONSE_ERROR -> strFromError a = "unrecognized error"%string.
Proof.
  unfold strFromError. cbv zeta. generalize (to_word a) as w. intros w H.
  repeat match goal with
         | |- (if w =? ?c then _ else _) = _ =>
             destruct (Z.eqb_spec w c) as [-> | _];
             [exfalso; apply H; unfold RESPONSE_ERROR; cbn [In]; tauto |]
         end.
  reflexivity.
Qed.

Lemma strFromError_table :
  forallb (fun a =>
             forallb (fun b =>
                        implb (String.eqb (strFromError a) (strFromError b))
                              (a =? b))
                     RESPONSE_ERROR)
          RESPONSE_ERROR = true.
Proof. vm_compute. reflexivity. Qed.

(** X19. [strFromError] looks at the low 16 bits of the code it is given and
    at nothing else: codes that differ by a multiple of 2^16, as the 32-bit
    [mRespParam] of the callers may, get the same message.  On those 16 bits
    it gives every member of [enum RESPONSE_ERROR] a message of its own, and
    "unrecognized error" to every other value and to those only: two codes
    with the same message have the same low 16 bits, or the low 16 bits of
    neither are a member of the enumeration. *)
Theorem strFromError_tells_codes_apart :
  (forall a k, strFromError (a + k * 2 ^ 16) = strFromError a)
  /\ (forall a,
         In (to_word a) RESPONSE_ERROR
         <-> strFromError a <> "unrecognized error"%string)
  /\ (forall a b,
         strFromError a = strFromError b ->
         to_word a = to_word b
         \/ (~ In (to_word a) RESPONSE_ERROR /\ ~ In (to_word b) RESPONSE_ERROR)).
Proof.
  assert (forall a, In (to_word a) RESPONSE_ERROR
                    <-> strFromError a <> "unrecognized error"%string) as K.
  { intros a. split; [apply strFromError_known |].
    intros H. destruct (in_dec Z.eq_dec (to_word a) RESPONSE_ERROR) as [Y | N];
      [exact Y | now apply strFromError_unknown in N]. }
  split; [| split; [exact K |]].
  { intros a k. rewrite <- (strFromError_word (a + k * 2 ^ 16)).
    rewrite to_word_add_multiple. apply strFromError_word. }
  intros a b H.
  destruct (in_dec Z.eq_dec (to_word a) RESPONSE_ERROR) as [Ya | Na];
    destruct (in_dec Z.eq_dec (to_word b) RESPONSE_ERROR) as [Yb | Nb].
  - left. pose proof strFromError_table as Q.
    rewrite forallb_forall in Q. specialize (Q _ Ya).
    rewrite forallb_forall in Q. specialize (Q _ Yb).
    rewrite !strFromError_word, H, String.eqb_refl in Q. now apply Z.eqb_eq.
  - exfalso. apply (proj1 (K a) Ya). rewrite H. now apply strFromError_unknown.
  - exfalso. apply (proj1 (K b) Yb). rewrite <- H. now apply strFromError_unknown.
  - right. now split.
Qed.
